(** * NDOP publication: the record resolver, the aggregator and the rate step

    A shallow embedding of the data pipeline of the National Data Opt-out
    publication.  A pandas DataFrame is a list of rows, in row order; a
    nullable column is an [option]; a date column holds calendar dates that
    compare in calendar order (the ISO string a snapshot date is passed as is
    parsed back by pandas at every comparison). *)

From Stdlib Require Import ZArith List String Ascii Bool Lia.
From Stdlib Require Import Permutation Sorted QArith DecimalString.
Import ListNotations.
Local Open Scope Z_scope.

(* ================================================================== *)
(** ** Calendar dates *)
(* ================================================================== *)

Record Date : Type := mkDate { year : Z; month : Z; day : Z }.

Definition date_eqb (a b : Date) : bool :=
  (year a =? year b) && (month a =? month b) && (day a =? day b).

Definition date_ltb (a b : Date) : bool :=
  (year a <? year b)
  || ((year a =? year b)
      && ((month a <? month b) || ((month a =? month b) && (day a <? day b)))).

Definition date_leb (a b : Date) : bool := date_ltb a b || date_eqb a b.

Definition date_lt (a b : Date) : Prop := date_ltb a b = true.
Definition date_le (a b : Date) : Prop := date_leb a b = true.

(** Comparisons of a nullable date column with a date: a null cell compares
    [False] under every operator, as NaT does in pandas. *)
Definition isna {A : Type} (x : option A) : bool :=
  match x with Some _ => false | None => true end.

Definition notna {A : Type} (x : option A) : bool := negb (isna x).

Definition col_le (x : option Date) (d : Date) : bool :=
  match x with Some v => date_leb v d | None => false end.

Definition col_ge (x : option Date) (d : Date) : bool :=
  match x with Some v => date_leb d v | None => false end.

Definition col_gt (x : option Date) (d : Date) : bool :=
  match x with Some v => date_ltb d v | None => false end.

(* ================================================================== *)
(** ** NDOP records (the columns read by [config.get_ndop_data]) *)
(* ================================================================== *)

Record Row : Type := mkRow {
  NHS_Number : option string;
  AGE_BAND : option string;
  DATE_OF_DEATH : option Date;
  GP_PRACTICE : option string;
  LSOA_CODE : option string;
  GENDER : option string;
  Record_Start_Date : option Date;
  Record_End_Date : option Date;
  ACH_DATE : option Date   (* absent until [slice_ndop_by_month] adds it *)
}.

Definition DataFrame : Type := list Row.

Definition set_ACH_DATE (r : Row) (d : Date) : Row :=
  mkRow (NHS_Number r) (AGE_BAND r) (DATE_OF_DEATH r) (GP_PRACTICE r)
        (LSOA_CODE r) (GENDER r) (Record_Start_Date r) (Record_End_Date r)
        (Some d).

(* ================================================================== *)
(** ** ndop/preprocessing/ndop_aggregate.py *)
(* ================================================================== *)

(** [df[(null_date_of_death) | (rped_before_date_of_death)]] *)
Definition filter_living_patients (df : DataFrame) (date : Date) : DataFrame :=
  filter (fun r => isna (DATE_OF_DEATH r) || col_gt (DATE_OF_DEATH r) date) df.

(** [df.query("DATE_OF_DEATH <= '{date}'")] *)
Definition filter_deceased_patients (df : DataFrame) (date : Date) : DataFrame :=
  filter (fun r => col_le (DATE_OF_DEATH r) date) df.

Definition same_patient (id : string) (r : Row) : bool :=
  match NHS_Number r with Some i => String.eqb i id | None => false end.

(** [groupby(["NHS_Number"])["Record_Start_Date"].rank(method="first",
    ascending=False)] for the row [r] standing between the rows [before] and
    the rows [after] of its frame.  Rows with a null key belong to no group and
    a null date is not ranked: both get NaN ([None]).  Otherwise the rank is
    one more than the number of rows of the same patient that sort before [r]:
    those with a later start date, and those with the same start date that
    come earlier in the frame. *)
Definition rank_first_descending (before after : list Row) (r : Row) : option Z :=
  match NHS_Number r, Record_Start_Date r with
  | Some id, Some s =>
      Some (1
            + Z.of_nat (List.length (filter (fun x => same_patient id x
                                   && col_ge (Record_Start_Date x) s) before))
            + Z.of_nat (List.length (filter (fun x => same_patient id x
                                   && col_gt (Record_Start_Date x) s) after)))
  | _, _ => None
  end.

(** The frame with its "Row Num" column. *)
Fixpoint with_row_num (before rest : list Row) : list (Row * option Z) :=
  match rest with
  | [] => []
  | r :: tl => (r, rank_first_descending before tl r)
               :: with_row_num (before ++ [r]) tl
  end.

Definition row_num_is_1 (p : Row * option Z) : bool :=
  match snd p with Some k => k =? 1 | None => false end.

(** [df[df["Row Num"] == 1].drop(columns=["Row Num"]).reset_index(drop=True)] *)
Definition retrieve_most_recent_record (df : DataFrame) : DataFrame :=
  map fst (filter row_num_is_1 (with_row_num [] df)).

Definition active_on (date : Date) (r : Row) : bool :=
  col_le (Record_Start_Date r) date
  && (col_ge (Record_End_Date r) date || isna (Record_End_Date r)).

Definition slice_ndop_by_month (df : DataFrame) (date : Date) : DataFrame :=
  map (fun r => set_ACH_DATE r date) (filter (active_on date) df).

Definition process_active_ndop_records (df : DataFrame) (date : Date) : DataFrame :=
  retrieve_most_recent_record
    (filter_living_patients (slice_ndop_by_month df date) date).

Definition process_deceased_ndop_records (df : DataFrame) (date : Date) : DataFrame :=
  retrieve_most_recent_record
    (filter_deceased_patients (slice_ndop_by_month df date) date).

(* ================================================================== *)
(** ** ndop/config/params.py and ndop/preprocessing/ndop_clean.py *)
(* ================================================================== *)

Definition INVALID_NHS_NUMBERS : list string :=
  [ "1111111111"; "2222222222"; "3333333333"; "4444444444"; "5555555555";
    "6666666666"; "7777777777"; "8888888888"; "9999999999" ]%string.

(** [Series.isin(values)]: a null cell is in no list of strings. *)
Definition isin (x : option string) (values : list string) : bool :=
  match x with
  | Some s => existsb (String.eqb s) values
  | None => false
  end.

(** [Series.str[0]]: the first character; NaN for a null cell and for the
    empty string. *)
Definition str_0 (x : option string) : option string :=
  match x with
  | Some (String c _) => Some (String c EmptyString)
  | _ => None
  end.

(** [Series == s]: NaN equals no string. *)
Definition col_eq (x : option string) (s : string) : bool :=
  match x with Some v => String.eqb v s | None => false end.

(** [Series != s]: NaN differs from every string. *)
Definition col_ne (x : option string) (s : string) : bool :=
  match x with Some v => negb (String.eqb v s) | None => true end.

Definition fillna {A : Type} (x : option A) (v : A) : option A :=
  match x with Some a => Some a | None => Some v end.

Definition remove_nhs_number_starting_with_9 (df : DataFrame) : DataFrame :=
  filter (fun r => col_ne (str_0 (NHS_Number r)) "9"%string) df.

Definition remove_nhs_number_which_are_null (df : DataFrame) : DataFrame :=
  filter (fun r => notna (NHS_Number r)) df.

Definition remove_nhs_number_which_are_invalid (df : DataFrame) : DataFrame :=
  filter (fun r => negb (isin (NHS_Number r) INVALID_NHS_NUMBERS)) df.

Definition fill_empty_categorical_column_values (df : DataFrame) : DataFrame :=
  map (fun r =>
         mkRow (NHS_Number r) (AGE_BAND r) (DATE_OF_DEATH r)
               (fillna (GP_PRACTICE r) "Unallocated"%string)
               (fillna (LSOA_CODE r) "Unallocated"%string)
               (GENDER r) (Record_Start_Date r) (Record_End_Date r)
               (ACH_DATE r)) df.

Definition fill_empty_gender_column_values (df : DataFrame) : DataFrame :=
  map (fun r =>
         mkRow (NHS_Number r) (AGE_BAND r) (DATE_OF_DEATH r) (GP_PRACTICE r)
               (LSOA_CODE r)
               (fillna (GENDER r) "Unknown / Prefer not to say"%string)
               (Record_Start_Date r) (Record_End_Date r) (ACH_DATE r)) df.

Definition clean_nhs_numbers (df : DataFrame) : DataFrame :=
  fill_empty_gender_column_values
    (fill_empty_categorical_column_values
       (remove_nhs_number_which_are_null
          (remove_nhs_number_starting_with_9
             (remove_nhs_number_which_are_invalid df)))).

(* ================================================================== *)
(** ** ndop/config/config.py: the reporting window *)
(* ================================================================== *)

Definition is_leap_year (y : Z) : bool :=
  (y mod 4 =? 0) && (negb (y mod 100 =? 0) || (y mod 400 =? 0)).

Definition days_in_month (y m : Z) : Z :=
  if m =? 2 then (if is_leap_year y then 29 else 28)
  else if (m =? 4) || (m =? 6) || (m =? 9) || (m =? 11) then 30
  else 31.

(** The dates that [pd.to_datetime] accepts. *)
Definition valid_date (d : Date) : Prop :=
  1 <= month d <= 12 /\ 1 <= day d <= days_in_month (year d) (month d).

(** Months counted from year 0, and the first day of the month so numbered. *)
Definition month_index (d : Date) : Z := 12 * year d + (month d - 1).

Definition first_of_month (i : Z) : Date := mkDate (i / 12) (i mod 12 + 1) 1.

(** [date - pd.DateOffset(months=n)]: the same day of the month [n] months
    earlier, clipped to the last day of that month. *)
Definition sub_months (d : Date) (n : Z) : Date :=
  let i := month_index d - n in
  let y := i / 12 in
  let m := i mod 12 + 1 in
  mkDate y m (Z.min (day d) (days_in_month y m)).

Record reportDates : Type := mk_reportDates {
  end_date : Date;
  publishing_date : Date;
  reporting_period : Z;
  start_date : Date
}.

Definition get_report_period_start_date (end_date : Date) (reporting_period : Z)
  : Date :=
  sub_months end_date reporting_period.

(** The dataclass constructor with its [__post_init__]. *)
Definition new_reportDates (end_date publishing_date : Date)
  (reporting_period : Z) : reportDates :=
  mk_reportDates end_date publishing_date reporting_period
                 (get_report_period_start_date end_date reporting_period).

(** The month-start offset (freq="MS"). *)
Definition is_on_offset (d : Date) : bool := day d =? 1.

Definition add_month_begin (d : Date) : Date :=
  first_of_month (month_index d + 1).

Definition rollforward (d : Date) : Date :=
  if is_on_offset d then d else add_month_begin d.

Definition rollback (d : Date) : Date :=
  if is_on_offset d then d else mkDate (year d) (month d) 1.

(** The loop of [pd.date_range]: [while cur <= end: yield cur; cur += offset]. *)
Fixpoint generate_range (fuel : nat) (cur end_ : Date) : list Date :=
  match fuel with
  | O => []
  | S k =>
      if date_leb cur end_
      then cur :: generate_range k (add_month_begin cur) end_
      else []
  end.

(** [pd.date_range(start, end, freq="MS")].  The loop runs at most once per
    month between the two ends, so the fuel below is never exhausted. *)
Definition date_range_MS (start end_ : Date) : list Date :=
  let s := rollforward start in
  let e := rollback end_ in
  generate_range (Z.to_nat (month_index e - month_index s + 2)) s e.

Definition get_reporting_months_list (rd : reportDates) : list Date :=
  date_range_MS (start_date rd) (end_date rd).

(** [pd.concat] of the monthly tables. *)
Definition concatenate_ndop_monthly_records
  (ndop_record_type_function : DataFrame -> Date -> DataFrame)
  (df : DataFrame) (report_dt : reportDates) : DataFrame :=
  List.concat (map (fun date => ndop_record_type_function df date)
              (get_reporting_months_list report_dt)).

(* ================================================================== *)
(** ** ndop/csv/age_gen_csv.py: aggregation by measure *)
(* ================================================================== *)

(** The columns a table is grouped by, and the values of a group key. *)
Inductive Column : Type := COL_ACH_DATE | COL_AGE_BAND | COL_GENDER.

Inductive cell : Type :=
| CDate (d : Date)
| CStr (s : string).

Definition Column_eqb (a b : Column) : bool :=
  match a, b with
  | COL_ACH_DATE, COL_ACH_DATE | COL_AGE_BAND, COL_AGE_BAND
  | COL_GENDER, COL_GENDER => true
  | _, _ => false
  end.

Definition cell_eqb (a b : cell) : bool :=
  match a, b with
  | CDate x, CDate y => date_eqb x y
  | CStr x, CStr y => String.eqb x y
  | _, _ => false
  end.

Definition cell_leb (a b : cell) : bool :=
  match a, b with
  | CDate x, CDate y => date_leb x y
  | CStr x, CStr y => String.leb x y
  | CDate _, CStr _ => true
  | CStr _, CDate _ => false
  end.

Fixpoint key_eqb (a b : list cell) : bool :=
  match a, b with
  | [], [] => true
  | x :: a', y :: b' => cell_eqb x y && key_eqb a' b'
  | _, _ => false
  end.

(** Group keys are ordered column by column. *)
Fixpoint key_leb (a b : list cell) : bool :=
  match a, b with
  | [], _ => true
  | _ :: _, [] => false
  | x :: a', y :: b' =>
      if cell_eqb x y then key_leb a' b' else cell_leb x y
  end.

(** Access to a column by its name, for the row types that are grouped. *)
Class Columns (R : Type) : Type := column_value : Column -> R -> option cell.

#[export] Instance Row_columns : Columns Row :=
  fun c r =>
    match c with
    | COL_ACH_DATE => option_map CDate (ACH_DATE r)
    | COL_AGE_BAND => option_map CStr (AGE_BAND r)
    | COL_GENDER => option_map CStr (GENDER r)
    end.

(** The group a row falls in; a row with a null in one of the grouping
    columns falls in no group ([groupby] has [dropna=True]). *)
Fixpoint group_key {R : Type} {cols : Columns R} (measures : list Column)
  (r : R) : option (list cell) :=
  match measures with
  | [] => Some []
  | c :: cs =>
      match column_value c r, group_key cs r with
      | Some v, Some k => Some (v :: k)
      | _, _ => None
      end
  end.

Definition in_group {R : Type} {cols : Columns R} (measures : list Column)
  (k : list cell) (r : R) : bool :=
  match group_key measures r with
  | Some k' => key_eqb k' k
  | None => false
  end.

Fixpoint keys_of {R : Type} {cols : Columns R} (measures : list Column)
  (df : list R) : list (list cell) :=
  match df with
  | [] => []
  | r :: tl =>
      match group_key measures r with
      | Some k => k :: keys_of measures tl
      | None => keys_of measures tl
      end
  end.

Fixpoint unique (l : list (list cell)) : list (list cell) :=
  match l with
  | [] => []
  | k :: tl => k :: filter (fun k' => negb (key_eqb k k')) (unique tl)
  end.

Fixpoint insert_sorted {A : Type} (leb : A -> A -> bool) (x : A) (l : list A)
  : list A :=
  match l with
  | [] => [x]
  | y :: tl => if leb x y then x :: l else y :: insert_sorted leb x tl
  end.

Fixpoint sort_by {A : Type} (leb : A -> A -> bool) (l : list A) : list A :=
  match l with
  | [] => []
  | x :: tl => insert_sorted leb x (sort_by leb tl)
  end.

(** [df.groupby(measures)]: the groups in key order, each with its rows in
    frame order. *)
Definition groupby {R : Type} {cols : Columns R} (measures : list Column)
  (df : list R) : list (list cell * list R) :=
  map (fun k => (k, filter (in_group measures k) df))
      (sort_by key_leb (unique (keys_of measures df))).

(** [["NHS_Number"].count()]: the non-null cells of the group. *)
Definition count_NHS_Number (g : list Row) : Z :=
  Z.of_nat (List.length (filter (fun r => notna (NHS_Number r)) g)).

(** The value of column [c] in a group key made for [measures]. *)
Fixpoint key_lookup (measures : list Column) (k : list cell) (c : Column)
  : option cell :=
  match measures, k with
  | m :: ms, v :: vs => if Column_eqb m c then Some v else key_lookup ms vs c
  | _, _ => None
  end.

Module Agg.
(** A row of an aggregated table.  ACH_DATE is there when the table was
    grouped by it; AGE_BAND and GENDER always are, after
    [add_age_or_gender_columns]. *)
Record row : Type := mk {
  ACH_DATE : option Date;
  AGE_BAND : string;
  GENDER : string;
  OPT_OUT : Z
}.
End Agg.

Definition cell_date (x : option cell) : option Date :=
  match x with Some (CDate d) => Some d | _ => None end.

(** A cell of a column that [reindex] created, or left, as NaN is filled. *)
Definition cell_str_fillna (x : option cell) (fill_value : string) : string :=
  match x with Some (CStr s) => s | _ => fill_value end.

(** [reindex(columns.union(["AGE_BAND", "GENDER"])).fillna(fill_value)] on the
    frame whose columns are [measures] and OPT_OUT. *)
Definition add_age_or_gender_columns (measures : list Column)
  (df : list (list cell * Z)) (fill_value : string) : list Agg.row :=
  map (fun kc =>
         Agg.mk (cell_date (key_lookup measures (fst kc) COL_ACH_DATE))
                (cell_str_fillna (key_lookup measures (fst kc) COL_AGE_BAND)
                                 fill_value)
                (cell_str_fillna (key_lookup measures (fst kc) COL_GENDER)
                                 fill_value)
                (snd kc)) df.

Definition aggregate_ndop_by_measure (df : DataFrame) (measures : list Column)
  (fill_value : string) : list Agg.row :=
  add_age_or_gender_columns measures
    (map (fun g => (fst g, count_NHS_Number (snd g))) (groupby measures df))
    fill_value.

Definition NDOP_MEASURES : list (list Column) :=
  [ [COL_ACH_DATE; COL_AGE_BAND; COL_GENDER];
    [COL_ACH_DATE; COL_GENDER];
    [COL_ACH_DATE; COL_AGE_BAND];
    [COL_ACH_DATE] ].

Definition NDOP_DECEASED_MEASURES : list (list Column) :=
  [ [COL_ACH_DATE; COL_GENDER]; [COL_ACH_DATE] ].

Definition create_df_list_for_age_gen_csv (df : DataFrame)
  (measure_groups : list (list Column)) (fill_value : string)
  : list (list Agg.row) :=
  map (fun measure => aggregate_ndop_by_measure df measure fill_value)
      measure_groups.

(* ================================================================== *)
(** ** ndop/csv/age_gen_csv.py: rates, ordering and suppression *)
(* ================================================================== *)

(** A frame whose index matters: the rows with their index labels. *)
Definition Frame (A : Type) : Type := list (nat * A).

Definition index {A : Type} (df : Frame A) : list nat := map fst df.
Definition values {A : Type} (df : Frame A) : list A := map snd df.

(** A fresh RangeIndex. *)
Definition reset_index {A : Type} (rows : list A) : Frame A :=
  combine (seq 0 (List.length rows)) rows.

(** A column assignment: the rows change, the index stays. *)
Definition assign {A B : Type} (f : A -> B) (df : Frame A) : Frame B :=
  map (fun p => (fst p, f (snd p))) df.

(** A cell of a float column, up to rounding: a number, an infinity or NaN. *)
Inductive fvalue : Type :=
| FNum (q : Q)
| FInf (negative : bool)
| FNaN.

Module ListSize.
(** A row of the long list size table made by [list_size.preprocess_list_size]:
    the patients of one practice, month, age band and gender (the columns
    used here). *)
Record row : Type := mk {
  GP_PRACTICE : option string;
  ACH_DATE : option Date;
  AGE_BAND : option string;    (* "0_9", ..., "90+" *)
  GENDER : option string;      (* "MALE", "FEMALE" *)
  LIST_SIZE : option Z
}.
End ListSize.

#[export] Instance ListSize_columns : Columns ListSize.row :=
  fun c r =>
    match c with
    | COL_ACH_DATE => option_map CDate (ListSize.ACH_DATE r)
    | COL_AGE_BAND => option_map CStr (ListSize.AGE_BAND r)
    | COL_GENDER => option_map CStr (ListSize.GENDER r)
    end.

Module ListSizeAgg.
(** A row of [list_size.list_size_for_age_gen_csv]: the list size summed
    over a date, an age band and a gender; a column that a grouping does
    not have is NaN until it is filled. *)
Record row : Type := mk {
  ACH_DATE : option Date;
  AGE_BAND : option string;
  GENDER : option string;
  LIST_SIZE : Z
}.
End ListSizeAgg.

Module Merged.
Record row : Type := mk {
  ACH_DATE : option Date;
  AGE_BAND : string;
  GENDER : string;
  OPT_OUT : Z;
  LIST_SIZE : option Z     (* NaN where the left join found no list size *)
}.
End Merged.

Module Csv.
Record row : Type := mk {
  ACH_DATE : option Date;
  AGE_BAND : option string;   (* NaN once categorical, outside the categories *)
  GENDER : option string;
  OPT_OUT : Z;
  LIST_SIZE : option Z;
  OPT_OUT_RATE : fvalue
}.
End Csv.

Module Published.
Record row : Type := mk {
  ACH_DATE : option string;   (* dd/mm/yyyy *)
  AGE_BAND : option string;
  GENDER : option string;
  OPT_OUT : Z;
  LIST_SIZE : option Z;
  OPT_OUT_RATE : fvalue
}.
End Published.

(* ------------------------------------------------------------------ *)
(** *** ndop/preprocessing/list_size.py *)

Definition cell_str (x : option cell) : option string :=
  match x with Some (CStr s) => Some s | _ => None end.

(** [groupby(measure)["LIST_SIZE"].sum()]: null cells add nothing. *)
Definition sum_LIST_SIZE (g : list ListSize.row) : Z :=
  fold_right Z.add 0
    (map (fun r => match ListSize.LIST_SIZE r with Some z => z | None => 0 end)
         g).

(** [df.groupby(measure)["LIST_SIZE"].sum().reset_index()], on the columns of
    the concatenated table. *)
Definition aggregate_list_size_by_measure (df : list ListSize.row)
  (measure : list Column) : list ListSizeAgg.row :=
  map (fun g =>
         ListSizeAgg.mk (cell_date (key_lookup measure (fst g) COL_ACH_DATE))
                        (cell_str (key_lookup measure (fst g) COL_AGE_BAND))
                        (cell_str (key_lookup measure (fst g) COL_GENDER))
                        (sum_LIST_SIZE (snd g)))
      (groupby measure df).

Fixpoint map_chars (f : ascii -> ascii) (s : string) : string :=
  match s with
  | EmptyString => EmptyString
  | String c tl => String (f c) (map_chars f tl)
  end.

Definition to_upper (c : ascii) : ascii :=
  let n := nat_of_ascii c in
  if (97 <=? n)%nat && (n <=? 122)%nat then ascii_of_nat (n - 32) else c.

Definition to_lower (c : ascii) : ascii :=
  let n := nat_of_ascii c in
  if (65 <=? n)%nat && (n <=? 90)%nat then ascii_of_nat (n + 32) else c.

(** [str.capitalize()] *)
Definition capitalize (s : string) : string :=
  match s with
  | EmptyString => EmptyString
  | String c tl => String (to_upper c) (map_chars to_lower tl)
  end.

(** [str.replace("_", "-")] *)
Definition replace_underscore (s : string) : string :=
  map_chars (fun c => if Ascii.eqb c "_" then "-"%char else c) s.

Definition remap_age_band (df : list ListSizeAgg.row) : list ListSizeAgg.row :=
  map (fun r =>
         ListSizeAgg.mk (ListSizeAgg.ACH_DATE r)
                        (option_map replace_underscore (ListSizeAgg.AGE_BAND r))
                        (ListSizeAgg.GENDER r) (ListSizeAgg.LIST_SIZE r)) df.

Definition remap_gender_column (df : list ListSizeAgg.row)
  : list ListSizeAgg.row :=
  map (fun r =>
         ListSizeAgg.mk (ListSizeAgg.ACH_DATE r) (ListSizeAgg.AGE_BAND r)
                        (option_map capitalize (ListSizeAgg.GENDER r))
                        (ListSizeAgg.LIST_SIZE r)) df.

Definition age_gen_list_size_measure_groups : list (list Column) :=
  [ [COL_ACH_DATE];
    [COL_ACH_DATE; COL_AGE_BAND; COL_GENDER];
    [COL_ACH_DATE; COL_AGE_BAND];
    [COL_ACH_DATE; COL_GENDER] ].

(** The concatenated list sizes of the four groupings, with the missing age
    band and gender cells filled with "All" (every grouping has the date). *)
Definition list_size_for_age_gen_csv (list_size_df : list ListSize.row)
  : list ListSizeAgg.row :=
  map (fun r =>
         ListSizeAgg.mk (ListSizeAgg.ACH_DATE r)
                        (fillna (ListSizeAgg.AGE_BAND r) "All"%string)
                        (fillna (ListSizeAgg.GENDER r) "All"%string)
                        (ListSizeAgg.LIST_SIZE r))
      (remap_gender_column
         (remap_age_band
            (List.concat
               (map (fun measure =>
                       aggregate_list_size_by_measure list_size_df measure)
                    age_gen_list_size_measure_groups)))).

(* ------------------------------------------------------------------ *)
(** *** The join with the list sizes *)

Definition merge_key_eqb (a : Agg.row) (l : ListSizeAgg.row) : bool :=
  match Agg.ACH_DATE a, ListSizeAgg.ACH_DATE l with
  | Some d, Some d' => date_eqb d d'
  | _, _ => false
  end
  && col_eq (ListSizeAgg.AGE_BAND l) (Agg.AGE_BAND a)
  && col_eq (ListSizeAgg.GENDER l) (Agg.GENDER a).

(** [left.merge(right, on=["ACH_DATE", "AGE_BAND", "GENDER"], how="left")]:
    every left row, in order, once per matching right row, and once with a
    NaN list size when none matches; the result has a fresh index. *)
Definition merge_left (left : list Agg.row) (right : list ListSizeAgg.row)
  : Frame Merged.row :=
  reset_index
    (flat_map
       (fun a =>
          let with_list_size ls :=
            Merged.mk (Agg.ACH_DATE a) (Agg.AGE_BAND a) (Agg.GENDER a)
                      (Agg.OPT_OUT a) ls in
          match filter (merge_key_eqb a) right with
          | [] => [with_list_size None]
          | matches =>
              map (fun l => with_list_size (Some (ListSizeAgg.LIST_SIZE l)))
                  matches
          end)
       left).

(** [x / y] on an integer column and a possibly missing one: a zero divisor
    gives an infinity, or NaN for 0/0, and raises nothing. *)
Definition true_divide (x : Z) (y : option Z) : fvalue :=
  match y with
  | None => FNaN
  | Some y =>
      if y =? 0
      then (if x =? 0 then FNaN else FInf (x <? 0))
      else FNum (inject_Z x / inject_Z y)
  end.

Definition times_100 (v : fvalue) : fvalue :=
  match v with
  | FNum q => FNum (inject_Z 100 * q)
  | FInf s => FInf s
  | FNaN => FNaN
  end.

Definition calculate_opt_out_rate (df : Frame Merged.row) : Frame Csv.row :=
  assign (fun m =>
            Csv.mk (Merged.ACH_DATE m) (Some (Merged.AGE_BAND m))
                   (Some (Merged.GENDER m)) (Merged.OPT_OUT m)
                   (Merged.LIST_SIZE m)
                   (times_100 (true_divide (Merged.OPT_OUT m)
                                           (Merged.LIST_SIZE m)))) df.

(** [Series.replace(np.nan, 0)] *)
Definition replace_nan_0 (v : fvalue) : fvalue :=
  match v with FNaN => FNum (inject_Z 0) | _ => v end.

Definition fill_list_size_and_opt_out_nan_values (df : Frame Csv.row)
  : Frame Csv.row :=
  assign (fun r =>
            Csv.mk (Csv.ACH_DATE r) (Csv.AGE_BAND r) (Csv.GENDER r)
                   (Csv.OPT_OUT r)
                   (Some (match Csv.LIST_SIZE r with Some z => z | None => 0 end))
                   (replace_nan_0 (Csv.OPT_OUT_RATE r))) df.

Definition GENDER_CATEGORIES : list string :=
  [ "All"; "All deceased"; "Female"; "Male"; "Unknown / Prefer not to say" ]%string.

Definition AGE_BAND_CATEGORIES : list string :=
  [ "0-9"; "10-19"; "20-29"; "30-39"; "40-49"; "50-59"; "60-69"; "70-79";
    "80-89"; "90+"; "All"; "Unknown"; "All deceased" ]%string.

(** [astype(CategoricalDtype(categories))]: a value outside the categories
    becomes NaN. *)
Definition as_category (categories : list string) (x : option string)
  : option string :=
  match x with
  | Some s => if existsb (String.eqb s) categories then Some s else None
  | None => None
  end.

Definition convert_gender_column_to_categorical (df : Frame Csv.row)
  : Frame Csv.row :=
  assign (fun r =>
            Csv.mk (Csv.ACH_DATE r) (Csv.AGE_BAND r)
                   (as_category GENDER_CATEGORIES (Csv.GENDER r))
                   (Csv.OPT_OUT r) (Csv.LIST_SIZE r) (Csv.OPT_OUT_RATE r)) df.

Definition convert_age_column_to_categorical (df : Frame Csv.row)
  : Frame Csv.row :=
  assign (fun r =>
            Csv.mk (Csv.ACH_DATE r)
                   (as_category AGE_BAND_CATEGORIES (Csv.AGE_BAND r))
                   (Csv.GENDER r)
                   (Csv.OPT_OUT r) (Csv.LIST_SIZE r) (Csv.OPT_OUT_RATE r)) df.

(** [(undisclosed_gender) & (not_all_age_or_deceased)] *)
Definition suppression_mask (r : Csv.row) : bool :=
  col_eq (Csv.GENDER r) "Unknown / Prefer not to say"
  && Bool.eqb (isin (Csv.AGE_BAND r) ["All"; "All deceased"]%string) false.

(** [df.drop(df[mask].index)]: every row that carries the index label of a
    masked row is dropped. *)
Definition suppress_unknown_undisclosed_gender_rows (df : Frame Csv.row)
  : Frame Csv.row :=
  let labels := index (filter (fun p => suppression_mask (snd p)) df) in
  filter (fun p => negb (existsb (Nat.eqb (fst p)) labels)) df.

(** The position of a value among the categories; NaN has none. *)
Fixpoint category_code (categories : list string) (s : string) : option nat :=
  match categories with
  | [] => None
  | c :: tl =>
      if String.eqb c s then Some O
      else option_map S (category_code tl s)
  end.

Definition code_of (categories : list string) (x : option string) : option nat :=
  match x with Some s => category_code categories s | None => None end.

(** Order of two sort keys where NaN sorts last. *)
Definition nan_last_cmp {A : Type} (eqb leb : A -> A -> bool)
  (a b : option A) : comparison :=
  match a, b with
  | Some x, Some y => if eqb x y then Eq else if leb x y then Lt else Gt
  | Some _, None => Lt
  | None, Some _ => Gt
  | None, None => Eq
  end.

(** [sort_values(["ACH_DATE", "GENDER", "AGE_BAND"],
    ascending=[False, True, True])]: is [a] allowed to stand before [b]? *)
Definition sort_values_leb (a b : Csv.row) : bool :=
  match nan_last_cmp date_eqb (fun x y => date_leb y x)
                     (Csv.ACH_DATE a) (Csv.ACH_DATE b) with
  | Lt => true
  | Gt => false
  | Eq =>
      match nan_last_cmp Nat.eqb Nat.leb
                         (code_of GENDER_CATEGORIES (Csv.GENDER a))
                         (code_of GENDER_CATEGORIES (Csv.GENDER b)) with
      | Lt => true
      | Gt => false
      | Eq =>
          match nan_last_cmp Nat.eqb Nat.leb
                             (code_of AGE_BAND_CATEGORIES (Csv.AGE_BAND a))
                             (code_of AGE_BAND_CATEGORIES (Csv.AGE_BAND b)) with
          | Gt => false
          | _ => true
          end
      end
  end.

Definition sort_values (df : Frame Csv.row) : Frame Csv.row :=
  sort_by (fun p q => sort_values_leb (snd p) (snd q)) df.

(** ndop/utils.py: [strftime("%d/%m/%Y")]. *)
Definition digit (n : Z) : ascii := ascii_of_nat (48 + Z.to_nat (n mod 10)).

Definition strftime_dmY (d : Date) : string :=
  String (digit (day d / 10)) (String (digit (day d))
  (String "/" (String (digit (month d / 10)) (String (digit (month d))
  (String "/" (String (digit (year d / 1000)) (String (digit (year d / 100))
  (String (digit (year d / 10)) (String (digit (year d)) EmptyString))))))))).

Definition published_row (r : Csv.row) : Published.row :=
  Published.mk (option_map strftime_dmY (Csv.ACH_DATE r)) (Csv.AGE_BAND r)
               (Csv.GENDER r) (Csv.OPT_OUT r) (Csv.LIST_SIZE r)
               (Csv.OPT_OUT_RATE r).

Definition format_publication_date (df : Frame Csv.row) : Frame Published.row :=
  assign published_row df.

(** The frame that [create_age_gen_csv] pipes into
    [suppress_unknown_undisclosed_gender_rows]. *)
Definition age_gen_before_suppression (ndop_df ndop_deceased_df : DataFrame)
  (list_size_df : list ListSize.row) : Frame Csv.row :=
  let ndop_dfs := create_df_list_for_age_gen_csv ndop_df NDOP_MEASURES "All" in
  let ndop_deceased_dfs :=
    create_df_list_for_age_gen_csv ndop_deceased_df NDOP_DECEASED_MEASURES
                                   "All deceased" in
  let list_size_for_age_gen_df := list_size_for_age_gen_csv list_size_df in
  convert_age_column_to_categorical
    (convert_gender_column_to_categorical
       (fill_list_size_and_opt_out_nan_values
          (calculate_opt_out_rate
             (merge_left (List.concat (ndop_dfs ++ ndop_deceased_dfs))
                         list_size_for_age_gen_df)))).

Definition create_age_gen_csv (ndop_df ndop_deceased_df : DataFrame)
  (list_size_df : list ListSize.row) : Frame Published.row :=
  format_publication_date
    (sort_values
       (suppress_unknown_undisclosed_gender_rows
          (age_gen_before_suppression ndop_df ndop_deceased_df list_size_df))).

(* ================================================================== *)
(** ** Specification vocabulary *)
(* ================================================================== *)

(** [kept_exactly P f l l']: [l'] is [l] with the rows that satisfy [P] kept,
    in order and with their multiplicity, each rewritten by [f], and every
    other row removed. *)
Inductive kept_exactly {A B : Type} (P : A -> Prop) (f : A -> B)
  : list A -> list B -> Prop :=
| kept_nil : kept_exactly P f [] []
| kept_keep a l l' :
    P a -> kept_exactly P f l l' -> kept_exactly P f (a :: l) (f a :: l')
| kept_drop a l l' :
    ~ P a -> kept_exactly P f l l' -> kept_exactly P f (a :: l) l'.

(** Death status of a record at a snapshot date, in the words of the
    specification. *)
Definition deceased_as_of (date : Date) (r : Row) : Prop :=
  exists d, DATE_OF_DEATH r = Some d /\ date_le d date.

Definition living_as_of (date : Date) (r : Row) : Prop :=
  DATE_OF_DEATH r = None \/ exists d, DATE_OF_DEATH r = Some d /\ date_lt date d.

(** A record whose validity interval contains the date. *)
Definition validity_contains (date : Date) (r : Row) : Prop :=
  (exists s, Record_Start_Date r = Some s /\ date_le s date)
  /\ (Record_End_Date r = None
      \/ exists e, Record_End_Date r = Some e /\ date_le date e).

(** Resolution of a table [t] into [out], in the words of the specification:
    [out] holds at most one row per patient identifier; each of its rows is a
    row of [t] that starts no earlier than any other row of the same patient,
    and strictly later than those standing before it in [t] (the first of the
    tied maxima is the one kept); and every patient with a dated row in [t]
    has a row in [out]. *)
Definition most_recent_first (t : DataFrame) (r : Row) : Prop :=
  exists pre post id s,
    t = pre ++ r :: post
    /\ NHS_Number r = Some id /\ Record_Start_Date r = Some s
    /\ (forall x sx, In x pre -> NHS_Number x = Some id ->
                     Record_Start_Date x = Some sx -> date_lt sx s)
    /\ (forall x sx, In x post -> NHS_Number x = Some id ->
                     Record_Start_Date x = Some sx -> date_le sx s).

Definition resolved (t out : DataFrame) : Prop :=
  NoDup (map NHS_Number out)
  /\ (forall r, In r out -> most_recent_first t r)
  /\ (forall x id s, In x t -> NHS_Number x = Some id ->
                     Record_Start_Date x = Some s ->
                     exists r, In r out /\ NHS_Number r = Some id).

(** The row that gets rank 1: no earlier row of the patient starts on or
    after it, no later row of the patient starts after it. *)
Definition ranked_first (before after : list Row) (r : Row) : Prop :=
  exists id s,
    NHS_Number r = Some id /\ Record_Start_Date r = Some s
    /\ (forall x, In x before ->
          same_patient id x && col_ge (Record_Start_Date x) s = false)
    /\ (forall x, In x after ->
          same_patient id x && col_gt (Record_Start_Date x) s = false).

(** Identifiers that are not valid NHS numbers, in the words of the
    specification: null, beginning with the character 9, or one of the
    digits 1 to 9 written ten times. *)
Fixpoint repeat_char (n : nat) (c : ascii) : string :=
  match n with
  | O => EmptyString
  | S k => String c (repeat_char k c)
  end.

Definition digits_1_to_9 : list ascii :=
  [ "1"; "2"; "3"; "4"; "5"; "6"; "7"; "8"; "9" ]%char.

Definition invalid_identifier (x : option string) : Prop :=
  x = None
  \/ (exists rest, x = Some (String "9"%char rest))
  \/ (exists d, In d digits_1_to_9 /\ x = Some (repeat_char 10 d)).

(** The integers [lo, lo+1, ..., lo+n-1]. *)
Fixpoint Zseq (lo : Z) (n : nat) : list Z :=
  match n with
  | O => []
  | S k => lo :: Zseq (lo + 1) k
  end.

(** A calendar-month boundary: the first day of a month. *)
Definition month_boundary (d : Date) : Prop := valid_date d /\ day d = 1.

(** The sum of the opt-out counts that an aggregated table gives for one
    snapshot date. *)
Definition Zsum (l : list Z) : Z := fold_right Z.add 0 l.

Definition count_for_date (agg : list Agg.row) (d : Date) : Z :=
  Zsum (map Agg.OPT_OUT
            (filter (fun a => match Agg.ACH_DATE a with
                              | Some d' => date_eqb d' d
                              | None => false
                              end) agg)).

(** The rows tagged with the snapshot date [d]. *)
Definition on_date (d : Date) (r : Row) : bool :=
  match ACH_DATE r with Some d' => date_eqb d' d | None => false end.

(** The rows that a grouping by [measures] counts for the date [d]: those
    with a value in every grouping column, that date and an identifier. *)
Definition counted_for (measures : list Column) (d : Date) (r : Row) : bool :=
  match group_key measures r with
  | Some _ =>
      match ACH_DATE r with Some d' => date_eqb d' d | None => false end
      && notna (NHS_Number r)
  | None => false
  end.

(** Cross-breakdown reconciliation of a living-cohort table. *)
Definition reconciles (df : DataFrame) : Prop :=
  forall d,
    count_for_date (aggregate_ndop_by_measure df [COL_ACH_DATE] "All") d
    = count_for_date
        (aggregate_ndop_by_measure df [COL_ACH_DATE; COL_GENDER] "All") d
    /\ count_for_date (aggregate_ndop_by_measure df [COL_ACH_DATE] "All") d
       = count_for_date
           (aggregate_ndop_by_measure df [COL_ACH_DATE; COL_AGE_BAND] "All") d.

(** The number of distinct patient identifiers among the rows of a group. *)
Fixpoint patient_ids (g : list Row) : list string :=
  match g with
  | [] => []
  | r :: tl =>
      match NHS_Number r with
      | Some id => id :: patient_ids tl
      | None => patient_ids tl
      end
  end.

Definition distinct_patients (g : list Row) : Z :=
  Z.of_nat (List.length (nodup string_dec (patient_ids g))).

(** Two rows are in the same group of a grouping when both have a value in
    every grouping column and the values are equal. *)
Definition agree_on (c : Column) (r r' : Row) : bool :=
  match c with
  | COL_ACH_DATE =>
      match ACH_DATE r, ACH_DATE r' with
      | Some d, Some d' => date_eqb d d'
      | _, _ => false
      end
  | COL_AGE_BAND =>
      match AGE_BAND r, AGE_BAND r' with
      | Some a, Some a' => String.eqb a a'
      | _, _ => false
      end
  | COL_GENDER =>
      match GENDER r, GENDER r' with
      | Some g, Some g' => String.eqb g g'
      | _, _ => false
      end
  end.

Definition same_group (measures : list Column) (r r' : Row) : bool :=
  forallb (fun c => agree_on c r r') measures.

(** What the aggregated row of the group of [r] shows in its date, age band
    and gender columns: the value of [r] in a grouping column, the fill
    value in a column that is not grouped by (no date there). *)
Definition group_labels (measures : list Column) (fill_value : string)
  (r : Row) : option Date * string * string :=
  (if existsb (Column_eqb COL_ACH_DATE) measures then ACH_DATE r else None,
   if existsb (Column_eqb COL_AGE_BAND) measures
   then match AGE_BAND r with Some a => a | None => fill_value end
   else fill_value,
   if existsb (Column_eqb COL_GENDER) measures
   then match GENDER r with Some g => g | None => fill_value end
   else fill_value).

Definition agg_labels (a : Agg.row) : option Date * string * string :=
  (Agg.ACH_DATE a, Agg.AGE_BAND a, Agg.GENDER a).

(** An aggregated table counts the distinct patients of each group of a
    table: every row of the table with a value in each grouping column has
    the row of its group, with the number of distinct patient identifiers
    among the rows of the group; every aggregated row is the row of such a
    group; and no two aggregated rows are of the same group. *)
Definition counts_distinct_patients_per_group (measures : list Column)
  (fill_value : string) (table : DataFrame) (agg : list Agg.row) : Prop :=
  (forall r, In r table -> same_group measures r r = true ->
     exists a, In a agg
               /\ agg_labels a = group_labels measures fill_value r
               /\ Agg.OPT_OUT a
                  = distinct_patients (filter (same_group measures r) table))
  /\ (forall a, In a agg ->
        exists r, In r table
                  /\ same_group measures r r = true
                  /\ agg_labels a = group_labels measures fill_value r
                  /\ Agg.OPT_OUT a
                     = distinct_patients
                         (filter (same_group measures r) table))
  /\ NoDup (map agg_labels agg).

(** The rows the publication leaves out: unknown or undisclosed gender with
    an age band that is not one of the two totals. *)
Definition suppressed_by_policy (r : Csv.row) : Prop :=
  Csv.GENDER r = Some "Unknown / Prefer not to say"%string
  /\ Csv.AGE_BAND r <> Some "All"%string
  /\ Csv.AGE_BAND r <> Some "All deceased"%string.

(** Targeted suppression of a table: the rows the rule names are removed,
    and every other row is kept as it is, with its label and in order. *)
Definition removes_exactly_suppressed (df : Frame Csv.row) : Prop :=
  kept_exactly (fun p => ~ suppressed_by_policy (snd p)) (fun p => p) df
               (suppress_unknown_undisclosed_gender_rows df).

(** All the columns of the input table are the same in [r] and [r']. *)
Definition same_fields (r r' : Row) : Prop :=
  NHS_Number r' = NHS_Number r /\ AGE_BAND r' = AGE_BAND r
  /\ DATE_OF_DEATH r' = DATE_OF_DEATH r /\ GP_PRACTICE r' = GP_PRACTICE r
  /\ LSOA_CODE r' = LSOA_CODE r /\ GENDER r' = GENDER r
  /\ Record_Start_Date r' = Record_Start_Date r
  /\ Record_End_Date r' = Record_End_Date r.

(** No patient identifier is in both partitions of a snapshot. *)
Definition mutually_exclusive (df : DataFrame) (date : Date) : Prop :=
  forall id,
    ~ (In (Some id) (map NHS_Number (process_active_ndop_records df date))
       /\ In (Some id) (map NHS_Number (process_deceased_ndop_records df date))).

(** The active versions of every patient agree on the death status. *)
Definition versions_agree (df : DataFrame) (date : Date) : Prop :=
  forall id r1 r2,
    In r1 (slice_ndop_by_month df date) -> In r2 (slice_ndop_by_month df date) ->
    NHS_Number r1 = Some id -> NHS_Number r2 = Some id ->
    living_as_of date r1 -> deceased_as_of date r2 -> False.

(** Sample records. *)
Definition d_2022_05_01 : Date := mkDate 2022 5 1.
Definition d_2022_06_01 : Date := mkDate 2022 6 1.
Definition d_2022_07_01 : Date := mkDate 2022 7 1.

Definition patient_B : Row :=
  mkRow (Some "4000000002"%string) (Some "50-59"%string) (Some d_2022_06_01)
        (Some "A81001"%string) (Some "E01000001"%string) (Some "Female"%string)
        (Some (mkDate 2020 1 1)) None None.

(** Two versions of one patient, both active in May 2022: the older one has
    no date of death, the newer one has. *)
Definition patient_C_v1 : Row :=
  mkRow (Some "4000000003"%string) (Some "70-79"%string) None
        (Some "A81001"%string) (Some "E01000001"%string) (Some "Male"%string)
        (Some (mkDate 2022 1 1)) None None.

Definition patient_C_v2 : Row :=
  mkRow (Some "4000000003"%string) (Some "70-79"%string) (Some (mkDate 2022 3 1))
        (Some "A81001"%string) (Some "E01000001"%string) (Some "Male"%string)
        (Some (mkDate 2022 2 1)) None None.

(** A record whose age band is null. *)
Definition patient_D : Row :=
  mkRow (Some "4000000004"%string) None None
        (Some "A81001"%string) (Some "E01000001"%string) (Some "Male"%string)
        (Some (mkDate 2021 3 1)) None None.

Definition sample_records : DataFrame :=
  [patient_B; patient_C_v1; patient_C_v2].

(** A reporting window of May to July 2022, and the two cohorts that
    [preprocess_ndop_data] makes of a table of records for it. *)
Definition sample_report_dates : reportDates :=
  new_reportDates d_2022_07_01 (mkDate 2022 8 4) 2.

Definition living_cohort (df : DataFrame) : DataFrame :=
  concatenate_ndop_monthly_records process_active_ndop_records df
                                   sample_report_dates.

Definition deceased_cohort (df : DataFrame) : DataFrame :=
  concatenate_ndop_monthly_records process_deceased_ndop_records df
                                   sample_report_dates.

(** An opt-out of a man aged 90 or over, and the list sizes of July 2022 of
    a practice that has no patient of that age band. *)
Definition patient_E : Row :=
  mkRow (Some "4000000005"%string) (Some "90+"%string) None
        (Some "A81001"%string) (Some "E01000001"%string) (Some "Male"%string)
        (Some (mkDate 2021 3 1)) None None.

Definition sample_list_size : list ListSize.row :=
  [ ListSize.mk (Some "A81001"%string) (Some d_2022_07_01)
                (Some "40_49"%string) (Some "MALE"%string) (Some 5);
    ListSize.mk (Some "A81001"%string) (Some d_2022_07_01)
                (Some "90+"%string) (Some "MALE"%string) (Some 0) ].

(* ================================================================== *)
(** ** Further code: flags, practice and LSOA counts *)
(* ================================================================== *)

Module Flagged.
(** A row of [flag_active_record_per_month]: the record, its flag for the
    report date and its "Row Num". *)
Record row : Type := mk {
  record : Row;
  is_active_on : Z;
  Row_Num : option Z
}.
End Flagged.

(** [np.where(active_ndop_record & (null_date_of_death |
    rped_before_date_of_death), 1, 0)], and the rank over the whole frame. *)
Definition flag_active_record_per_month (df : DataFrame) (report_date : Date)
  : list Flagged.row :=
  map (fun p =>
         Flagged.mk (fst p)
           (if active_on report_date (fst p)
               && (isna (DATE_OF_DEATH (fst p))
                   || col_gt (DATE_OF_DEATH (fst p)) report_date)
            then 1 else 0)
           (snd p))
      (with_row_num [] df).

(* ------------------------------------------------------------------ *)
(** *** ndop/config/config.py: the publishing date *)

(** Python's [l[i]]: a negative index counts from the end, and an index
    outside the list raises IndexError ([None]). *)
Definition py_index {A : Type} (l : list A) (i : Z) : option A :=
  let n := Z.of_nat (List.length l) in
  if (0 <=? i) && (i <? n) then nth_error l (Z.to_nat i)
  else if (- n <=? i) && (i <? 0) then nth_error l (Z.to_nat (n + i))
  else None.

(** The suffix that [format_publishing_date] picks for a day of the month. *)
Definition publishing_day_suffix (date : Z) : option string :=
  if ((4 <=? date) && (date <=? 20)) || ((24 <=? date) && (date <=? 30))
  then Some "th"%string
  else py_index ["st"; "nd"; "rd"]%string (date mod 10 - 1).

Definition MONTH_NAMES : list string :=
  [ "January"; "February"; "March"; "April"; "May"; "June"; "July"; "August";
    "September"; "October"; "November"; "December" ]%string.

(** [strftime]'s [%d], [%B] and [%Y]. *)
Definition strftime_d (d : Date) : string :=
  String (digit (day d / 10)) (String (digit (day d)) EmptyString).

Definition strftime_B (d : Date) : string :=
  nth (Z.to_nat (month d - 1)) MONTH_NAMES EmptyString.

Definition strftime_Y (d : Date) : string :=
  String (digit (year d / 1000)) (String (digit (year d / 100))
  (String (digit (year d / 10)) (String (digit (year d)) EmptyString))).

(** [strftime(f"%d{suffix} %B %Y")] of the publishing date. *)
Definition format_publishing_date (rd : reportDates) : option string :=
  let d := publishing_date rd in
  match publishing_day_suffix (day d) with
  | Some suffix =>
      Some (strftime_d d ++ suffix ++ " " ++ strftime_B d ++ " "
            ++ strftime_Y d)%string
  | None => None
  end.

(** The English ordinal suffix of a number. *)
Definition ordinal_suffix (n : Z) : string :=
  if (11 <=? n mod 100) && (n mod 100 <=? 13) then "th"%string
  else if n mod 10 =? 1 then "st"%string
  else if n mod 10 =? 2 then "nd"%string
  else if n mod 10 =? 3 then "rd"%string
  else "th"%string.

(** The numerator row that a merged row was made from. *)
Definition numerator_row (m : Merged.row) : Agg.row :=
  Agg.mk (Merged.ACH_DATE m) (Merged.AGE_BAND m) (Merged.GENDER m)
         (Merged.OPT_OUT m).

(* ------------------------------------------------------------------ *)
(** *** ndop/utils.py *)

(** [df[df["ACH_DATE"] == end_date.strftime("%d/%m/%Y")]], on a table whose
    date column is already formatted. *)
Definition filter_data_to_current_month (df : Frame Published.row)
  (report_date : reportDates) : Frame Published.row :=
  filter (fun p => col_eq (Published.ACH_DATE (snd p))
                          (strftime_dmY (end_date report_date))) df.

(** A date of the calendar with a four-digit year. *)
Definition printable_date (d : Date) : Prop :=
  valid_date d /\ 0 <= year d <= 9999.

(** The order that [sort_values] leaves between the dates of two rows: later
    dates first, rows without a date last. *)
Definition date_descending (a b : Csv.row) : Prop :=
  match Csv.ACH_DATE a, Csv.ACH_DATE b with
  | Some x, Some y => date_le y x
  | Some _, None => True
  | None, Some _ => False
  | None, None => True
  end.

(* ------------------------------------------------------------------ *)
(** *** Grouping on any columns *)

Section GroupByOn.
Context {R : Type}.
Variable key : R -> option (list cell).

Definition in_group_on (k : list cell) (r : R) : bool :=
  match key r with
  | Some k' => key_eqb k' k
  | None => false
  end.

Fixpoint keys_on (df : list R) : list (list cell) :=
  match df with
  | [] => []
  | r :: tl =>
      match key r with
      | Some k => k :: keys_on tl
      | None => keys_on tl
      end
  end.

(** [df.groupby(columns)] where [key] reads the grouping columns of a row
    and is [None] when one of them is null. *)
Definition groupby_on (df : list R) : list (list cell * list R) :=
  map (fun k => (k, filter (in_group_on k) df))
      (sort_by key_leb (unique (keys_on df))).
End GroupByOn.

(** The grouping columns of [aggregate_ndop_by_practice]:
    ["ACH_DATE", "GP_PRACTICE"]. *)
Definition practice_key (r : Row) : option (list cell) :=
  match ACH_DATE r, GP_PRACTICE r with
  | Some d, Some p => Some [CDate d; CStr p]
  | _, _ => None
  end.

(** The grouping columns of [aggregate_ndop_by_lsoa]:
    ["ACH_DATE", "LSOA_CODE"]. *)
Definition lsoa_key (r : Row) : option (list cell) :=
  match ACH_DATE r, LSOA_CODE r with
  | Some d, Some l => Some [CDate d; CStr l]
  | _, _ => None
  end.

(** [groupby(["ACH_DATE", "GP_PRACTICE"])["NHS_Number"].count().reset_index()]:
    a row is the values of the two grouping columns and OPT_OUT. *)
Definition aggregate_ndop_by_practice (ndop_df : DataFrame)
  : list (list cell * Z) :=
  map (fun g => (fst g, count_NHS_Number (snd g)))
      (groupby_on practice_key ndop_df).

Definition aggregate_ndop_by_lsoa (ndop_df : DataFrame)
  : list (list cell * Z) :=
  map (fun g => (fst g, count_NHS_Number (snd g)))
      (groupby_on lsoa_key ndop_df).

(* ------------------------------------------------------------------ *)
(** *** ndop/preprocessing/ndop_clean.py: the remaining cleaning steps *)

(** [str.lstrip(chars)], [str.rstrip(chars)] and [str.strip(chars)] on text
    given as the sequence of its code points, all below 256. *)
Fixpoint lstrip (chars : list ascii) (s : string) : string :=
  match s with
  | EmptyString => EmptyString
  | String c tl =>
      if existsb (Ascii.eqb c) chars then lstrip chars tl else s
  end.

Fixpoint rstrip (chars : list ascii) (s : string) : string :=
  match s with
  | EmptyString => EmptyString
  | String c tl =>
      match rstrip chars tl with
      | EmptyString =>
          if existsb (Ascii.eqb c) chars then EmptyString
          else String c EmptyString
      | t => String c t
      end
  end.

Definition strip (chars : list ascii) (s : string) : string :=
  lstrip chars (rstrip chars s).

(** The characters that [str.strip()] removes when it is given none: the
    white space below 256. *)
Definition WHITESPACE : list ascii :=
  map ascii_of_nat [9; 10; 11; 12; 13; 28; 29; 30; 31; 32; 133; 160]%nat.

Definition set_GP_PRACTICE (r : Row) (v : option string) : Row :=
  mkRow (NHS_Number r) (AGE_BAND r) (DATE_OF_DEATH r) v (LSOA_CODE r)
        (GENDER r) (Record_Start_Date r) (Record_End_Date r) (ACH_DATE r).

Definition set_AGE_BAND (r : Row) (v : option string) : Row :=
  mkRow (NHS_Number r) v (DATE_OF_DEATH r) (GP_PRACTICE r) (LSOA_CODE r)
        (GENDER r) (Record_Start_Date r) (Record_End_Date r) (ACH_DATE r).

Definition set_GENDER (r : Row) (v : option string) : Row :=
  mkRow (NHS_Number r) (AGE_BAND r) (DATE_OF_DEATH r) (GP_PRACTICE r)
        (LSOA_CODE r) v (Record_Start_Date r) (Record_End_Date r)
        (ACH_DATE r).

(** [df["GP_PRACTICE"].str.strip()] *)
Definition remove_practice_code_whitespace (df : DataFrame) : DataFrame :=
  map (fun r =>
         set_GP_PRACTICE r (option_map (strip WHITESPACE) (GP_PRACTICE r)))
      df.

(** [Series.replace(mappings)]: a cell equal to a key becomes the value of
    that key; every other cell, and a null one, is left as it is. *)
Definition replace_values (mappings : list (string * string))
  (x : option string) : option string :=
  match x with
  | Some s =>
      match find (fun kv => String.eqb (fst kv) s) mappings with
      | Some kv => Some (snd kv)
      | None => Some s
      end
  | None => None
  end.

Definition age_mappings : list (string * string) :=
  [ ("N/", "Unknown"); ("90 and over", "90+") ]%string.

Definition remap_ndop_age_column (df : DataFrame) : DataFrame :=
  map (fun r =>
         set_AGE_BAND r
           (replace_values age_mappings
              (option_map (strip (list_ascii_of_string "Age "))
                          (AGE_BAND r))))
      df.

Definition gender_mappings : list (string * string) :=
  [ ("1", "Male");
    ("2", "Female");
    ("0", "Unknown / Prefer not to say");
    ("None", "Unknown / Prefer not to say");
    ("9", "Unknown / Prefer not to say") ]%string.

Definition remap_ndop_gender_column (df : DataFrame) : DataFrame :=
  map (fun r => set_GENDER r (replace_values gender_mappings (GENDER r))) df.

Module config.
(** The WHERE clause of the query, on the rows of the table it reads: a
    comparison with a null date is not true. *)
Definition get_ndop_data (report_date : reportDates) (NDOP_DEMOG : DataFrame)
  : DataFrame :=
  filter (fun r =>
            col_le (Record_Start_Date r) (end_date report_date)
            && (col_ge (Record_End_Date r) (start_date report_date)
                || isna (Record_End_Date r)))
         NDOP_DEMOG.
End config.

Module ndop_clean.
Definition get_ndop_data (dates : reportDates) (NDOP_DEMOG : DataFrame)
  : DataFrame :=
  remap_ndop_gender_column
    (remap_ndop_age_column
       (remove_practice_code_whitespace
          (clean_nhs_numbers (config.get_ndop_data dates NDOP_DEMOG)))).
End ndop_clean.

(** ndop_aggregate.py: the Living and the Deceased cohort of the report. *)
Definition preprocess_ndop_data (report_dates : reportDates)
  (NDOP_DEMOG : DataFrame) : DataFrame * DataFrame :=
  let ndop_df := ndop_clean.get_ndop_data report_dates NDOP_DEMOG in
  (concatenate_ndop_monthly_records process_active_ndop_records ndop_df
                                    report_dates,
   concatenate_ndop_monthly_records process_deceased_ndop_records ndop_df
                                    report_dates).

(** The list size that an aggregated table gives for one date. *)
Definition list_size_for_date (agg : list ListSizeAgg.row) (d : Date) : Z :=
  Zsum (map ListSizeAgg.LIST_SIZE
            (filter (fun a => match ListSizeAgg.ACH_DATE a with
                              | Some d' => date_eqb d' d
                              | None => false
                              end) agg)).

(** A text that neither begins nor ends with one of [chars]. *)
Definition first_char (s : string) : option ascii :=
  match s with
  | EmptyString => None
  | String c _ => Some c
  end.

Fixpoint last_char (s : string) : option ascii :=
  match s with
  | EmptyString => None
  | String c tl =>
      match tl with
      | EmptyString => Some c
      | String _ _ => last_char tl
      end
  end.

Definition trimmed (chars : list ascii) (s : string) : Prop :=
  (forall c, first_char s = Some c -> ~ In c chars)
  /\ (forall c, last_char s = Some c -> ~ In c chars).

(** The row that the cleaning steps of [get_ndop_data] make of a row, and
    the rows that its filters keep. *)
Definition cleaned_row (r : Row) : Row :=
  mkRow (NHS_Number r)
        (replace_values age_mappings
           (option_map (strip (list_ascii_of_string "Age ")) (AGE_BAND r)))
        (DATE_OF_DEATH r)
        (option_map (strip WHITESPACE)
                    (fillna (GP_PRACTICE r) "Unallocated"%string))
        (fillna (LSOA_CODE r) "Unallocated"%string)
        (replace_values gender_mappings
           (fillna (GENDER r) "Unknown / Prefer not to say"%string))
        (Record_Start_Date r) (Record_End_Date r) (ACH_DATE r).

Definition extracted_and_kept (dates : reportDates) (r : Row) : bool :=
  col_le (Record_Start_Date r) (end_date dates)
  && (col_ge (Record_End_Date r) (start_date dates)
      || isna (Record_End_Date r))
  && negb (isin (NHS_Number r) INVALID_NHS_NUMBERS)
  && col_ne (str_0 (NHS_Number r)) "9"
  && notna (NHS_Number r).

(* ------------------------------------------------------------------ *)
(** *** ndop/excel/table_2.py and table_3.py *)

(** [df.drop(labels)]: every row that carries one of the labels goes. *)
Definition drop {A : Type} (df : Frame A) (labels : list nat) : Frame A :=
  filter (fun p => negb (existsb (Nat.eqb (fst p)) labels)) df.

Definition remove_total_counts (df : Frame Published.row)
  : Frame Published.row :=
  let df :=
    filter (fun p => negb (isin (Published.GENDER (snd p))
                                ["All"; "All deceased"]%string)) df in
  drop df
       (index (filter (fun p =>
                         col_eq (Published.AGE_BAND (snd p)) "All"
                         && isin (Published.GENDER (snd p))
                                 ["Male"; "Female"]%string) df)).

(** The rows that Table 2 is meant to keep. *)
Definition table_2_row (o : Published.row) : bool :=
  negb (isin (Published.GENDER o) ["All"; "All deceased"]%string)
  && negb (col_eq (Published.AGE_BAND o) "All"
           && isin (Published.GENDER o) ["Male"; "Female"]%string).

Module Table3.
(** A row of the practice table before it is reordered, and after: the
    replacements put text in the two number columns. *)
Record row : Type := mk {
  GP_PRACTICE : option string;
  PRACTICE_NAME : option string;
  OPT_OUT : Z;
  LIST_SIZE : Z;
  OPT_OUT_RATE : fvalue
}.

Inductive count_cell : Type := Count (z : Z) | Dash.
Inductive rate_cell : Type := Rate (v : fvalue) | Zed.

Record written : Type := mk_written {
  practice_code : option string;
  practice_name : option string;
  opt_out : count_cell;
  list_size : Z;
  opt_out_rate : rate_cell
}.
End Table3.

(** [Series.replace(0, "-")] and [Series.replace(np.inf, "z")] *)
Definition replace_0_dash (z : Z) : Table3.count_cell :=
  if z =? 0 then Table3.Dash else Table3.Count z.

Definition replace_inf_z (v : fvalue) : Table3.rate_cell :=
  match v with
  | FInf false => Table3.Zed
  | _ => Table3.Rate v
  end.

Definition reorder_practices (df : list Table3.row) : list Table3.written :=
  let practice_standard :=
    map (fun r =>
           Table3.mk_written (Table3.GP_PRACTICE r) (Table3.PRACTICE_NAME r)
                             (Table3.Count (Table3.OPT_OUT r))
                             (Table3.LIST_SIZE r)
                             (Table3.Rate (Table3.OPT_OUT_RATE r)))
        (filter (fun r => (Table3.OPT_OUT r >? 0)
                          && col_ne (Table3.PRACTICE_NAME r) "Unallocated")
                df) in
  let practice_zero_opt_out :=
    map (fun r =>
           Table3.mk_written (Table3.GP_PRACTICE r) (Table3.PRACTICE_NAME r)
                             (replace_0_dash (Table3.OPT_OUT r))
                             (Table3.LIST_SIZE r)
                             (Table3.Rate (Table3.OPT_OUT_RATE r)))
        (filter (fun r => Table3.OPT_OUT r =? 0) df) in
  let practice_unallocated :=
    map (fun r =>
           Table3.mk_written (Table3.GP_PRACTICE r) (Table3.PRACTICE_NAME r)
                             (Table3.Count (Table3.OPT_OUT r))
                             (Table3.LIST_SIZE r)
                             (replace_inf_z (Table3.OPT_OUT_RATE r)))
        (filter (fun r => col_eq (Table3.PRACTICE_NAME r) "Unallocated") df) in
  practice_standard ++ practice_zero_opt_out ++ practice_unallocated.

(* ------------------------------------------------------------------ *)
(** *** ndop/excel/excel_utils.py *)

(** A worksheet as [ws.iter_rows()] yields it: the rows from the first on,
    each with the values of its cells from column A on; a cell that holds no
    text is [None]. *)
Definition Worksheet : Type := list (list (option string)).

(** What a loop has done when its fuel is spent: returned, or still
    running. *)
Inductive outcome (A : Type) : Type :=
| Returned (a : A)
| Running.

Arguments Returned {A} a.
Arguments Running {A}.

(** The inner [for cell in row], for a row whose first cell is in column
    [column]: the column of the first cell equal to the tag. *)
Fixpoint find_in_row (tag : string) (row : list (option string)) (column : nat)
  : option nat :=
  match row with
  | [] => None
  | value :: tl =>
      if col_eq value tag then Some column
      else find_in_row tag tl (S column)
  end.

(** The [for row in ws.iter_rows()]: the coordinate of the first tagged
    cell. *)
Fixpoint find_in_rows (tag : string) (rows : Worksheet) (row_number : nat)
  : option (nat * nat) :=
  match rows with
  | [] => None
  | row :: tl =>
      match find_in_row tag row 1 with
      | Some column => Some (row_number, column)
      | None => find_in_rows tag tl (S row_number)
      end
  end.

Definition max_search : nat := 1000.

(** [while iter <= max_search]: a pass over the sheet returns at the first
    tagged cell; without one it adds the number of cells to [iter]. *)
Fixpoint find_cell_by_tag_loop (fuel : nat) (ws : Worksheet) (tag : string)
  (iter : nat) : outcome (option (nat * nat)) :=
  match fuel with
  | O => Running
  | S fuel' =>
      if (iter <=? max_search)%nat
      then match find_in_rows tag ws 1 with
           | Some coordinate => Returned (Some coordinate)
           | None =>
               find_cell_by_tag_loop fuel' ws tag
                 (iter + List.length (List.concat ws))
           end
      else Returned None
  end.

Definition find_cell_by_tag (fuel : nat) (ws : Worksheet) (tag : string)
  : outcome (option (nat * nat)) :=
  find_cell_by_tag_loop fuel ws tag 0.

(* ------------------------------------------------------------------ *)
(** *** ndop/config/config.py: the age reference table *)

(** [str(i)] and [range(start, stop, step)] for a step above 0. *)
Definition str (n : nat) : string := NilZero.string_of_uint (Nat.to_uint n).

Definition range (start stop step : nat) : list nat :=
  map (fun k => start + k * step)%nat
      (seq 0 ((stop - start + step - 1) / step)%nat).

(** [s.split("_")[0]] *)
Fixpoint split_0 (sep : ascii) (s : string) : string :=
  match s with
  | EmptyString => EmptyString
  | String c tl =>
      if Ascii.eqb c sep then EmptyString else String c (split_0 sep tl)
  end.

Module AgeIndex.
Record row : Type := mk {
  AGE_GEN : string;
  GENDER : string;
  AGE_TEN_YEAR : string;
  AGE_BAND : string
}.
End AgeIndex.

Definition sex_list : list string := ["MALE_"; "FEMALE_"]%string.

Definition gap_list : list (nat * nat * nat * nat * string * nat) :=
  [ (1, 0, 95, 1, "95+"%string, 25);
    (4, 0, 95, 5, "95+"%string, 25);
    (9, 0, 90, 10, "90+"%string, 30) ]%nat.

(** One pass of [for gap in gap_list]: the column [insertlist]. *)
Definition insertlist (gap : nat * nat * nat * nat * string * nat)
  : list string :=
  let '(gap_0, gap_1, gap_2, gap_3, gap_4, gap_5) := gap in
  flat_map
    (fun sex =>
       let single_cols :=
         map (fun i => sex ++ str i ++ "_" ++ str (i + gap_0))%string
             (range gap_1 gap_2 gap_3) in
       let multi_cols := flat_map (fun row => repeat row gap_3) single_cols in
       let plus_col := repeat (sex ++ gap_4)%string gap_5 in
       multi_cols ++ plus_col)
    sex_list.

(** The table that [create_age_cols] returns; its columns are put side by
    side by position. *)
Definition create_age_cols : list AgeIndex.row :=
  let orig_cols_m :=
    map (fun i => "MALE_" ++ str i ++ "_" ++ str (i + 1))%string
        (range 0 120 1) in
  let orig_cols_f :=
    map (fun i => "FEMALE_" ++ str i ++ "_" ++ str (i + 1))%string
        (range 0 120 1) in
  let orig_cols := orig_cols_m ++ orig_cols_f in
  let one_five_ten_list := map insertlist gap_list in
  let AGE_ONE_YEAR := nth 0 one_five_ten_list [] in
  let AGE_TEN_YEAR := nth 2 one_five_ten_list [] in
  let SEX := map (split_0 "_") AGE_ONE_YEAR in
  map (fun row =>
         let '(ORIGINAL, sex, ten) := row in
         AgeIndex.mk ORIGINAL sex ten
                     (strip (list_ascii_of_string "MALE_|FEMALE_") ten))
      (combine (combine orig_cols SEX) AGE_TEN_YEAR).

(** The ten-year band of a single year of age. *)
Definition ten_year_band (age : nat) : string :=
  if (age <? 90)%nat
  then (str (10 * (age / 10)) ++ "_" ++ str (10 * (age / 10) + 9))%string
  else "90+"%string.

(** The columns that [create_age_gen_csv] joins the list sizes on. *)
Definition join_key (l : ListSizeAgg.row)
  : option Date * option string * option string :=
  (ListSizeAgg.ACH_DATE l, ListSizeAgg.AGE_BAND l, ListSizeAgg.GENDER l).

(* ================================================================== *)
(** ** Theorems *)
(* ================================================================== *)

Section KeptExactly.
Context {A B : Type}.

Lemma filter_kept_exactly (P : A -> Prop) (p : A -> bool) (f : A -> B) :
  (forall a, p a = true <-> P a) ->
  forall l, kept_exactly P f l (map f (filter p l)).
Proof.
  intros Hp l; induction l as [|a l IH]; simpl.
  - constructor.
  - destruct (p a) eqn:E; simpl.
    + constructor; [apply Hp; exact E | exact IH].
    + constructor; [|exact IH].
      intro Ha. apply Hp in Ha. congruence.
Qed.

Lemma kept_exactly_In (P : A -> Prop) (f : A -> B) l l' :
  kept_exactly P f l l' ->
  forall b, In b l' <-> exists a, In a l /\ P a /\ b = f a.
Proof.
  induction 1 as [|a l l' Ha H IH|a l l' Ha H IH]; intros b; simpl.
  - split; [contradiction | intros (a & [] & _)].
  - rewrite IH. split.
    + intros [<- | (x & Hx & Px & ->)]; eauto.
    + intros (x & [<- | Hx] & Px & ->); eauto.
  - rewrite IH. split.
    + intros (x & Hx & Px & ->); eauto.
    + intros (x & [<- | Hx] & Px & ->); [contradiction | eauto].
Qed.
End KeptExactly.

(* ------------------------------------------------------------------ *)
(** *** The order of dates *)

Ltac date_bool :=
  unfold date_le, date_lt, date_leb, date_ltb, date_eqb in *; simpl in *;
  repeat rewrite ?orb_true_iff, ?andb_true_iff, ?orb_false_iff,
    ?andb_false_iff, ?Z.ltb_lt, ?Z.eqb_eq, ?Z.ltb_ge, ?Z.eqb_neq in *.

Lemma date_eqb_eq (a b : Date) : date_eqb a b = true <-> a = b.
Proof.
  destruct a as [ya ma da], b as [yb mb db]. date_bool. split.
  - intros [[-> ->] ->]. reflexivity.
  - intros H; injection H; auto.
Qed.

Lemma date_ltb_negb_leb (a b : Date) : date_ltb a b = negb (date_leb b a).
Proof.
  destruct a as [ya ma da], b as [yb mb db].
  destruct (date_ltb _ _) eqn:E1, (date_leb _ _) eqn:E2; try reflexivity;
    exfalso; date_bool; lia.
Qed.

Lemma date_le_refl (a : Date) : date_le a a.
Proof. destruct a. date_bool. lia. Qed.

Lemma date_lt_le (a b : Date) : date_lt a b -> date_le a b.
Proof. unfold date_lt, date_le, date_leb. intros ->. reflexivity. Qed.

Lemma date_lt_irrefl (a : Date) : ~ date_lt a a.
Proof. destruct a. date_bool. lia. Qed.

Lemma date_le_trans (a b c : Date) : date_le a b -> date_le b c -> date_le a c.
Proof. destruct a, b, c. date_bool. lia. Qed.

Lemma date_lt_le_trans (a b c : Date) : date_lt a b -> date_le b c -> date_lt a c.
Proof. destruct a, b, c. date_bool. lia. Qed.

Lemma date_le_lt_trans (a b c : Date) : date_le a b -> date_lt b c -> date_lt a c.
Proof. destruct a, b, c. date_bool. lia. Qed.

Lemma date_lt_trans (a b c : Date) : date_lt a b -> date_lt b c -> date_lt a c.
Proof. destruct a, b, c. date_bool. lia. Qed.

Lemma date_le_antisym (a b : Date) : date_le a b -> date_le b a -> a = b.
Proof.
  destruct a as [ya ma da], b as [yb mb db]. date_bool. intros H1 H2.
  assert (ya = yb /\ ma = mb /\ da = db) as (-> & -> & ->) by lia.
  reflexivity.
Qed.

Lemma date_le_or_lt (a b : Date) : date_le a b \/ date_lt b a.
Proof.
  unfold date_le, date_lt. rewrite (date_ltb_negb_leb b a).
  destruct (date_leb a b); auto.
Qed.

Lemma date_lt_not_le (a b : Date) : date_lt a b <-> ~ date_le b a.
Proof.
  unfold date_le, date_lt. rewrite date_ltb_negb_leb.
  destruct (date_leb b a); simpl; split; congruence.
Qed.

(* ------------------------------------------------------------------ *)
(** *** The filters decide the specification's predicates *)

Lemma deceased_filter_iff (date : Date) (r : Row) :
  col_le (DATE_OF_DEATH r) date = true <-> deceased_as_of date r.
Proof.
  unfold deceased_as_of, col_le. destruct (DATE_OF_DEATH r) as [d|]; split.
  - intros H. exists d. split; [reflexivity | exact H].
  - intros (d' & [= <-] & H). exact H.
  - discriminate.
  - intros (d' & [=] & _).
Qed.

Lemma living_filter_iff (date : Date) (r : Row) :
  isna (DATE_OF_DEATH r) || col_gt (DATE_OF_DEATH r) date = true
  <-> living_as_of date r.
Proof.
  unfold living_as_of, col_gt, isna.
  destruct (DATE_OF_DEATH r) as [d|]; simpl; split.
  - intros H. right. exists d. split; [reflexivity | exact H].
  - intros [[=] | (d' & [= <-] & H)]. exact H.
  - intros _. left. reflexivity.
  - reflexivity.
Qed.

Lemma living_not_deceased (date : Date) (r : Row) :
  living_as_of date r <-> ~ deceased_as_of date r.
Proof.
  unfold living_as_of, deceased_as_of. destruct (DATE_OF_DEATH r) as [d|]; split.
  - intros [[=] | (d' & [= <-] & H)] (d'' & [= <-] & H').
    apply date_lt_not_le in H. contradiction.
  - intros H. right. exists d. split; [reflexivity|].
    apply date_lt_not_le. intros H'. apply H. eauto.
  - intros _ (d' & [=] & _).
  - intros _. left. reflexivity.
Qed.

Lemma active_on_iff (date : Date) (r : Row) :
  active_on date r = true <-> validity_contains date r.
Proof.
  unfold active_on, validity_contains, col_le, col_ge, isna.
  rewrite andb_true_iff, orb_true_iff.
  destruct (Record_Start_Date r) as [s|], (Record_End_Date r) as [e|]; split;
    try (intros [H1 H2]); try discriminate.
  - destruct H2 as [H2|[=]]. split; [eauto | right; eauto].
  - destruct H1 as (s' & [= <-] & H1). split; [exact H1|].
    destruct H2 as [[=] | (e' & [= <-] & H2)]. left; exact H2.
  - split; [eauto | left; reflexivity].
  - destruct H1 as (s' & [= <-] & H1). split; [exact H1 | right; reflexivity].
  - destruct H1 as (s' & [=] & _).
  - destruct H1 as (s' & [=] & _).
Qed.

Lemma filter_kept_exactly_id {A : Type} (P : A -> Prop) (p : A -> bool) :
  (forall a, p a = true <-> P a) ->
  forall l, kept_exactly P (fun a => a) l (filter p l).
Proof.
  intros Hp l. rewrite <- (map_id (filter p l)) at 1.
  apply filter_kept_exactly, Hp.
Qed.

(** C4.  A record passes the deceased filter exactly when its date of death
    is present and on or before the snapshot date, and passes the living
    filter exactly when its date of death is null or strictly after the
    snapshot date; the two cases are complementary.  A patient who died on
    2022-06-01 is resolved as Living at 2022-05-01 and as Deceased at
    2022-07-01. *)
Theorem death_partition_boundary :
  forall (df : DataFrame) (date : Date),
    kept_exactly (deceased_as_of date) (fun r => r) df
                 (filter_deceased_patients df date)
    /\ kept_exactly (living_as_of date) (fun r => r) df
                    (filter_living_patients df date)
    /\ (forall r, living_as_of date r <-> ~ deceased_as_of date r)
    /\ process_active_ndop_records [patient_B] d_2022_05_01
       = [set_ACH_DATE patient_B d_2022_05_01]
    /\ process_deceased_ndop_records [patient_B] d_2022_05_01 = []
    /\ process_active_ndop_records [patient_B] d_2022_07_01 = []
    /\ process_deceased_ndop_records [patient_B] d_2022_07_01
       = [set_ACH_DATE patient_B d_2022_07_01].
Proof.
  intros df date. split; [|split; [|split]].
  - apply filter_kept_exactly_id. intros r. apply deceased_filter_iff.
  - apply filter_kept_exactly_id. intros r. apply living_filter_iff.
  - intros r. apply living_not_deceased.
  - repeat split; reflexivity.
Qed.

(** C5.  [slice_ndop_by_month] keeps exactly the rows whose start date is on
    or before the snapshot date and whose end date is on or after it or null;
    a kept row has all its columns unchanged and carries the snapshot date in
    ACH_DATE. *)
Theorem slice_keeps_active_rows :
  forall (df : DataFrame) (date : Date),
    exists tag : Row -> Row,
      (forall r, same_fields r (tag r) /\ ACH_DATE (tag r) = Some date)
      /\ kept_exactly (validity_contains date) tag df
                      (slice_ndop_by_month df date).
Proof.
  intros df date. exists (fun r => set_ACH_DATE r date). split.
  - intros r. unfold same_fields. simpl. repeat split; reflexivity.
  - apply filter_kept_exactly. intros r. apply active_on_iff.
Qed.

(* ------------------------------------------------------------------ *)
(** *** Ranking within a patient's records *)

Lemma filter_length_0 {A : Type} (p : A -> bool) (l : list A) :
  List.length (filter p l) = 0%nat <-> forall x, In x l -> p x = false.
Proof.
  induction l as [|a l IH]; simpl.
  - split; [intros _ x [] | reflexivity].
  - destruct (p a) eqn:E; simpl.
    + split; [discriminate|]. intros H. specialize (H a (or_introl eq_refl)).
      congruence.
    + rewrite IH. split.
      * intros H x [<- | Hx]; auto.
      * intros H x Hx. apply H. right. exact Hx.
Qed.

Lemma row_num_is_1_iff (before after : list Row) (r : Row) :
  row_num_is_1 (r, rank_first_descending before after r) = true
  <-> ranked_first before after r.
Proof.
  unfold row_num_is_1, rank_first_descending, ranked_first. cbn [snd].
  destruct (NHS_Number r) as [id|]; [destruct (Record_Start_Date r) as [s|]|].
  - rewrite Z.eqb_eq. split.
    + intros H. exists id, s. split; [reflexivity|]. split; [reflexivity|].
      rewrite <- !filter_length_0. lia.
    + intros (id' & s' & [= <-] & [= <-] & H1 & H2).
      apply filter_length_0 in H1, H2. rewrite H1, H2. reflexivity.
  - split; [discriminate | intros (? & ? & _ & [=] & _)].
  - split; [discriminate | intros (? & ? & [=] & _)].
Qed.

Lemma in_with_row_num :
  forall (rest before : list Row) (r : Row),
    In r (map fst (filter row_num_is_1 (with_row_num before rest)))
    <-> exists pre post,
          rest = pre ++ r :: post /\ ranked_first (before ++ pre) post r.
Proof.
  induction rest as [|a tl IH]; intros before r; simpl.
  - split; [contradiction|]. intros (pre & post & H & _).
    destruct pre; discriminate.
  - destruct (row_num_is_1 (a, rank_first_descending before tl a)) eqn:E; simpl.
    + rewrite IH. split.
      * intros [<- | (pre & post & -> & H)].
        -- exists [], tl. rewrite app_nil_r. split; [reflexivity|].
           apply row_num_is_1_iff, E.
        -- exists (a :: pre), post. split; [reflexivity|].
           rewrite <- app_assoc in H. exact H.
      * intros (pre & post & Heq & H). destruct pre as [|a' pre]; simpl in Heq.
        -- left. congruence.
        -- right. injection Heq as <- ->. exists pre, post.
           split; [reflexivity|]. rewrite <- app_assoc. exact H.
    + rewrite IH. split.
      * intros (pre & post & -> & H). exists (a :: pre), post.
        split; [reflexivity|]. rewrite <- app_assoc in H. exact H.
      * intros (pre & post & Heq & H). destruct pre as [|a' pre]; simpl in Heq.
        -- injection Heq as -> ->. rewrite app_nil_r in H.
           apply row_num_is_1_iff in H. congruence.
        -- injection Heq as <- ->. exists pre, post.
           split; [reflexivity|]. rewrite <- app_assoc. exact H.
Qed.

Lemma same_patient_iff (id : string) (r : Row) :
  same_patient id r = true <-> NHS_Number r = Some id.
Proof.
  unfold same_patient. destruct (NHS_Number r) as [i|].
  - rewrite String.eqb_eq. split; congruence.
  - split; discriminate.
Qed.

Lemma with_row_num_NoDup :
  forall (rest before : list Row),
    NoDup (map NHS_Number
               (map fst (filter row_num_is_1 (with_row_num before rest)))).
Proof.
  induction rest as [|a tl IH]; intros before; simpl.
  - constructor.
  - destruct (row_num_is_1 (a, rank_first_descending before tl a)) eqn:E; simpl.
    + constructor; [|apply IH].
      rewrite in_map_iff. intros (r & Hid & Hr).
      apply in_with_row_num in Hr. destruct Hr as (pre & post & -> & Hr).
      apply row_num_is_1_iff in E.
      destruct E as (id & s & Ha & Hs & _ & Hafter).
      destruct Hr as (id' & s' & Hr & Hs' & Hbefore & _).
      assert (id' = id) by congruence. subst id'.
      specialize (Hafter r). rewrite in_app_iff in Hafter.
      specialize (Hafter (or_intror (or_introl eq_refl))).
      specialize (Hbefore a). rewrite !in_app_iff in Hbefore.
      specialize (Hbefore (or_introl (or_intror (or_introl eq_refl)))).
      rewrite (proj2 (same_patient_iff id r) Hr) in Hafter.
      rewrite (proj2 (same_patient_iff id a) Ha) in Hbefore.
      rewrite Hs in Hbefore. rewrite Hs' in Hafter. simpl in *.
      rewrite date_ltb_negb_leb in Hafter.
      rewrite Hbefore in Hafter. discriminate.
    + apply IH.
Qed.

(** Every patient with a dated row has a row that is ranked first. *)
Lemma ranked_first_exists (id : string) :
  forall (t : list Row),
    (forall x, In x t -> NHS_Number x = Some id -> Record_Start_Date x = None)
    \/ exists pre r post,
         t = pre ++ r :: post /\ NHS_Number r = Some id
         /\ ranked_first pre post r.
Proof.
  induction t as [|a tl IH].
  - left. intros x [].
  - destruct IH as [Hnone | (pre & r & post & -> & Hr & Hrank)].
    + destruct (NHS_Number a) as [i|] eqn:Ha;
        [destruct (String.eqb_spec i id) as [->|Hne];
         [destruct (Record_Start_Date a) as [s|] eqn:Hs|]|].
      * right. exists [], a, tl. split; [reflexivity|]. split; [exact Ha|].
        exists id, s. repeat split; auto.
        -- intros x [].
        -- intros x Hx. destruct (same_patient id x) eqn:Ex; [|reflexivity].
           apply same_patient_iff in Ex. rewrite (Hnone x Hx Ex). reflexivity.
      * left. intros x [<- | Hx] Hid; auto.
      * left. intros x [<- | Hx] Hid; [congruence | auto].
      * left. intros x [<- | Hx] Hid; [congruence | auto].
    + destruct Hrank as (id' & s & Hid' & Hs & Hpre & Hpost).
      assert (id' = id) by congruence. subst id'.
      destruct (same_patient id a && col_ge (Record_Start_Date a) s) eqn:Ea.
      * apply andb_true_iff in Ea. destruct Ea as [Ea1 Ea2].
        apply same_patient_iff in Ea1.
        destruct (Record_Start_Date a) as [sa|] eqn:Hsa; [|discriminate].
        simpl in Ea2.
        right. exists [], a, (pre ++ r :: post).
        split; [reflexivity|]. split; [exact Ea1|].
        exists id, sa. repeat split; auto.
        -- intros x [].
        -- intros x Hx. destruct (same_patient id x) eqn:Ex; [|reflexivity].
           simpl. destruct (Record_Start_Date x) as [sx|] eqn:Hsx;
             [|reflexivity].
           simpl. rewrite date_ltb_negb_leb. apply negb_false_iff.
           apply in_app_iff in Hx. destruct Hx as [Hx | [<- | Hx]].
           ++ specialize (Hpre x Hx). rewrite Ex, Hsx in Hpre. simpl in Hpre.
              destruct (date_le_or_lt sx s) as [H|H].
              ** exact (date_le_trans _ _ _ H Ea2).
              ** apply date_lt_le in H. unfold date_le in H. congruence.
           ++ rewrite Hs in Hsx. injection Hsx as <-. exact Ea2.
           ++ specialize (Hpost x Hx). rewrite Ex, Hsx in Hpost.
              simpl in Hpost. rewrite date_ltb_negb_leb in Hpost.
              apply negb_false_iff in Hpost.
              exact (date_le_trans _ _ _ Hpost Ea2).
      * right. exists (a :: pre), r, post.
        split; [reflexivity|]. split; [exact Hr|].
        exists id, s. repeat split; auto.
        intros x [<- | Hx]; auto.
Qed.

Lemma retrieve_most_recent_record_In (t : DataFrame) (r : Row) :
  In r (retrieve_most_recent_record t)
  <-> exists pre post, t = pre ++ r :: post /\ ranked_first pre post r.
Proof. unfold retrieve_most_recent_record. apply in_with_row_num. Qed.

Lemma retrieve_most_recent_record_incl (t : DataFrame) (r : Row) :
  In r (retrieve_most_recent_record t) -> In r t.
Proof.
  intros H. apply retrieve_most_recent_record_In in H.
  destruct H as (pre & post & -> & _). apply in_elt.
Qed.

Lemma ranked_first_most_recent (pre post : list Row) (r : Row) :
  ranked_first pre post r -> most_recent_first (pre ++ r :: post) r.
Proof.
  intros (id & s & Hid & Hs & Hpre & Hpost).
  exists pre, post, id, s. repeat split; auto.
  - intros x sx Hx Hxid Hxs. specialize (Hpre x Hx).
    rewrite (proj2 (same_patient_iff id x) Hxid), Hxs in Hpre. simpl in Hpre.
    apply date_lt_not_le. unfold date_le. congruence.
  - intros x sx Hx Hxid Hxs. specialize (Hpost x Hx).
    rewrite (proj2 (same_patient_iff id x) Hxid), Hxs in Hpost. simpl in Hpost.
    destruct (date_le_or_lt sx s) as [H|H]; [exact H|].
    unfold date_lt in H. congruence.
Qed.

Lemma retrieve_most_recent_record_resolved (t : DataFrame) :
  resolved t (retrieve_most_recent_record t).
Proof.
  split; [|split].
  - apply with_row_num_NoDup.
  - intros r Hr. apply retrieve_most_recent_record_In in Hr.
    destruct Hr as (pre & post & -> & Hr). apply ranked_first_most_recent, Hr.
  - intros x id s Hx Hid Hs.
    destruct (ranked_first_exists id t) as [Hnone | (pre & r & post & Ht & Hr & Hrank)].
    + rewrite (Hnone x Hx Hid) in Hs. discriminate.
    + exists r. split; [|exact Hr].
      apply retrieve_most_recent_record_In. eauto.
Qed.

Lemma slice_ndop_by_month_In (df : DataFrame) (date : Date) (r : Row) :
  In r (slice_ndop_by_month df date)
  <-> exists r0, In r0 df /\ active_on date r0 = true /\ r = set_ACH_DATE r0 date.
Proof.
  unfold slice_ndop_by_month. rewrite in_map_iff. split.
  - intros (r0 & <- & H). apply filter_In in H. destruct H. eauto.
  - intros (r0 & H1 & H2 & ->). exists r0. split; [reflexivity|].
    apply filter_In. auto.
Qed.

Lemma slice_ndop_by_month_dated (df : DataFrame) (date : Date) (r : Row) :
  In r (slice_ndop_by_month df date) ->
  ACH_DATE r = Some date /\ exists s, Record_Start_Date r = Some s.
Proof.
  intros H. apply slice_ndop_by_month_In in H.
  destruct H as (r0 & _ & Hact & ->). split; [reflexivity|]. simpl.
  unfold active_on in Hact. apply andb_true_iff in Hact. destruct Hact as [H _].
  destruct (Record_Start_Date r0); [eauto | discriminate].
Qed.

(** C2.  Resolution (the active slice, optionally one of the death filters,
    then [retrieve_most_recent_record]) returns at most one row per patient
    identifier; that row is a row of the filtered input with the latest
    start date among the patient's rows there, the first of them in input
    order when several share that date; and every patient with a row in the
    filtered input keeps one. *)
Theorem resolution_most_recent_wins :
  forall (df : DataFrame) (date : Date),
    resolved (slice_ndop_by_month df date)
             (retrieve_most_recent_record (slice_ndop_by_month df date))
    /\ resolved (filter_living_patients (slice_ndop_by_month df date) date)
                (process_active_ndop_records df date)
    /\ resolved (filter_deceased_patients (slice_ndop_by_month df date) date)
                (process_deceased_ndop_records df date)
    /\ (forall r, In r (slice_ndop_by_month df date) ->
                  exists s, Record_Start_Date r = Some s).
Proof.
  intros df date. repeat split; try apply retrieve_most_recent_record_resolved.
  intros r Hr. apply slice_ndop_by_month_dated in Hr. tauto.
Qed.

(** The repository's unit test of [retrieve_most_recent_record]: four
    versions of one patient, the one that starts on 2023-01-01 is kept. *)
Example test_retrieving_most_recent_ndop_record :
  let record start death :=
    mkRow (Some "12345"%string) None (Some death) None None None
          (Some start) None None in
  retrieve_most_recent_record
    [ record (mkDate 2022 11 1) (mkDate 2021 1 1);
      record (mkDate 2020 1 1) (mkDate 2021 1 1);
      record (mkDate 2021 1 5) (mkDate 2021 1 2);
      record (mkDate 2023 1 1) (mkDate 2022 1 1) ]
  = [ record (mkDate 2023 1 1) (mkDate 2022 1 1) ].
Proof. reflexivity. Qed.

(** Two versions that start on the same day: the first in input order wins. *)
Example retrieve_most_recent_record_tie :
  let record band :=
    mkRow (Some "12345"%string) (Some band) None None None None
          (Some (mkDate 2022 1 1)) None None in
  retrieve_most_recent_record [ record "40-49"%string; record "50-59"%string ]
  = [ record "40-49"%string ].
Proof. reflexivity. Qed.

(* ------------------------------------------------------------------ *)
(** *** The two partitions of a snapshot *)

Lemma process_active_ndop_records_In (df : DataFrame) (date : Date) (r : Row) :
  In r (process_active_ndop_records df date) ->
  In r (slice_ndop_by_month df date) /\ living_as_of date r.
Proof.
  intros H. apply retrieve_most_recent_record_incl in H.
  apply filter_In in H. destruct H as [H1 H2].
  split; [exact H1 | apply living_filter_iff, H2].
Qed.

Lemma process_deceased_ndop_records_In (df : DataFrame) (date : Date) (r : Row) :
  In r (process_deceased_ndop_records df date) ->
  In r (slice_ndop_by_month df date) /\ deceased_as_of date r.
Proof.
  intros H. apply retrieve_most_recent_record_incl in H.
  apply filter_In in H. destruct H as [H1 H2].
  split; [exact H1 | apply deceased_filter_iff, H2].
Qed.

(** No record version is in both partitions. *)
Lemma no_record_in_both_partitions (df : DataFrame) (date : Date) (r : Row) :
  In r (process_active_ndop_records df date) ->
  In r (process_deceased_ndop_records df date) -> False.
Proof.
  intros H1 H2.
  apply process_active_ndop_records_In in H1.
  apply process_deceased_ndop_records_In in H2.
  destruct H1 as [_ H1], H2 as [_ H2].
  apply living_not_deceased in H1. exact (H1 H2).
Qed.

(** A patient is in both partitions only through two active versions that
    disagree on the death status. *)
Lemma patient_in_both_partitions (df : DataFrame) (date : Date) (id : string) :
  In (Some id) (map NHS_Number (process_active_ndop_records df date)) ->
  In (Some id) (map NHS_Number (process_deceased_ndop_records df date)) ->
  exists r1 r2,
    In r1 (slice_ndop_by_month df date) /\ In r2 (slice_ndop_by_month df date)
    /\ NHS_Number r1 = Some id /\ NHS_Number r2 = Some id
    /\ living_as_of date r1 /\ deceased_as_of date r2.
Proof.
  rewrite !in_map_iff. intros (r1 & Hid1 & H1) (r2 & Hid2 & H2).
  apply process_active_ndop_records_In in H1.
  apply process_deceased_ndop_records_In in H2.
  exists r1, r2. tauto.
Qed.

(** The condition cannot be weakened: a patient with two active versions
    that disagree on the death status is in both partitions. *)
Lemma patient_in_both_when_versions_disagree (df : DataFrame) (date : Date) :
  mutually_exclusive df date -> versions_agree df date.
Proof.
  intros Hex id r1 r2 Hr1 Hr2 Hid1 Hid2 Hl Hd. apply (Hex id).
  destruct (slice_ndop_by_month_dated df date r1 Hr1) as [_ (s1 & Hs1)].
  destruct (slice_ndop_by_month_dated df date r2 Hr2) as [_ (s2 & Hs2)].
  split.
  - destruct (retrieve_most_recent_record_resolved
                (filter_living_patients (slice_ndop_by_month df date) date))
      as (_ & _ & Hkeep).
    destruct (Hkeep r1 id s1) as (r & Hr & Hid); auto.
    + apply filter_In. split; [exact Hr1 | apply living_filter_iff, Hl].
    + rewrite <- Hid. apply in_map, Hr.
  - destruct (retrieve_most_recent_record_resolved
                (filter_deceased_patients (slice_ndop_by_month df date) date))
      as (_ & _ & Hkeep).
    destruct (Hkeep r2 id s2) as (r & Hr & Hid); auto.
    + apply filter_In. split; [exact Hr2 | apply deceased_filter_iff, Hd].
    + rewrite <- Hid. apply in_map, Hr.
Qed.

(** C3, the claim as stated fails: a patient whose two active versions
    disagree on the date of death is Living through one version and Deceased
    through the other. *)
Lemma partitions_not_exclusive :
  ~ mutually_exclusive [patient_C_v1; patient_C_v2] d_2022_05_01.
Proof.
  intros H. apply (H "4000000003"%string). split; simpl; left; reflexivity.
Qed.

(** C3, amended.  When the active record versions of every patient agree on
    the death status at the snapshot date, no patient identifier is in both
    the Living and the Deceased result of that date. *)
Theorem partitions_exclusive_when_versions_agree :
  forall (df : DataFrame) (date : Date),
    versions_agree df date -> mutually_exclusive df date.
Proof.
  intros df date Hagree id [H1 H2].
  destruct (patient_in_both_partitions df date id H1 H2)
    as (r1 & r2 & Hr1 & Hr2 & Hid1 & Hid2 & Hl & Hd).
  exact (Hagree id r1 r2 Hr1 Hr2 Hid1 Hid2 Hl Hd).
Qed.

Lemma partitions_exclusive_witness :
  versions_agree [patient_B; patient_C_v1] d_2022_07_01
  /\ mutually_exclusive [patient_B; patient_C_v1] d_2022_07_01.
Proof.
  assert (H : versions_agree [patient_B; patient_C_v1] d_2022_07_01).
  { intros id r1 r2 H1 H2 Hid1 Hid2 Hl Hd. simpl in H1, H2.
    destruct H1 as [<- | [<- | []]], H2 as [<- | [<- | []]];
      try (simpl in Hid1, Hid2; congruence);
      apply living_not_deceased in Hl; exact (Hl Hd). }
  exact (conj H (partitions_exclusive_when_versions_agree _ _ H)).
Defined.

(* ------------------------------------------------------------------ *)
(** *** Cleaning of NHS numbers *)

Lemma filter_filter_andb {A : Type} (p q : A -> bool) (l : list A) :
  filter q (filter p l) = filter (fun x => p x && q x) l.
Proof.
  induction l as [|a l IH]; simpl; [reflexivity|].
  destruct (p a); simpl; [destruct (q a)|]; rewrite IH; reflexivity.
Qed.

Lemma INVALID_NHS_NUMBERS_repeated :
  INVALID_NHS_NUMBERS = map (repeat_char 10) digits_1_to_9.
Proof. reflexivity. Qed.

Lemma isin_In (x : option string) (values : list string) :
  isin x values = true <-> exists s, x = Some s /\ In s values.
Proof.
  unfold isin. destruct x as [s|].
  - rewrite existsb_exists. split.
    + intros (v & Hv & E). apply String.eqb_eq in E. subst v. eauto.
    + intros (s' & [= <-] & Hs). exists s. split; [exact Hs|].
      apply String.eqb_refl.
  - split; [discriminate | intros (s & [=] & _)].
Qed.

Lemma starts_with_9_iff (x : option string) :
  col_ne (str_0 x) "9"%string = false
  <-> exists rest, x = Some (String "9"%char rest).
Proof.
  unfold col_ne, str_0. destruct x as [[|c rest]|].
  - split; [discriminate | intros (? & [=])].
  - rewrite negb_false_iff, String.eqb_eq. split.
    + intros [= ->]. eauto.
    + intros (rest' & [= -> _]). reflexivity.
  - split; [discriminate | intros (? & [=])].
Qed.

Lemma valid_identifier_iff (x : option string) :
  negb (isin x INVALID_NHS_NUMBERS) && (col_ne (str_0 x) "9"%string && notna x)
  = true <-> ~ invalid_identifier x.
Proof.
  unfold invalid_identifier. rewrite !andb_true_iff, negb_true_iff. split.
  - intros [H1 [H2 H3]] [Hn | [H9 | (d & Hd & Hx)]].
    + subst x. discriminate.
    + apply starts_with_9_iff in H9. congruence.
    + assert (isin x INVALID_NHS_NUMBERS = true); [|congruence].
      apply isin_In. exists (repeat_char 10 d). split; [exact Hx|].
      rewrite INVALID_NHS_NUMBERS_repeated. apply in_map, Hd.
  - intros H. repeat split.
    + destruct (isin x INVALID_NHS_NUMBERS) eqn:E; [|reflexivity].
      exfalso. apply H. right. right. apply isin_In in E.
      destruct E as (s & -> & Hs). rewrite INVALID_NHS_NUMBERS_repeated in Hs.
      apply in_map_iff in Hs. destruct Hs as (d & <- & Hd). eauto.
    + destruct (col_ne (str_0 x) "9"%string) eqn:E; [reflexivity|].
      exfalso. apply H. right. left. apply starts_with_9_iff, E.
    + destruct x; [reflexivity|]. exfalso. apply H. left. reflexivity.
Qed.

Lemma clean_nhs_numbers_In (df : DataFrame) (r : Row) :
  In r (clean_nhs_numbers df) -> ~ invalid_identifier (NHS_Number r).
Proof.
  unfold clean_nhs_numbers, fill_empty_gender_column_values,
    fill_empty_categorical_column_values, remove_nhs_number_which_are_null,
    remove_nhs_number_starting_with_9, remove_nhs_number_which_are_invalid.
  rewrite map_map, !filter_filter_andb, in_map_iff.
  intros (r0 & <- & H). apply filter_In in H. destruct H as [_ H]. simpl.
  apply valid_identifier_iff, H.
Qed.

(** C10.  [clean_nhs_numbers] removes exactly the records whose NHS number
    is null, begins with 9 or is one of the nine repeated-digit numbers, and
    keeps every other record, in order (with its empty practice, LSOA and
    gender cells filled and all other columns as they were); no record with
    such an identifier is in the Living or Deceased table computed from the
    cleaned data. *)
Theorem clean_nhs_numbers_removes_invalid :
  forall (df : DataFrame),
    (exists fill : Row -> Row,
        (forall r, NHS_Number (fill r) = NHS_Number r
                   /\ AGE_BAND (fill r) = AGE_BAND r
                   /\ DATE_OF_DEATH (fill r) = DATE_OF_DEATH r
                   /\ Record_Start_Date (fill r) = Record_Start_Date r
                   /\ Record_End_Date (fill r) = Record_End_Date r)
        /\ kept_exactly (fun r => ~ invalid_identifier (NHS_Number r)) fill df
                        (clean_nhs_numbers df))
    /\ (forall date r,
           In r (process_active_ndop_records (clean_nhs_numbers df) date)
           \/ In r (process_deceased_ndop_records (clean_nhs_numbers df) date) ->
           ~ invalid_identifier (NHS_Number r)).
Proof.
  intros df. split.
  - exists (fun r =>
         mkRow (NHS_Number r) (AGE_BAND r) (DATE_OF_DEATH r)
               (fillna (GP_PRACTICE r) "Unallocated"%string)
               (fillna (LSOA_CODE r) "Unallocated"%string)
               (fillna (GENDER r) "Unknown / Prefer not to say"%string)
               (Record_Start_Date r) (Record_End_Date r) (ACH_DATE r)).
    split; [intros r; repeat split|].
    unfold clean_nhs_numbers, fill_empty_gender_column_values,
      fill_empty_categorical_column_values, remove_nhs_number_which_are_null,
      remove_nhs_number_starting_with_9, remove_nhs_number_which_are_invalid.
    rewrite map_map, !filter_filter_andb. simpl.
    apply (filter_kept_exactly (fun r => ~ invalid_identifier (NHS_Number r))).
    intros r. apply valid_identifier_iff.
  - intros date r H.
    assert (Hs : In r (slice_ndop_by_month (clean_nhs_numbers df) date)).
    { destruct H as [H | H].
      - apply process_active_ndop_records_In in H. tauto.
      - apply process_deceased_ndop_records_In in H. tauto. }
    apply slice_ndop_by_month_In in Hs. destruct Hs as (r0 & Hr0 & _ & ->).
    simpl. apply (clean_nhs_numbers_In df), Hr0.
Qed.

(* ------------------------------------------------------------------ *)
(** *** The reporting window *)

Lemma days_in_month_bounds (y m : Z) : 28 <= days_in_month y m <= 31.
Proof.
  unfold days_in_month.
  destruct (m =? 2); [destruct (is_leap_year y); lia|].
  destruct ((m =? 4) || (m =? 6) || (m =? 9) || (m =? 11)); lia.
Qed.

Lemma month_index_first_of_month (i : Z) : month_index (first_of_month i) = i.
Proof. unfold month_index, first_of_month. cbn [year month day]. Z.div_mod_to_equations. lia. Qed.

Lemma first_of_month_month_index (d : Date) :
  1 <= month d <= 12 -> day d = 1 -> first_of_month (month_index d) = d.
Proof.
  destruct d as [y m dd]. unfold month_index, first_of_month. cbn [year month day].
  intros Hm ->. f_equal; Z.div_mod_to_equations; lia.
Qed.

Lemma first_of_month_boundary (i : Z) : month_boundary (first_of_month i).
Proof.
  unfold month_boundary, valid_date, first_of_month. cbn [year month day].
  pose proof (days_in_month_bounds (i / 12) (i mod 12 + 1)).
  repeat split; try (Z.div_mod_to_equations; lia); lia.
Qed.

(** With months in range, dates compare as (month number, day) pairs. *)
Lemma date_leb_month_index (a b : Date) :
  1 <= month a <= 12 -> 1 <= month b <= 12 ->
  date_leb a b
  = (month_index a <? month_index b)
    || ((month_index a =? month_index b) && (day a <=? day b)).
Proof.
  destruct a as [ya ma da], b as [yb mb db].
  unfold month_index, date_leb, date_ltb, date_eqb. cbn [year month day].
  intros Ha Hb. lia.
Qed.

Lemma date_leb_first_of_month (i j : Z) :
  date_leb (first_of_month i) (first_of_month j) = (i <=? j).
Proof.
  rewrite date_leb_month_index;
    try (unfold first_of_month; cbn [year month day];
         Z.div_mod_to_equations; lia).
  rewrite !month_index_first_of_month. cbn [day first_of_month]. lia.
Qed.

Lemma In_Zseq (n : nat) :
  forall lo i, In i (Zseq lo n) <-> lo <= i < lo + Z.of_nat n.
Proof.
  induction n as [|n IH]; intros lo i; simpl Zseq.
  - simpl. lia.
  - simpl In. rewrite IH. lia.
Qed.

Lemma length_Zseq (n : nat) : forall lo, List.length (Zseq lo n) = n.
Proof. induction n as [|n IH]; intros lo; simpl; [|rewrite IH]; reflexivity. Qed.

Lemma generate_range_closed (fuel : nat) :
  forall i j,
    generate_range fuel (first_of_month i) (first_of_month j)
    = map first_of_month (Zseq i (Nat.min fuel (Z.to_nat (j - i + 1)))).
Proof.
  induction fuel as [|k IH]; intros i j; [reflexivity|].
  cbn [generate_range]. rewrite date_leb_first_of_month.
  destruct (i <=? j) eqn:E.
  - apply Z.leb_le in E.
    replace (Z.to_nat (j - i + 1)) with (S (Z.to_nat (j - (i + 1) + 1))) by lia.
    cbn [Nat.min Zseq map]. f_equal.
    unfold add_month_begin. rewrite month_index_first_of_month. apply IH.
  - apply Z.leb_gt in E.
    replace (Z.to_nat (j - i + 1)) with O by lia.
    rewrite Nat.min_0_r. reflexivity.
Qed.

Lemma rollforward_first_of_month (d : Date) :
  1 <= month d <= 12 ->
  rollforward d
  = first_of_month (if day d =? 1 then month_index d else month_index d + 1).
Proof.
  intros Hm. unfold rollforward, is_on_offset, add_month_begin.
  destruct (day d =? 1) eqn:E; [|reflexivity].
  apply Z.eqb_eq in E. symmetry. apply first_of_month_month_index; assumption.
Qed.

Lemma rollback_first_of_month (d : Date) :
  1 <= month d <= 12 -> rollback d = first_of_month (month_index d).
Proof.
  intros Hm. unfold rollback, is_on_offset.
  destruct (day d =? 1) eqn:E.
  - apply Z.eqb_eq in E. symmetry. apply first_of_month_month_index; assumption.
  - symmetry.
    apply (first_of_month_month_index (mkDate (year d) (month d) 1));
      [exact Hm | reflexivity].
Qed.

(** The closed form of the list of month starts. *)
Lemma date_range_MS_closed (s e : Date) :
  1 <= month s <= 12 -> 1 <= month e <= 12 ->
  let lo := if day s =? 1 then month_index s else month_index s + 1 in
  date_range_MS s e
  = map first_of_month (Zseq lo (Z.to_nat (month_index e - lo + 1))).
Proof.
  intros Hs He lo. unfold date_range_MS.
  rewrite (rollforward_first_of_month s Hs), (rollback_first_of_month e He).
  fold lo. rewrite generate_range_closed, !month_index_first_of_month.
  f_equal. f_equal. lia.
Qed.

Lemma sorted_first_of_month (n : nat) :
  forall lo, StronglySorted date_lt (map first_of_month (Zseq lo n)).
Proof.
  induction n as [|n IH]; intros lo; simpl; constructor.
  - apply IH.
  - apply Forall_forall. intros d Hd. apply in_map_iff in Hd.
    destruct Hd as (i & <- & Hi). apply In_Zseq in Hi.
    apply date_lt_not_le. unfold date_le.
    rewrite date_leb_first_of_month. intros H. apply Z.leb_le in H. lia.
Qed.

Lemma sub_months_valid (d : Date) (n : Z) :
  valid_date d -> valid_date (sub_months d n).
Proof.
  intros [Hm Hd]. unfold valid_date, sub_months. cbn [year month day].
  set (i := month_index d - n).
  pose proof (days_in_month_bounds (i / 12) (i mod 12 + 1)).
  repeat split; try (Z.div_mod_to_equations; lia); lia.
Qed.

Lemma month_index_sub_months (d : Date) (n : Z) :
  month_index (sub_months d n) = month_index d - n.
Proof.
  unfold sub_months, month_index at 1. cbn [year month day]. Z.div_mod_to_equations. lia.
Qed.

Lemma date_range_MS_In (s e d : Date) :
  valid_date s -> valid_date e ->
  In d (date_range_MS s e)
  <-> month_boundary d /\ date_le s d /\ date_le d e.
Proof.
  intros [Hsm Hsd] [Hem Hed].
  rewrite (date_range_MS_closed s e Hsm Hem). cbv zeta.
  rewrite in_map_iff. unfold date_le. split.
  - intros (i & <- & Hi). apply In_Zseq in Hi.
    pose proof (first_of_month_boundary i) as Hb.
    split; [exact Hb|]. destruct Hb as [[Hbm _] Hbd].
    rewrite !date_leb_month_index by assumption.
    rewrite month_index_first_of_month, Hbd.
    destruct (day s =? 1) eqn:E;
      rewrite ?Z.eqb_eq, ?Z.eqb_neq in E;
      rewrite !orb_true_iff, !andb_true_iff, !Z.ltb_lt, !Z.eqb_eq, !Z.leb_le;
      lia.
  - intros ([[Hdm _] Hdd] & H1 & H2).
    rewrite !date_leb_month_index in H1, H2 by assumption.
    rewrite Hdd in H1, H2.
    rewrite !orb_true_iff, !andb_true_iff, !Z.ltb_lt, !Z.eqb_eq, !Z.leb_le
      in H1, H2.
    exists (month_index d). split.
    + apply first_of_month_month_index; assumption.
    + apply In_Zseq.
      destruct (day s =? 1) eqn:E;
        rewrite ?Z.eqb_eq, ?Z.eqb_neq in E; lia.
Qed.

Lemma get_reporting_months_list_sorted (rd : reportDates) :
  1 <= month (start_date rd) <= 12 -> 1 <= month (end_date rd) <= 12 ->
  StronglySorted date_lt (get_reporting_months_list rd).
Proof.
  intros Hs He. unfold get_reporting_months_list.
  rewrite (date_range_MS_closed _ _ Hs He). apply sorted_first_of_month.
Qed.

Lemma StronglySorted_date_lt_NoDup (l : list Date) :
  StronglySorted date_lt l -> NoDup l.
Proof.
  induction 1 as [|a l Hs IH Ha]; constructor; [|exact IH].
  intros Hin. rewrite Forall_forall in Ha.
  exact (date_lt_irrefl a (Ha a Hin)).
Qed.

(** C8.  For a reporting end date and a number of months, the start date is
    the end date moved back by that many months, and the list of reporting
    months is strictly ascending and holds exactly the calendar-month
    boundaries from the start date to the end date, both ends included; for
    an end date on a month boundary and a non-negative number of months, the
    start and the end date are both in the list, which has one more entry
    than the number of months. *)
Theorem reporting_months_list_boundaries :
  forall (end_d pub : Date) (n : Z),
    valid_date end_d ->
    let rd := new_reportDates end_d pub n in
    let months := get_reporting_months_list rd in
    start_date rd = sub_months end_d n
    /\ StronglySorted date_lt months
    /\ (forall d, In d months
                  <-> month_boundary d
                      /\ date_le (start_date rd) d /\ date_le d end_d)
    /\ (day end_d = 1 -> 0 <= n ->
        In (start_date rd) months /\ In end_d months
        /\ Z.of_nat (List.length months) = n + 1).
Proof.
  intros end_d pub n Hv rd months.
  pose proof (sub_months_valid end_d n Hv) as Hvs.
  assert (Hin : forall d, In d months
                  <-> month_boundary d
                      /\ date_le (start_date rd) d /\ date_le d end_d).
  { intros d. apply (date_range_MS_In (sub_months end_d n) end_d d Hvs Hv). }
  split; [reflexivity|]. split; [|split; [exact Hin|]].
  - apply get_reporting_months_list_sorted; [apply Hvs | apply Hv].
  - intros Hday Hn.
    assert (Hsd : day (sub_months end_d n) = 1).
    { unfold sub_months. cbn [year month day].
      pose proof (days_in_month_bounds
                    ((month_index end_d - n) / 12)
                    ((month_index end_d - n) mod 12 + 1)). lia. }
    assert (Hle : date_le (sub_months end_d n) end_d).
    { unfold date_le. rewrite date_leb_month_index; [|apply Hvs|apply Hv].
      rewrite month_index_sub_months, Hsd, Hday.
      rewrite orb_true_iff, andb_true_iff, Z.ltb_lt, Z.eqb_eq, Z.leb_le. lia. }
    split; [|split].
    + apply Hin. repeat split; try apply Hvs; try exact Hsd; try exact Hle.
      apply date_le_refl.
    + apply Hin. repeat split; try apply Hv; try exact Hday; try exact Hle.
      apply date_le_refl.
    + unfold months, get_reporting_months_list, rd, new_reportDates,
        get_report_period_start_date. cbn [start_date end_date].
      rewrite (date_range_MS_closed (sub_months end_d n) end_d);
        [|apply Hvs|apply Hv].
      cbv zeta. rewrite length_map, length_Zseq.
      replace (day (sub_months end_d n) =? 1) with true
        by (symmetry; apply Z.eqb_eq; exact Hsd).
      rewrite month_index_sub_months. lia.
Qed.

Lemma reporting_months_list_witness :
  valid_date (mkDate 2022 7 1)
  /\ get_reporting_months_list
       (new_reportDates (mkDate 2022 7 1) (mkDate 2022 8 4) 2)
     = [mkDate 2022 5 1; mkDate 2022 6 1; mkDate 2022 7 1]
  /\ StronglySorted date_lt
       (get_reporting_months_list
          (new_reportDates (mkDate 2022 7 1) (mkDate 2022 8 4) 2)).
Proof.
  assert (H : valid_date (mkDate 2022 7 1)).
  { repeat split; vm_compute; intro; discriminate. }
  split; [exact H|]. split; [reflexivity|].
  exact (proj1 (proj2 (reporting_months_list_boundaries
                         (mkDate 2022 7 1) (mkDate 2022 8 4) 2 H))).
Defined.

(** An end date inside a month: the list holds the month boundaries between
    the two ends, which are themselves not boundaries. *)
Example reporting_months_mid_month :
  get_reporting_months_list
    (new_reportDates (mkDate 2022 7 15) (mkDate 2022 8 4) 3)
  = [mkDate 2022 5 1; mkDate 2022 6 1; mkDate 2022 7 1].
Proof. reflexivity. Qed.

(* ------------------------------------------------------------------ *)
(** *** Grouping and counting *)

Lemma cell_eqb_eq (a b : cell) : cell_eqb a b = true <-> a = b.
Proof.
  destruct a as [x|x], b as [y|y]; simpl.
  - rewrite date_eqb_eq. split; congruence.
  - split; discriminate.
  - split; discriminate.
  - rewrite String.eqb_eq. split; congruence.
Qed.

Lemma key_eqb_eq (a : list cell) : forall b, key_eqb a b = true <-> a = b.
Proof.
  induction a as [|x a IH]; intros [|y b]; simpl;
    try (split; [discriminate | congruence]); try tauto.
  rewrite andb_true_iff, cell_eqb_eq, IH. split.
  - intros [-> ->]. reflexivity.
  - intros [= -> ->]. auto.
Qed.

Lemma key_eqb_refl (a : list cell) : key_eqb a a = true.
Proof. apply key_eqb_eq. reflexivity. Qed.

Lemma in_group_iff (measures : list Column) (k : list cell) (r : Row) :
  in_group measures k r = true <-> group_key measures r = Some k.
Proof.
  unfold in_group. destruct (group_key measures r) as [k'|].
  - rewrite key_eqb_eq. split; congruence.
  - split; discriminate.
Qed.

Lemma In_keys_of (measures : list Column) (df : DataFrame) (k : list cell) :
  In k (keys_of measures df)
  <-> exists r, In r df /\ group_key measures r = Some k.
Proof.
  induction df as [|a df IH]; simpl.
  - split; [contradiction | intros (r & [] & _)].
  - destruct (group_key measures a) as [ka|] eqn:E; simpl; rewrite IH; split.
    + intros [<- | (r & Hr & Hk)]; eauto.
    + intros (r & [<- | Hr] & Hk); [left; congruence | eauto].
    + intros (r & Hr & Hk); eauto.
    + intros (r & [<- | Hr] & Hk); [congruence | eauto].
Qed.

Lemma In_unique (l : list (list cell)) (k : list cell) :
  In k (unique l) <-> In k l.
Proof.
  induction l as [|a l IH]; simpl; [tauto|].
  rewrite filter_In, IH, negb_true_iff. split.
  - intros [H | [H _]]; auto.
  - intros [H | H]; auto.
    destruct (key_eqb a k) eqn:E; [left; apply key_eqb_eq, E | auto].
Qed.

Lemma NoDup_filter {A : Type} (p : A -> bool) (l : list A) :
  NoDup l -> NoDup (filter p l).
Proof.
  induction 1 as [|a l Ha Hl IH]; simpl; [constructor|].
  destruct (p a); [constructor|]; auto.
  intros H. apply filter_In in H. tauto.
Qed.

Lemma NoDup_unique (l : list (list cell)) : NoDup (unique l).
Proof.
  induction l as [|a l IH]; simpl; constructor.
  - intros H. apply filter_In in H. destruct H as [_ H].
    rewrite key_eqb_refl in H. discriminate.
  - apply NoDup_filter, IH.
Qed.

Lemma insert_sorted_Permutation {A : Type} (leb : A -> A -> bool) (x : A)
  (l : list A) : Permutation (x :: l) (insert_sorted leb x l).
Proof.
  induction l as [|y l IH]; simpl; [reflexivity|].
  destruct (leb x y); [reflexivity|].
  rewrite perm_swap. apply perm_skip, IH.
Qed.

Lemma sort_by_Permutation {A : Type} (leb : A -> A -> bool) (l : list A) :
  Permutation l (sort_by leb l).
Proof.
  induction l as [|x l IH]; simpl; [reflexivity|].
  rewrite <- insert_sorted_Permutation. apply perm_skip, IH.
Qed.

(** The keys of the groups: each key of the frame, once. *)
Lemma group_keys_NoDup (measures : list Column) (df : DataFrame) :
  NoDup (sort_by key_leb (unique (keys_of measures df))).
Proof.
  apply (Permutation_NoDup (sort_by_Permutation _ _)), NoDup_unique.
Qed.

Lemma group_keys_In (measures : list Column) (df : DataFrame) (k : list cell) :
  In k (sort_by key_leb (unique (keys_of measures df)))
  <-> exists r, In r df /\ group_key measures r = Some k.
Proof.
  rewrite <- In_keys_of, <- (In_unique (keys_of measures df)).
  split; apply Permutation_in; [symmetry|]; apply sort_by_Permutation.
Qed.

Lemma Zsum_cons (x : Z) (l : list Z) : Zsum (x :: l) = x + Zsum l.
Proof. reflexivity. Qed.

Lemma Zsum_map_zero {A : Type} (l : list A) : Zsum (map (fun _ => 0) l) = 0.
Proof. induction l as [|a l IH]; simpl; [reflexivity | exact IH]. Qed.

Lemma Zsum_map_add {A : Type} (f g : A -> Z) (l : list A) :
  Zsum (map (fun x => f x + g x) l) = Zsum (map f l) + Zsum (map g l).
Proof.
  induction l as [|a l IH]; [reflexivity|].
  cbn [map]. rewrite !Zsum_cons, IH. lia.
Qed.

Lemma Zsum_map_ext_in {A : Type} (f g : A -> Z) (l : list A) :
  (forall x, In x l -> f x = g x) -> Zsum (map f l) = Zsum (map g l).
Proof. intros H. f_equal. apply map_ext_in, H. Qed.

Lemma Zsum_map_filter {A : Type} (p : A -> bool) (g : A -> Z) (l : list A) :
  Zsum (map g (filter p l)) = Zsum (map (fun x => if p x then g x else 0) l).
Proof.
  induction l as [|a l IH]; [reflexivity|].
  cbn [filter map]. rewrite Zsum_cons.
  destruct (p a); cbn [map]; rewrite ?Zsum_cons, IH; lia.
Qed.

(** Over a duplicate-free list of keys, an indicator of one key sums to its
    value when the key is listed. *)
Lemma Zsum_indicator (ks : list (list cell)) (k0 : list cell) (c : Z) :
  NoDup ks -> In k0 ks ->
  Zsum (map (fun k => if key_eqb k0 k then c else 0) ks) = c.
Proof.
  induction 1 as [|k ks Hk Hnd IH]; [contradiction|].
  cbn [map]. rewrite Zsum_cons. intros [-> | Hin].
  - rewrite key_eqb_refl.
    rewrite (Zsum_map_ext_in _ (fun _ => 0)), Zsum_map_zero; [lia|].
    intros x Hx. destruct (key_eqb k0 x) eqn:E; [|reflexivity].
    apply key_eqb_eq in E. subst x. contradiction.
  - rewrite (IH Hin). destruct (key_eqb k0 k) eqn:E; [|lia].
    apply key_eqb_eq in E. subst k. contradiction.
Qed.

Section SumOverGroups.
Variable measures : list Column.
Variable phi : list cell -> bool.

Let term (df : DataFrame) (k : list cell) : Z :=
  if phi k then count_NHS_Number (filter (in_group measures k) df) else 0.

Let counted (r : Row) : bool :=
  match group_key measures r with
  | Some k => phi k && notna (NHS_Number r)
  | None => false
  end.

(** Summing the counts of the groups selected by [phi] counts the rows with
    an identifier that fall in such a group. *)
Lemma sum_over_groups (df : DataFrame) :
  forall ks,
    NoDup ks ->
    (forall r k, In r df -> group_key measures r = Some k -> In k ks) ->
    Zsum (map (term df) ks) = Z.of_nat (List.length (filter counted df)).
Proof.
  induction df as [|a df IH]; intros ks Hnd Hall.
  - unfold term, count_NHS_Number. cbn [filter List.length Z.of_nat].
    rewrite (Zsum_map_ext_in _ (fun _ => 0)), Zsum_map_zero; [reflexivity|].
    intros k _. destruct (phi k); reflexivity.
  - assert (Hstep : forall k,
               term (a :: df) k
               = term df k
                 + (if in_group measures k a
                    then (if phi k && notna (NHS_Number a) then 1 else 0)
                    else 0)).
    { intros k. unfold term, count_NHS_Number. cbn [filter].
      destruct (in_group measures k a); cbn [filter];
        destruct (phi k); cbn [andb];
        try destruct (notna (NHS_Number a)); cbn [List.length]; lia. }
    rewrite (Zsum_map_ext_in _ _ ks (fun k _ => Hstep k)).
    rewrite Zsum_map_add.
    rewrite IH; [|exact Hnd|intros r k Hr; apply Hall; right; exact Hr].
    cbn [filter]. unfold counted at 2.
    destruct (group_key measures a) as [k0|] eqn:E.
    + rewrite (Zsum_map_ext_in _
                 (fun k => if key_eqb k0 k
                           then (if phi k0 && notna (NHS_Number a) then 1 else 0)
                           else 0)).
      * rewrite Zsum_indicator;
          [|exact Hnd|apply (Hall a); [left; reflexivity | exact E]].
        destruct (phi k0 && notna (NHS_Number a)); cbn [List.length]; lia.
      * intros k _. unfold in_group. rewrite E.
        destruct (key_eqb k0 k) eqn:Ek; [|reflexivity].
        apply key_eqb_eq in Ek. subst k. reflexivity.
    + rewrite (Zsum_map_ext_in _ (fun _ => 0)), Zsum_map_zero; [lia|].
      intros k _. unfold in_group. rewrite E. reflexivity.
Qed.
End SumOverGroups.

Lemma Column_eqb_eq (a b : Column) : Column_eqb a b = true <-> a = b.
Proof. destruct a, b; simpl; split; congruence. Qed.

Lemma key_lookup_group_key (measures : list Column) (r : Row) (c : Column) :
  forall k,
    group_key measures r = Some k -> In c measures ->
    key_lookup measures k c = column_value c r.
Proof.
  induction measures as [|m ms IH]; intros k Hk Hc; [contradiction|].
  cbn [group_key] in Hk.
  destruct (column_value m r) as [v|] eqn:Ev; [|discriminate].
  destruct (group_key ms r) as [k'|]; [|discriminate].
  injection Hk as <-. cbn [key_lookup].
  destruct (Column_eqb m c) eqn:E.
  - apply Column_eqb_eq in E. subst c. symmetry. exact Ev.
  - apply IH; [reflexivity|]. destruct Hc as [-> | Hc]; [|exact Hc].
    assert (Column_eqb c c = true) by (apply Column_eqb_eq; reflexivity).
    congruence.
Qed.

Lemma cell_date_ACH_DATE (r : Row) :
  cell_date (column_value COL_ACH_DATE r) = ACH_DATE r.
Proof.
  unfold column_value, Row_columns. destruct (ACH_DATE r); reflexivity.
Qed.

(** What an aggregated table sums to for one date. *)
Lemma count_for_date_aggregate (df : DataFrame) (measures : list Column)
  (fill_value : string) (d : Date) :
  In COL_ACH_DATE measures ->
  count_for_date (aggregate_ndop_by_measure df measures fill_value) d
  = Z.of_nat (List.length (filter (counted_for measures d) df)).
Proof.
  intros Hin.
  unfold count_for_date, aggregate_ndop_by_measure, add_age_or_gender_columns,
    groupby.
  rewrite Zsum_map_filter, !map_map. cbn [fst snd Agg.ACH_DATE Agg.OPT_OUT].
  set (phi := fun k : list cell =>
                match cell_date (key_lookup measures k COL_ACH_DATE) with
                | Some d' => date_eqb d' d
                | None => false
                end).
  rewrite (sum_over_groups measures phi df);
    [|apply group_keys_NoDup|intros r k Hr Hk; apply group_keys_In; eauto].
  f_equal. f_equal. apply filter_ext_in. intros r Hr.
  unfold counted_for, phi. destruct (group_key measures r) as [k|] eqn:E;
    [|reflexivity].
  rewrite (key_lookup_group_key measures r COL_ACH_DATE k E Hin),
    cell_date_ACH_DATE.
  reflexivity.
Qed.

(** Reconciliation holds for tables with no null age band or gender. *)
Lemma reconciliation_when_dimensions_filled (df : DataFrame) :
  (forall r, In r df -> AGE_BAND r <> None /\ GENDER r <> None) ->
  reconciles df.
Proof.
  intros Hfilled d.
  rewrite !count_for_date_aggregate by (simpl; auto).
  split; f_equal; f_equal; apply filter_ext_in; intros r Hr;
    destruct (Hfilled r Hr) as [Ha Hg];
    unfold counted_for; cbn [group_key column_value Row_columns];
    destruct (ACH_DATE r), (AGE_BAND r), (GENDER r); try reflexivity;
    congruence.
Qed.

(** C1, at the living cohort of a patient whose age band is null (which the
    cleaning step does not fill): for July 2022 the date total and the sum
    over genders count the patient, the sum over age bands does not, so the
    three breakdowns do not reconcile. *)
Theorem reconciliation_fails_on_null_age_band :
  living_cohort (clean_nhs_numbers [patient_D])
  = [ set_ACH_DATE patient_D d_2022_05_01;
      set_ACH_DATE patient_D d_2022_06_01;
      set_ACH_DATE patient_D d_2022_07_01 ]
  /\ count_for_date
       (aggregate_ndop_by_measure (living_cohort (clean_nhs_numbers [patient_D]))
                                  [COL_ACH_DATE] "All")
       d_2022_07_01 = 1
  /\ count_for_date
       (aggregate_ndop_by_measure (living_cohort (clean_nhs_numbers [patient_D]))
                                  [COL_ACH_DATE; COL_GENDER] "All")
       d_2022_07_01 = 1
  /\ count_for_date
       (aggregate_ndop_by_measure (living_cohort (clean_nhs_numbers [patient_D]))
                                  [COL_ACH_DATE; COL_AGE_BAND] "All")
       d_2022_07_01 = 0
  /\ ~ reconciles (living_cohort (clean_nhs_numbers [patient_D])).
Proof.
  repeat split; try reflexivity.
  intros H. destruct (H d_2022_07_01) as [_ H']. vm_compute in H'.
  discriminate.
Qed.

(* ------------------------------------------------------------------ *)
(** *** Counts over the concatenated monthly tables *)

Lemma patient_ids_app (l1 l2 : list Row) :
  patient_ids (l1 ++ l2) = patient_ids l1 ++ patient_ids l2.
Proof.
  induction l1 as [|a l1 IH]; simpl; [reflexivity|].
  destruct (NHS_Number a); simpl; rewrite IH; reflexivity.
Qed.

Lemma In_patient_ids (l : list Row) (id : string) :
  In id (patient_ids l) <-> In (Some id) (map NHS_Number l).
Proof.
  induction l as [|a l IH]; simpl; [tauto|].
  destruct (NHS_Number a) as [i|]; simpl; rewrite IH; split.
  - intros [-> | H]; auto.
  - intros [[= ->] | H]; auto.
  - auto.
  - intros [[=] | H]; auto.
Qed.

Lemma NoDup_patient_ids (l : list Row) :
  NoDup (map NHS_Number l) -> NoDup (patient_ids l).
Proof.
  induction l as [|a l IH]; simpl; intros H; [constructor|].
  inversion H as [|x xs Hx Hxs]; subst.
  destruct (NHS_Number a) as [i|]; [constructor|]; auto.
  rewrite In_patient_ids. exact Hx.
Qed.

Lemma NoDup_patient_ids_filter (p : Row -> bool) (l : list Row) :
  NoDup (patient_ids l) -> NoDup (patient_ids (filter p l)).
Proof.
  induction l as [|a l IH]; simpl; intros H; [constructor|].
  assert (Hl : NoDup (patient_ids l)).
  { destruct (NHS_Number a); [inversion H|]; assumption. }
  destruct (p a); [|auto]. simpl.
  destruct (NHS_Number a) as [i|]; [|auto].
  inversion H as [|x xs Hx Hxs]; subst. constructor; [|auto].
  rewrite In_patient_ids in *. rewrite in_map_iff in *.
  intros (r & Hr & Hin). apply Hx. apply filter_In in Hin.
  exists r. tauto.
Qed.

Lemma count_NHS_Number_patient_ids (g : list Row) :
  count_NHS_Number g = Z.of_nat (List.length (patient_ids g)).
Proof.
  unfold count_NHS_Number. f_equal.
  induction g as [|a g IH]; [reflexivity|].
  cbn [filter patient_ids]. unfold notna at 1, isna.
  destruct (NHS_Number a); cbn [negb List.length]; rewrite IH; reflexivity.
Qed.

Lemma filter_none {A : Type} (p : A -> bool) (l : list A) :
  (forall x, In x l -> p x = false) -> filter p l = [].
Proof.
  induction l as [|a l IH]; intros H; [reflexivity|]. simpl.
  rewrite (H a (or_introl eq_refl)). apply IH. intros x Hx. apply H.
  right. exact Hx.
Qed.

Lemma filter_on_date_tagged (a d : Date) (l : list Row) :
  (forall r, In r l -> ACH_DATE r = Some a) ->
  filter (on_date d) l = if date_eqb a d then l else [].
Proof.
  intros H. induction l as [|r l IH]; simpl.
  - destruct (date_eqb a d); reflexivity.
  - unfold on_date at 1. rewrite (H r (or_introl eq_refl)).
    rewrite IH by (intros x Hx; apply H; right; exact Hx).
    destruct (date_eqb a d); reflexivity.
Qed.

Section MonthlyTables.
(** A resolver: one table per snapshot date, tagged with the date and with
    at most one row per patient. *)
Variable f : DataFrame -> Date -> DataFrame.
Hypothesis f_tagged :
  forall df date r, In r (f df date) -> ACH_DATE r = Some date.
Hypothesis f_NoDup : forall df date, NoDup (map NHS_Number (f df date)).

Lemma monthly_tables_one_row_per_patient (df : DataFrame) (d : Date) :
  forall dates,
    NoDup dates ->
    NoDup (patient_ids
             (filter (on_date d)
                     (List.concat (map (fun date => f df date) dates)))).
Proof.
  induction dates as [|a dates IH]; intros Hnd; simpl; [constructor|].
  inversion Hnd as [|x xs Ha Hdates]; subst.
  rewrite filter_app, patient_ids_app.
  rewrite (filter_on_date_tagged a d) by apply f_tagged.
  destruct (date_eqb a d) eqn:E.
  - apply date_eqb_eq in E. subst d.
    assert (Hrest : filter (on_date a)
                      (List.concat (map (fun date => f df date) dates)) = []).
    { clear IH Hnd Hdates. induction dates as [|b dates IH]; [reflexivity|].
      simpl. rewrite filter_app, (filter_on_date_tagged b a) by apply f_tagged.
      destruct (date_eqb b a) eqn:E.
      - apply date_eqb_eq in E. subst b. exfalso. apply Ha. left. reflexivity.
      - apply IH. intros H. apply Ha. right. exact H. }
    rewrite Hrest, app_nil_r. apply NoDup_patient_ids, f_NoDup.
  - apply IH, Hdates.
Qed.

Lemma monthly_tables_counts (df : DataFrame) (dates : list Date)
  (measures : list Column) (k : list cell) :
  NoDup dates -> In COL_ACH_DATE measures ->
  let table := List.concat (map (fun date => f df date) dates) in
  count_NHS_Number (filter (in_group measures k) table)
  = distinct_patients (filter (in_group measures k) table).
Proof.
  intros Hnd Hin table.
  rewrite count_NHS_Number_patient_ids. unfold distinct_patients.
  rewrite nodup_fixed_point; [reflexivity|].
  destruct (cell_date (key_lookup measures k COL_ACH_DATE)) as [d|] eqn:Ed.
  - replace (filter (in_group measures k) table)
      with (filter (in_group measures k) (filter (on_date d) table)).
    + apply NoDup_patient_ids_filter, monthly_tables_one_row_per_patient, Hnd.
    + rewrite filter_filter_andb. apply filter_ext. intros r.
      destruct (in_group measures k r) eqn:E;
        [|apply andb_false_r].
      apply in_group_iff in E. unfold on_date.
      rewrite <- cell_date_ACH_DATE,
        <- (key_lookup_group_key measures r COL_ACH_DATE k E Hin), Ed.
      rewrite (proj2 (date_eqb_eq d d) eq_refl). reflexivity.
  - replace (filter (in_group measures k) table) with (@nil Row);
      [constructor|].
    symmetry. apply filter_none.
    intros r Hr. destruct (in_group measures k r) eqn:E; [|reflexivity].
    apply in_group_iff in E.
    pose proof (key_lookup_group_key measures r COL_ACH_DATE k E Hin) as Hk.
    rewrite Hk in Ed.
    assert (Hsome : exists v, column_value COL_ACH_DATE r = Some v).
    { clear -E Hin. revert k E.
      induction measures as [|m ms IH]; intros k E; [contradiction|].
      cbn [group_key] in E.
      destruct (column_value m r) as [v|] eqn:Ev; [|discriminate].
      destruct (group_key ms r) as [k'|] eqn:Ek; [|discriminate].
      destruct Hin as [-> | Hin]; [eauto | exact (IH Hin k' eq_refl)]. }
    destruct Hsome as (v & Hv). rewrite cell_date_ACH_DATE in Ed.
    unfold column_value, Row_columns in Hv. rewrite Ed in Hv. discriminate.
Qed.
End MonthlyTables.

Lemma process_active_ndop_records_tagged (df : DataFrame) (date : Date) (r : Row) :
  In r (process_active_ndop_records df date) -> ACH_DATE r = Some date.
Proof.
  intros H. apply process_active_ndop_records_In in H. destruct H as [H _].
  apply slice_ndop_by_month_dated in H. tauto.
Qed.

Lemma process_deceased_ndop_records_tagged (df : DataFrame) (date : Date) (r : Row) :
  In r (process_deceased_ndop_records df date) -> ACH_DATE r = Some date.
Proof.
  intros H. apply process_deceased_ndop_records_In in H. destruct H as [H _].
  apply slice_ndop_by_month_dated in H. tauto.
Qed.

Lemma NoDup_map_inj_in {A B : Type} (f : A -> B) (l : list A) :
  NoDup l ->
  (forall x y, In x l -> In y l -> f x = f y -> x = y) ->
  NoDup (map f l).
Proof.
  induction 1 as [|a l Ha Hl IH]; intros Hinj; cbn [map]; constructor.
  - intros Hin. apply in_map_iff in Hin. destruct Hin as (y & Hy & Hin).
    apply Ha. rewrite (Hinj a y); auto; [left; reflexivity | right; exact Hin].
  - apply IH. intros x y Hx Hy. apply Hinj; right; assumption.
Qed.

Lemma group_key_column_present {R : Type} {cols : Columns R}
  (measures : list Column) (r : R) (c : Column) :
  forall k, group_key measures r = Some k -> In c measures ->
            exists v, column_value c r = Some v.
Proof.
  induction measures as [|m ms IH]; intros k E Hin; [contradiction|].
  cbn [group_key] in E.
  destruct (column_value m r) as [v|] eqn:Ev; [|discriminate].
  destruct (group_key ms r) as [k'|] eqn:Ek; [|discriminate].
  destruct Hin as [-> | Hin]; [eauto | exact (IH k' eq_refl Hin)].
Qed.

Lemma date_eqb_sym (a b : Date) : date_eqb a b = date_eqb b a.
Proof. unfold date_eqb. lia. Qed.

(* ------------------------------------------------------------------ *)
(** *** Groups, read off the rows *)

Lemma Column_eqb_sym (a b : Column) : Column_eqb a b = Column_eqb b a.
Proof. destruct a, b; reflexivity. Qed.

Lemma existsb_Column_eqb_In (c : Column) (measures : list Column) :
  In c measures -> existsb (Column_eqb c) measures = true.
Proof.
  intros H. apply existsb_exists. exists c. split; [exact H|].
  apply Column_eqb_eq. reflexivity.
Qed.

(** The cell that a group key holds for a column. *)
Lemma key_lookup_of_row (measures : list Column) (r : Row) (c : Column) :
  forall k,
    group_key measures r = Some k ->
    key_lookup measures k c
    = if existsb (Column_eqb c) measures then column_value c r else None.
Proof.
  induction measures as [|m ms IH]; intros k Hk; cbn [group_key] in Hk.
  - injection Hk as <-. reflexivity.
  - destruct (column_value m r) as [v|] eqn:Ev; [|discriminate].
    destruct (group_key ms r) as [k'|]; [|discriminate].
    injection Hk as <-. cbn [key_lookup existsb].
    rewrite (Column_eqb_sym c m).
    destruct (Column_eqb m c) eqn:E; cbn [orb].
    + apply Column_eqb_eq in E. subst c. symmetry. exact Ev.
    + apply IH. reflexivity.
Qed.

Lemma labels_of_key (measures : list Column) (fill_value : string) (r : Row)
  (k : list cell) :
  group_key measures r = Some k ->
  (cell_date (key_lookup measures k COL_ACH_DATE),
   cell_str_fillna (key_lookup measures k COL_AGE_BAND) fill_value,
   cell_str_fillna (key_lookup measures k COL_GENDER) fill_value)
  = group_labels measures fill_value r.
Proof.
  intros Hk. rewrite !(key_lookup_of_row measures r _ k Hk).
  unfold group_labels, column_value, Row_columns.
  destruct (existsb (Column_eqb COL_ACH_DATE) measures);
    destruct (existsb (Column_eqb COL_AGE_BAND) measures);
    destruct (existsb (Column_eqb COL_GENDER) measures);
    destruct (ACH_DATE r), (AGE_BAND r), (GENDER r); reflexivity.
Qed.

Lemma agree_on_cell (c : Column) (r r' : Row) (v : cell) :
  column_value c r = Some v ->
  agree_on c r r'
  = match column_value c r' with
    | Some v' => cell_eqb v' v
    | None => false
    end.
Proof.
  unfold column_value, Row_columns, agree_on.
  destruct c.
  - destruct (ACH_DATE r) as [d|]; [|discriminate]. intros [= <-].
    destruct (ACH_DATE r') as [d'|]; [|reflexivity]. apply date_eqb_sym.
  - destruct (AGE_BAND r) as [a|]; [|discriminate]. intros [= <-].
    destruct (AGE_BAND r') as [a'|]; [|reflexivity]. apply String.eqb_sym.
  - destruct (GENDER r) as [g|]; [|discriminate]. intros [= <-].
    destruct (GENDER r') as [g'|]; [|reflexivity]. apply String.eqb_sym.
Qed.

(** The rows of the group with the key of [r] are the rows that agree with
    [r] on every grouping column. *)
Lemma in_group_same_group (measures : list Column) (r r' : Row) :
  forall k,
    group_key measures r = Some k ->
    in_group measures k r' = same_group measures r r'.
Proof.
  unfold in_group, same_group.
  induction measures as [|m ms IH]; intros k Hk; cbn [group_key] in Hk.
  - injection Hk as <-. reflexivity.
  - destruct (column_value m r) as [v|] eqn:Ev; [|discriminate].
    destruct (group_key ms r) as [k'|] eqn:Ek; [|discriminate].
    injection Hk as <-. cbn [group_key forallb].
    rewrite (agree_on_cell m r r' v Ev), <- (IH k' eq_refl).
    destruct (column_value m r') as [v'|]; [|reflexivity].
    destruct (group_key ms r') as [k2|]; [reflexivity|].
    apply eq_sym, andb_false_r.
Qed.

Lemma same_group_refl_key (measures : list Column) (r : Row) :
  same_group measures r r = true <-> exists k, group_key measures r = Some k.
Proof.
  split.
  - unfold same_group.
    induction measures as [|m ms IH]; cbn [forallb group_key]; [eauto|].
    intros H. apply andb_true_iff in H. destruct H as [Hm Hms].
    destruct (IH Hms) as (k' & ->).
    destruct (column_value m r) as [v|] eqn:Ev; [eauto|].
    exfalso. unfold column_value, Row_columns in Ev. unfold agree_on in Hm.
    destruct m;
      [destruct (ACH_DATE r) | destruct (AGE_BAND r) | destruct (GENDER r)];
      discriminate.
  - intros (k & Hk). rewrite <- (in_group_same_group measures r r k Hk).
    unfold in_group. rewrite Hk. apply key_eqb_refl.
Qed.

Lemma group_key_ext (measures : list Column) (r r' : Row) :
  (forall c, In c measures -> column_value c r = column_value c r') ->
  group_key measures r = group_key measures r'.
Proof.
  induction measures as [|m ms IH]; intros H; [reflexivity|].
  cbn [group_key]. rewrite (H m (or_introl eq_refl)), IH; [reflexivity|].
  intros c Hc. apply H. right. exact Hc.
Qed.

(** Rows with a value in every grouping column and the same labels have the
    same key. *)
Lemma group_labels_inj (measures : list Column) (fill_value : string)
  (r r' : Row) (k k' : list cell) :
  group_key measures r = Some k -> group_key measures r' = Some k' ->
  group_labels measures fill_value r = group_labels measures fill_value r' ->
  k = k'.
Proof.
  intros Hk Hk' E.
  assert (Hkeys : group_key measures r = group_key measures r').
  { apply group_key_ext. intros c Hc.
    destruct (group_key_column_present measures r c k Hk Hc) as (v & Hv).
    destruct (group_key_column_present measures r' c k' Hk' Hc) as (v' & Hv').
    unfold group_labels in E.
    rewrite Hv, Hv'. unfold column_value, Row_columns in Hv, Hv'.
    destruct c; rewrite (existsb_Column_eqb_In _ measures Hc) in E;
      injection E as E1 E2 E3.
    - destruct (ACH_DATE r), (ACH_DATE r'); try discriminate.
      cbn [option_map] in Hv, Hv'. congruence.
    - destruct (AGE_BAND r), (AGE_BAND r'); try discriminate.
      cbn [option_map] in Hv, Hv'. congruence.
    - destruct (GENDER r), (GENDER r'); try discriminate.
      cbn [option_map] in Hv, Hv'. congruence. }
  congruence.
Qed.

Section MonthlyAggregates.
(** A resolver: one table per snapshot date, tagged with the date and with
    at most one row per patient. *)
Variable f : DataFrame -> Date -> DataFrame.
Hypothesis f_tagged :
  forall df date r, In r (f df date) -> ACH_DATE r = Some date.
Hypothesis f_NoDup : forall df date, NoDup (map NHS_Number (f df date)).

Lemma monthly_tables_aggregate (df : DataFrame) (dates : list Date)
  (measures : list Column) (fill_value : string) :
  NoDup dates -> In COL_ACH_DATE measures ->
  let table := List.concat (map (fun date => f df date) dates) in
  counts_distinct_patients_per_group
    measures fill_value table
    (aggregate_ndop_by_measure table measures fill_value).
Proof.
  intros Hnd Hin table.
  assert (Hrow : forall r k,
             group_key measures r = Some k ->
             let a := Agg.mk (cell_date (key_lookup measures k COL_ACH_DATE))
                             (cell_str_fillna
                                (key_lookup measures k COL_AGE_BAND) fill_value)
                             (cell_str_fillna
                                (key_lookup measures k COL_GENDER) fill_value)
                             (count_NHS_Number
                                (filter (in_group measures k) table)) in
             agg_labels a = group_labels measures fill_value r
             /\ Agg.OPT_OUT a
                = distinct_patients (filter (same_group measures r) table)).
  { intros r k Hk a. split.
    - apply (labels_of_key measures fill_value r k Hk).
    - unfold a. cbn [Agg.OPT_OUT].
      pose proof (monthly_tables_counts f f_tagged f_NoDup df dates measures k
                    Hnd Hin) as Hc.
      cbv zeta in Hc. fold table in Hc. rewrite Hc.
      f_equal. apply filter_ext. intros r'.
      apply in_group_same_group, Hk. }
  assert (Hagg : aggregate_ndop_by_measure table measures fill_value
                 = map (fun k =>
                          Agg.mk (cell_date (key_lookup measures k COL_ACH_DATE))
                                 (cell_str_fillna
                                    (key_lookup measures k COL_AGE_BAND)
                                    fill_value)
                                 (cell_str_fillna
                                    (key_lookup measures k COL_GENDER)
                                    fill_value)
                                 (count_NHS_Number
                                    (filter (in_group measures k) table)))
                       (sort_by key_leb (unique (keys_of measures table)))).
  { unfold aggregate_ndop_by_measure, add_age_or_gender_columns, groupby.
    rewrite !map_map. reflexivity. }
  rewrite Hagg. split; [|split].
  - intros r Hr Hcomplete.
    apply same_group_refl_key in Hcomplete. destruct Hcomplete as (k & Hk).
    eexists. split.
    + apply in_map_iff. exists k. split; [reflexivity|].
      apply group_keys_In. exists r. split; assumption.
    + exact (Hrow r k Hk).
  - intros a Ha. apply in_map_iff in Ha. destruct Ha as (k & <- & Hk).
    apply group_keys_In in Hk. destruct Hk as (r & Hr & Hk).
    exists r. split; [exact Hr|]. split.
    + apply same_group_refl_key. eauto.
    + exact (Hrow r k Hk).
  - rewrite map_map. apply NoDup_map_inj_in; [apply group_keys_NoDup|].
    intros k1 k2 H1 H2 E.
    apply group_keys_In in H1, H2.
    destruct H1 as (r1 & _ & Hk1). destruct H2 as (r2 & _ & Hk2).
    unfold agg_labels in E.
    cbn [Agg.ACH_DATE Agg.AGE_BAND Agg.GENDER] in E.
    rewrite (labels_of_key measures fill_value r1 k1 Hk1),
      (labels_of_key measures fill_value r2 k2 Hk2) in E.
    exact (group_labels_inj measures fill_value r1 r2 k1 k2 Hk1 Hk2 E).
Qed.
End MonthlyAggregates.

(** C9.  In the concatenated monthly table of the living cohort, and in that
    of the deceased cohort, of a report of at least one month, grouped by
    any set of columns that includes the snapshot date,
    [aggregate_ndop_by_measure] has exactly one row for each group of the
    table, and the count of that row is the number of distinct patient
    identifiers among the rows of the group. *)
Theorem counts_are_distinct_patients :
  forall (df : DataFrame) (end_d pub : Date) (n : Z)
         (measures : list Column) (fill_value : string),
    valid_date end_d ->
    In COL_ACH_DATE measures ->
    get_reporting_months_list (new_reportDates end_d pub n) <> [] ->
    let rd := new_reportDates end_d pub n in
    let living :=
      concatenate_ndop_monthly_records process_active_ndop_records df rd in
    let deceased :=
      concatenate_ndop_monthly_records process_deceased_ndop_records df rd in
    counts_distinct_patients_per_group
      measures fill_value living
      (aggregate_ndop_by_measure living measures fill_value)
    /\ counts_distinct_patients_per_group
         measures fill_value deceased
         (aggregate_ndop_by_measure deceased measures fill_value).
Proof.
  intros df end_d pub n measures fill_value Hv Hin _ rd living deceased.
  assert (Hnd : NoDup (get_reporting_months_list rd)).
  { apply StronglySorted_date_lt_NoDup, get_reporting_months_list_sorted.
    - apply (sub_months_valid end_d n Hv).
    - apply Hv. }
  split.
  - apply (monthly_tables_aggregate process_active_ndop_records
             process_active_ndop_records_tagged
             (fun df date => with_row_num_NoDup _ [])
             df _ measures fill_value Hnd Hin).
  - apply (monthly_tables_aggregate process_deceased_ndop_records
             process_deceased_ndop_records_tagged
             (fun df date => with_row_num_NoDup _ [])
             df _ measures fill_value Hnd Hin).
Qed.

Example sample_living_by_gender :
  aggregate_ndop_by_measure
    (concatenate_ndop_monthly_records process_active_ndop_records
                                      sample_records sample_report_dates)
    [COL_ACH_DATE; COL_GENDER] "All"
  = [ Agg.mk (Some d_2022_05_01) "All" "Female" 1;
      Agg.mk (Some d_2022_05_01) "All" "Male" 1;
      Agg.mk (Some d_2022_06_01) "All" "Male" 1;
      Agg.mk (Some d_2022_07_01) "All" "Male" 1 ].
Proof. reflexivity. Qed.

(** The groups of the sample by date and gender, counted from the rows of
    the living cohort. *)
Example sample_groups_counted_from_rows :
  let living :=
    concatenate_ndop_monthly_records process_active_ndop_records
                                     sample_records sample_report_dates in
  map (fun r => (group_labels [COL_ACH_DATE; COL_GENDER] "All" r,
                 distinct_patients
                   (filter (same_group [COL_ACH_DATE; COL_GENDER] r) living)))
      living
  = [ ((Some d_2022_05_01, "All", "Female"), 1);
      ((Some d_2022_05_01, "All", "Male"), 1);
      ((Some d_2022_06_01, "All", "Male"), 1);
      ((Some d_2022_07_01, "All", "Male"), 1) ]%string.
Proof. vm_compute. reflexivity. Qed.

Lemma counts_are_distinct_patients_witness :
  valid_date d_2022_07_01
  /\ In COL_ACH_DATE [COL_ACH_DATE; COL_GENDER]
  /\ get_reporting_months_list
       (new_reportDates d_2022_07_01 (mkDate 2022 8 4) 2) <> []
  /\ counts_distinct_patients_per_group
       [COL_ACH_DATE; COL_GENDER] "All"
       (concatenate_ndop_monthly_records process_active_ndop_records
          sample_records sample_report_dates)
       (aggregate_ndop_by_measure
          (concatenate_ndop_monthly_records process_active_ndop_records
             sample_records sample_report_dates)
          [COL_ACH_DATE; COL_GENDER] "All").
Proof.
  assert (Hv : valid_date d_2022_07_01).
  { repeat split; vm_compute; intro; discriminate. }
  assert (Hin : In COL_ACH_DATE [COL_ACH_DATE; COL_GENDER]).
  { simpl. left. reflexivity. }
  assert (Hm : get_reporting_months_list
                 (new_reportDates d_2022_07_01 (mkDate 2022 8 4) 2) <> [])
    by (vm_compute; discriminate).
  split; [exact Hv|]. split; [exact Hin|]. split; [exact Hm|].
  exact (proj1 (counts_are_distinct_patients sample_records d_2022_07_01
                  (mkDate 2022 8 4) 2 [COL_ACH_DATE; COL_GENDER] "All"
                  Hv Hin Hm)).
Defined.

(* ------------------------------------------------------------------ *)
(** *** Frames and their index *)

Lemma index_assign {A B : Type} (f : A -> B) (df : Frame A) :
  index (assign f df) = index df.
Proof. unfold index, assign. rewrite map_map. reflexivity. Qed.

Lemma values_assign {A B : Type} (f : A -> B) (df : Frame A) :
  values (assign f df) = map f (values df).
Proof. unfold values, assign. rewrite !map_map. reflexivity. Qed.

Lemma combine_fst_snd {A B : Type} (l1 : list A) :
  forall (l2 : list B),
    List.length l1 = List.length l2 ->
    map fst (combine l1 l2) = l1 /\ map snd (combine l1 l2) = l2.
Proof.
  induction l1 as [|a l1 IH]; intros [|b l2] H; try discriminate; simpl.
  - auto.
  - injection H as H. destruct (IH l2 H) as [-> ->]. auto.
Qed.

Lemma index_reset_index {A : Type} (rows : list A) :
  index (reset_index rows) = seq 0 (List.length rows).
Proof.
  unfold index, reset_index. apply combine_fst_snd. apply length_seq.
Qed.

Lemma values_reset_index {A : Type} (rows : list A) :
  values (reset_index rows) = rows.
Proof.
  unfold values, reset_index. apply combine_fst_snd. apply length_seq.
Qed.

Lemma NoDup_index_reset_index {A : Type} (rows : list A) :
  NoDup (index (reset_index rows)).
Proof. rewrite index_reset_index. apply seq_NoDup. Qed.

Lemma unique_label {A : Type} (df : Frame A) (p q : nat * A) :
  NoDup (index df) -> In p df -> In q df -> fst p = fst q -> p = q.
Proof.
  unfold index. induction df as [|a df IH]; simpl; [contradiction|].
  intros Hnd Hp Hq Heq. inversion Hnd as [|x xs Ha Hdf]; subst.
  destruct Hp as [-> | Hp], Hq as [-> | Hq]; auto.
  - exfalso. apply Ha. rewrite Heq. apply in_map, Hq.
  - exfalso. apply Ha. rewrite <- Heq. apply in_map, Hp.
Qed.

Lemma map_snd_filter {A : Type} (p : A -> bool) (df : list (nat * A)) :
  map snd (filter (fun q => p (snd q)) df) = filter p (map snd df).
Proof.
  induction df as [|a df IH]; simpl; [reflexivity|].
  destruct (p (snd a)); simpl; rewrite IH; reflexivity.
Qed.

Lemma values_filter {A : Type} (p : A -> bool) (df : Frame A) :
  values (filter (fun q => p (snd q)) df) = filter p (values df).
Proof. apply map_snd_filter. Qed.

(* ------------------------------------------------------------------ *)
(** *** Suppression of the unknown-gender rows *)

(** On a frame whose index labels are all different, dropping by label
    drops the masked rows and no other. *)
Lemma suppress_unique_index (df : Frame Csv.row) :
  NoDup (index df) ->
  suppress_unknown_undisclosed_gender_rows df
  = filter (fun p => negb (suppression_mask (snd p))) df.
Proof.
  intros Hnd. unfold suppress_unknown_undisclosed_gender_rows.
  apply filter_ext_in. intros p Hp. f_equal.
  destruct (suppression_mask (snd p)) eqn:E.
  - apply existsb_exists. exists (fst p). split; [|apply Nat.eqb_refl].
    unfold index. apply in_map. apply filter_In. auto.
  - destruct (existsb _ _) eqn:Ex; [|reflexivity].
    apply existsb_exists in Ex. destruct Ex as (i & Hi & Heq).
    apply Nat.eqb_eq in Heq. subst i. unfold index in Hi.
    apply in_map_iff in Hi. destruct Hi as (q & Hfst & Hq).
    apply filter_In in Hq. destruct Hq as [Hq Hmask].
    rewrite (unique_label df p q Hnd Hp Hq (eq_sym Hfst)) in E. congruence.
Qed.

(** Rows that share an index label are dropped together. *)
Example suppress_shared_label :
  let row gender :=
    Csv.mk (Some d_2022_07_01) (Some "0-9"%string) (Some gender) 1 (Some 10)
           (FNum (inject_Z 10)) in
  suppress_unknown_undisclosed_gender_rows
    [ (0%nat, row "Unknown / Prefer not to say"%string);
      (0%nat, row "Female"%string) ] = [].
Proof. reflexivity. Qed.

Lemma suppression_mask_iff (r : Csv.row) :
  suppression_mask r = true <-> suppressed_by_policy r.
Proof.
  unfold suppression_mask, suppressed_by_policy, col_eq, isin.
  rewrite andb_true_iff.
  destruct (Csv.GENDER r) as [g|], (Csv.AGE_BAND r) as [a|];
    cbn [existsb];
    rewrite ?String.eqb_eq, ?orb_false_r.
  - destruct (String.eqb_spec a "All"); [subst|];
      [|destruct (String.eqb_spec a "All deceased"); [subst|]]; cbn [orb Bool.eqb];
      split; intros [H1 H2]; try discriminate; try (subst g);
      try (destruct H2; congruence); repeat split; congruence.
  - cbn [Bool.eqb]. split; [intros [-> _]; repeat split; discriminate|].
    intros [[= ->] _]. auto.
  - split; [intros [[=] _] | intros [[=] _]].
  - split; [intros [[=] _] | intros [[=] _]].
Qed.

Lemma not_suppression_mask_iff (r : Csv.row) :
  negb (suppression_mask r) = true <-> ~ suppressed_by_policy r.
Proof.
  rewrite negb_true_iff, <- suppression_mask_iff.
  destruct (suppression_mask r); split; congruence.
Qed.

Lemma NoDup_index_before_suppression (ndop_df ndop_deceased_df : DataFrame)
  (list_size_for_age_gen_df : list ListSize.row) :
  NoDup (index (age_gen_before_suppression ndop_df ndop_deceased_df
                                           list_size_for_age_gen_df)).
Proof.
  unfold age_gen_before_suppression, convert_age_column_to_categorical,
    convert_gender_column_to_categorical,
    fill_list_size_and_opt_out_nan_values, calculate_opt_out_rate, merge_left.
  rewrite !index_assign. apply NoDup_index_reset_index.
Qed.

Lemma create_age_gen_csv_In (ndop_df ndop_deceased_df : DataFrame)
  (list_size_for_age_gen_df : list ListSize.row) (o : Published.row) :
  In o (values (create_age_gen_csv ndop_df ndop_deceased_df
                                   list_size_for_age_gen_df))
  <-> exists r,
        In r (values (age_gen_before_suppression ndop_df ndop_deceased_df
                                                 list_size_for_age_gen_df))
        /\ ~ suppressed_by_policy r /\ o = published_row r.
Proof.
  unfold create_age_gen_csv, format_publication_date, sort_values.
  rewrite values_assign, in_map_iff.
  rewrite suppress_unique_index by apply NoDup_index_before_suppression.
  split.
  - intros (r & <- & Hr). exists r.
    apply (Permutation_in _
             (Permutation_map snd
                (Permutation_sym (sort_by_Permutation _ _)))) in Hr.
    rewrite (map_snd_filter (fun r => negb (suppression_mask r))) in Hr.
    apply filter_In in Hr. destruct Hr as [Hr Hm].
    apply not_suppression_mask_iff in Hm. auto.
  - intros (r & Hr & Hm & ->). exists r. split; [reflexivity|].
    apply (Permutation_in _
             (Permutation_map snd (sort_by_Permutation _ _))).
    rewrite (map_snd_filter (fun r => negb (suppression_mask r))).
    apply filter_In. split; [exact Hr|]. apply not_suppression_mask_iff, Hm.
Qed.

(** C7, the claim as stated fails: on a table in which two rows share an
    index label, as in aggregated tables put together without a new index,
    the row of a known gender that shares the label of a suppressed row is
    removed with it. *)
Lemma suppression_not_targeted_on_shared_labels :
  ~ removes_exactly_suppressed
      [ (0%nat, Csv.mk (Some d_2022_07_01) (Some "0-9"%string)
                       (Some "Unknown / Prefer not to say"%string) 1 (Some 10)
                       (FNum (inject_Z 10)));
        (0%nat, Csv.mk (Some d_2022_07_01) (Some "All"%string)
                       (Some "Female"%string) 2 (Some 10)
                       (FNum (inject_Z 20))) ].
Proof.
  unfold removes_exactly_suppressed.
  change (suppress_unknown_undisclosed_gender_rows _) with (@nil (nat * Csv.row)).
  intros H. inversion H as [| |a l l' Ha Hrest]; subst.
  inversion Hrest as [| |b m m' Hb _]; subst.
  apply Hb. cbn [snd]. intros (Hg & _). discriminate Hg.
Qed.

(** C7, amended.  On a table whose index labels are distinct,
    [suppress_unknown_undisclosed_gender_rows] removes exactly the rows whose
    gender is "Unknown / Prefer not to say" and whose age band is neither
    "All" nor "All deceased", and keeps every other row as it is, in order.
    The table that [create_age_gen_csv] suppresses has the fresh labels of
    the merge, so in the final age/gender output the unknown-gender rows
    with age band "All" are present, and no row removed by the rule is. *)
Theorem suppression_is_targeted :
  forall (df : Frame Csv.row) (ndop_df ndop_deceased_df : DataFrame)
         (list_size_for_age_gen_df : list ListSize.row),
    NoDup (index df) ->
    removes_exactly_suppressed df
    /\ removes_exactly_suppressed
         (age_gen_before_suppression
            ndop_df ndop_deceased_df list_size_for_age_gen_df)
    /\ (forall r,
          In r (values (age_gen_before_suppression
                          ndop_df ndop_deceased_df list_size_for_age_gen_df)) ->
          Csv.GENDER r = Some "Unknown / Prefer not to say"%string ->
          Csv.AGE_BAND r = Some "All"%string ->
          In (published_row r)
             (values (create_age_gen_csv
                        ndop_df ndop_deceased_df list_size_for_age_gen_df)))
    /\ (forall o,
          In o (values (create_age_gen_csv
                          ndop_df ndop_deceased_df list_size_for_age_gen_df)) ->
          ~ (Published.GENDER o = Some "Unknown / Prefer not to say"%string
             /\ Published.AGE_BAND o <> Some "All"%string
             /\ Published.AGE_BAND o <> Some "All deceased"%string)).
Proof.
  intros df ndop_df ndop_deceased_df ls Hnd.
  assert (Htargeted : forall t : Frame Csv.row,
             NoDup (index t) -> removes_exactly_suppressed t).
  { intros t Ht. unfold removes_exactly_suppressed.
    rewrite suppress_unique_index by exact Ht.
    apply filter_kept_exactly_id. intros p. apply not_suppression_mask_iff. }
  split; [exact (Htargeted df Hnd)|]. split; [|split].
  - apply Htargeted, NoDup_index_before_suppression.
  - intros r Hr Hg Ha. apply create_age_gen_csv_In. exists r.
    split; [exact Hr|]. split; [|reflexivity].
    intros (_ & Hall & _). congruence.
  - intros o Ho. apply create_age_gen_csv_In in Ho.
    destruct Ho as (r & _ & Hr & ->). exact Hr.
Qed.

Lemma suppression_is_targeted_witness :
  NoDup (index [ (0%nat, Csv.mk (Some d_2022_07_01) (Some "0-9"%string)
                                (Some "Unknown / Prefer not to say"%string)
                                1 (Some 10) (FNum (inject_Z 10)));
                 (1%nat, Csv.mk (Some d_2022_07_01) (Some "All"%string)
                                (Some "Female"%string) 2 (Some 10)
                                (FNum (inject_Z 20))) ])
  /\ removes_exactly_suppressed
       [ (0%nat, Csv.mk (Some d_2022_07_01) (Some "0-9"%string)
                        (Some "Unknown / Prefer not to say"%string)
                        1 (Some 10) (FNum (inject_Z 10)));
         (1%nat, Csv.mk (Some d_2022_07_01) (Some "All"%string)
                        (Some "Female"%string) 2 (Some 10)
                        (FNum (inject_Z 20))) ].
Proof.
  assert (Hnd : NoDup (index
            [ (0%nat, Csv.mk (Some d_2022_07_01) (Some "0-9"%string)
                             (Some "Unknown / Prefer not to say"%string)
                             1 (Some 10) (FNum (inject_Z 10)));
              (1%nat, Csv.mk (Some d_2022_07_01) (Some "All"%string)
                             (Some "Female"%string) 2 (Some 10)
                             (FNum (inject_Z 20))) ])).
  { cbn [index map fst]. repeat constructor; cbn [In]; intuition discriminate. }
  split; [exact Hnd|].
  exact (proj1 (suppression_is_targeted _ [patient_E] [] sample_list_size Hnd)).
Defined.

(* ------------------------------------------------------------------ *)
(** *** Opt-out rates *)

(** The rate that the rate and fill steps leave in a row, by the cases of
    its list size. *)
Lemma opt_out_rate_cases (count : Z) (list_size : option Z) :
  replace_nan_0 (times_100 (true_divide count list_size))
  = match list_size with
    | None => FNum (inject_Z 0)
    | Some l =>
        if l =? 0
        then (if count =? 0 then FNum (inject_Z 0) else FInf (count <? 0))
        else FNum (inject_Z 100 * (inject_Z count / inject_Z l))
    end.
Proof.
  unfold true_divide. destruct list_size as [l|]; [|reflexivity].
  destruct (l =? 0); [destruct (count =? 0)|]; reflexivity.
Qed.

Lemma rate_after_fill (df : Frame Merged.row) :
  values (fill_list_size_and_opt_out_nan_values (calculate_opt_out_rate df))
  = map (fun m =>
           Csv.mk (Merged.ACH_DATE m) (Some (Merged.AGE_BAND m))
                  (Some (Merged.GENDER m)) (Merged.OPT_OUT m)
                  (Some (match Merged.LIST_SIZE m with
                         | Some z => z
                         | None => 0
                         end))
                  (replace_nan_0
                     (times_100 (true_divide (Merged.OPT_OUT m)
                                             (Merged.LIST_SIZE m)))))
        (values df).
Proof.
  unfold fill_list_size_and_opt_out_nan_values, calculate_opt_out_rate.
  rewrite !values_assign, map_map. reflexivity.
Qed.

(** With a positive list size the rate is 100 × count / list size; with no
    list size to join, or an empty group in an empty population, it is 0. *)
Lemma rate_when_list_size_positive_or_absent (count : Z) (list_size : option Z) :
  (forall l, list_size = Some l -> 0 < l ->
     replace_nan_0 (times_100 (true_divide count list_size))
     = FNum (inject_Z 100 * (inject_Z count / inject_Z l)))
  /\ (list_size = None ->
      replace_nan_0 (times_100 (true_divide count list_size))
      = FNum (inject_Z 0))
  /\ (list_size = Some 0 -> count = 0 ->
      replace_nan_0 (times_100 (true_divide count list_size))
      = FNum (inject_Z 0)).
Proof.
  rewrite opt_out_rate_cases. repeat split.
  - intros l -> Hl. destruct (l =? 0) eqn:E; [|reflexivity].
    apply Z.eqb_eq in E. lia.
  - intros ->. reflexivity.
  - intros -> ->. reflexivity.
Qed.

(** C6, at one opt-out in a group whose list size is 0: the rate published
    for the group is infinite, where the claim has 0. *)
Theorem zero_list_size_rate_is_infinite :
  In (Published.mk (Some "01/07/2022"%string) (Some "90+"%string)
                   (Some "Male"%string) 1 (Some 0) (FInf false))
     (values (create_age_gen_csv (living_cohort [patient_E])
                                 (deceased_cohort [patient_E])
                                 sample_list_size))
  /\ list_size_for_age_gen_csv sample_list_size
     = [ ListSizeAgg.mk (Some d_2022_07_01) (Some "All"%string)
                        (Some "All"%string) 5;
         ListSizeAgg.mk (Some d_2022_07_01) (Some "40-49"%string)
                        (Some "Male"%string) 5;
         ListSizeAgg.mk (Some d_2022_07_01) (Some "90+"%string)
                        (Some "Male"%string) 0;
         ListSizeAgg.mk (Some d_2022_07_01) (Some "40-49"%string)
                        (Some "All"%string) 5;
         ListSizeAgg.mk (Some d_2022_07_01) (Some "90+"%string)
                        (Some "All"%string) 0;
         ListSizeAgg.mk (Some d_2022_07_01) (Some "All"%string)
                        (Some "Male"%string) 5 ]
  /\ replace_nan_0 (times_100 (true_divide 1 (Some 0))) = FInf false.
Proof.
  split; [|split; reflexivity].
  vm_compute. repeat (first [left; reflexivity | right]).
Qed.

(* ------------------------------------------------------------------ *)
(** *** Worked scenarios *)

(** Two overlapping versions of one patient in July 2022, age band "40-49"
    and then "50-59": the later version is the one resolved, and the
    aggregation by date and age band counts the patient once, under "50-59". *)
Example overlapping_versions_scenario :
  let version band start :=
    mkRow (Some "4000000001"%string) (Some band) None (Some "A81001"%string)
          (Some "E01000001"%string) (Some "Female"%string) (Some start) None
          None in
  let records := [ version "40-49"%string (mkDate 2012 4 1);
                   version "50-59"%string (mkDate 2022 4 1) ] in
  process_active_ndop_records records d_2022_07_01
  = [ set_ACH_DATE (version "50-59"%string (mkDate 2022 4 1)) d_2022_07_01 ]
  /\ aggregate_ndop_by_measure
       (process_active_ndop_records records d_2022_07_01)
       [COL_ACH_DATE; COL_AGE_BAND] "All"
     = [ Agg.mk (Some d_2022_07_01) "50-59" "All" 1 ].
Proof. split; reflexivity. Qed.

Example list_size_labels :
  capitalize "FEMALE" = "Female"%string
  /\ replace_underscore "10_19" = "10-19"%string
  /\ strftime_dmY d_2022_07_01 = "01/07/2022"%string.
Proof. repeat split. Qed.

(* ================================================================== *)
(** ** Further properties of the resolver *)
(* ================================================================== *)

Lemma filter_map_comm {A B : Type} (f : A -> B) (p : B -> bool) (l : list A) :
  filter p (map f l) = map f (filter (fun a => p (f a)) l).
Proof.
  induction l as [|a l IH]; simpl; [reflexivity|].
  destruct (p (f a)); simpl; rewrite IH; reflexivity.
Qed.

Lemma filter_split_Permutation {A : Type} (p : A -> bool) (l : list A) :
  Permutation l (filter p l ++ filter (fun a => negb (p a)) l).
Proof.
  induction l as [|a l IH]; simpl; [reflexivity|].
  destruct (p a); simpl.
  - apply perm_skip, IH.
  - apply Permutation_cons_app, IH.
Qed.

Lemma deceased_is_not_living (date : Date) (x : option Date) :
  col_le x date = negb (isna x || col_gt x date).
Proof.
  destruct x as [d|]; simpl; [|reflexivity].
  rewrite date_ltb_negb_leb, negb_involutive. reflexivity.
Qed.

(** X1.  The living filter and the deceased filter split any table in two:
    together they hold every row of the table, with its multiplicity, and no
    row passes both. *)
Theorem death_filters_partition :
  forall (df : DataFrame) (date : Date),
    Permutation df (filter_living_patients df date
                    ++ filter_deceased_patients df date)
    /\ (List.length (filter_living_patients df date)
        + List.length (filter_deceased_patients df date)
        = List.length df)%nat
    /\ (forall r, ~ (In r (filter_living_patients df date)
                     /\ In r (filter_deceased_patients df date))).
Proof.
  intros df date.
  assert (Hd : filter_deceased_patients df date
               = filter (fun r => negb (isna (DATE_OF_DEATH r)
                                        || col_gt (DATE_OF_DEATH r) date)) df).
  { unfold filter_deceased_patients. apply filter_ext. intros r.
    apply deceased_is_not_living. }
  assert (Hp : Permutation df (filter_living_patients df date
                               ++ filter_deceased_patients df date)).
  { rewrite Hd. apply filter_split_Permutation. }
  split; [exact Hp|]. split.
  - rewrite <- length_app. symmetry. apply Permutation_length, Hp.
  - intros r [H1 H2]. rewrite Hd in H2.
    apply filter_In in H1, H2. destruct H1 as [_ H1], H2 as [_ H2].
    rewrite H1 in H2. discriminate.
Qed.

Lemma map_fst_with_row_num (rest : list Row) :
  forall before, map fst (with_row_num before rest) = rest.
Proof.
  induction rest as [|a tl IH]; intros before; simpl; [reflexivity|].
  rewrite IH. reflexivity.
Qed.

Lemma ranked_first_alone (before after : list Row) (r : Row) (id : string)
  (s : Date) :
  NHS_Number r = Some id -> Record_Start_Date r = Some s ->
  (forall x, In x (before ++ after) -> NHS_Number x <> Some id) ->
  ranked_first before after r.
Proof.
  intros Hid Hs Hother. exists id, s. repeat split; auto.
  - intros x Hx. destruct (same_patient id x) eqn:E; [|reflexivity].
    apply same_patient_iff in E. exfalso.
    apply (Hother x); [apply in_or_app; left; exact Hx | exact E].
  - intros x Hx. destruct (same_patient id x) eqn:E; [|reflexivity].
    apply same_patient_iff in E. exfalso.
    apply (Hother x); [apply in_or_app; right; exact Hx | exact E].
Qed.

(** A table that already holds one dated row per patient is left as it is. *)
Lemma retrieve_most_recent_record_fixed (rest : list Row) :
  forall before,
    NoDup (map NHS_Number (before ++ rest)) ->
    (forall r, In r rest ->
       exists id s, NHS_Number r = Some id /\ Record_Start_Date r = Some s) ->
    map fst (filter row_num_is_1 (with_row_num before rest)) = rest.
Proof.
  induction rest as [|a tl IH]; intros before Hnd Hall; [reflexivity|].
  cbn [with_row_num filter].
  destruct (Hall a (or_introl eq_refl)) as (id & s & Hid & Hs).
  assert (Hrank : row_num_is_1 (a, rank_first_descending before tl a) = true).
  { apply row_num_is_1_iff. apply (ranked_first_alone before tl a id s Hid Hs).
    intros x Hx Hxid. rewrite map_app in Hnd. cbn [map] in Hnd.
    apply NoDup_remove_2 in Hnd. apply Hnd. rewrite <- map_app, Hid, <- Hxid.
    apply in_map, Hx. }
  rewrite Hrank. cbn [map fst]. f_equal. apply IH.
  - rewrite <- app_assoc. exact Hnd.
  - intros r Hr. apply Hall. right. exact Hr.
Qed.

(** X2.  On a table in which every record has a start date,
    [retrieve_most_recent_record] is idempotent: applied to its own result
    it changes nothing.  The slice of a snapshot holds no record without a
    start date, so the Living and the Deceased table of a snapshot of any
    table are left as they are. *)
Theorem retrieve_most_recent_record_idempotent :
  forall (t df : DataFrame) (date : Date),
    (forall r, In r t -> Record_Start_Date r <> None) ->
    retrieve_most_recent_record (retrieve_most_recent_record t)
    = retrieve_most_recent_record t
    /\ retrieve_most_recent_record (process_active_ndop_records df date)
       = process_active_ndop_records df date
    /\ retrieve_most_recent_record (process_deceased_ndop_records df date)
       = process_deceased_ndop_records df date.
Proof.
  assert (H : forall t, retrieve_most_recent_record (retrieve_most_recent_record t)
                        = retrieve_most_recent_record t).
  { intros t. unfold retrieve_most_recent_record at 1.
    apply retrieve_most_recent_record_fixed.
    - apply with_row_num_NoDup.
    - intros r Hr. apply retrieve_most_recent_record_In in Hr.
      destruct Hr as (pre & post & _ & id & s & Hid & Hs & _). eauto. }
  intros t df date _. repeat split; apply H.
Qed.

Lemma retrieve_most_recent_record_idempotent_witness :
  (forall r, In r sample_records -> Record_Start_Date r <> None)
  /\ retrieve_most_recent_record (retrieve_most_recent_record sample_records)
     = retrieve_most_recent_record sample_records.
Proof.
  assert (H : forall r, In r sample_records -> Record_Start_Date r <> None).
  { intros r [<- | [<- | [<- | []]]]; discriminate. }
  split; [exact H|].
  exact (proj1 (retrieve_most_recent_record_idempotent
                  sample_records sample_records d_2022_07_01 H)).
Defined.

Lemma filter_idem_andb {A : Type} (p q : A -> bool) (l : list A) :
  filter (fun x => p x && q x) (filter p l) = filter (fun x => p x && q x) l.
Proof.
  rewrite filter_filter_andb. apply filter_ext. intros x.
  destruct (p x); reflexivity.
Qed.

(** The rank of a row counts rows of its own patient only. *)
Lemma rank_first_descending_own_rows (id : string) (before after : list Row)
  (r : Row) :
  NHS_Number r = Some id ->
  rank_first_descending (filter (same_patient id) before)
                        (filter (same_patient id) after) r
  = rank_first_descending before after r.
Proof.
  intros Hid. unfold rank_first_descending. rewrite Hid.
  destruct (Record_Start_Date r) as [s|]; [|reflexivity].
  rewrite !(filter_idem_andb (same_patient id)). reflexivity.
Qed.

Lemma retrieve_own_rows (id : string) (rest : list Row) :
  forall before,
    filter (same_patient id)
           (map fst (filter row_num_is_1 (with_row_num before rest)))
    = map fst (filter row_num_is_1
                 (with_row_num (filter (same_patient id) before)
                               (filter (same_patient id) rest))).
Proof.
  induction rest as [|a tl IH]; intros before; [reflexivity|].
  cbn [with_row_num filter].
  destruct (same_patient id a) eqn:Ea.
  - cbn [with_row_num filter].
    rewrite (rank_first_descending_own_rows id before tl a)
      by (apply same_patient_iff, Ea).
    destruct (row_num_is_1 (a, rank_first_descending before tl a));
      cbn [map fst filter]; rewrite ?Ea, IH, filter_app; cbn [filter];
      rewrite Ea; reflexivity.
  - destruct (row_num_is_1 (a, rank_first_descending before tl a));
      cbn [map fst filter]; rewrite ?Ea, IH, filter_app; cbn [filter];
      rewrite Ea, app_nil_r; reflexivity.
Qed.

Lemma slice_own_rows (id : string) (df : DataFrame) (date : Date) :
  filter (same_patient id) (slice_ndop_by_month df date)
  = slice_ndop_by_month (filter (same_patient id) df) date.
Proof.
  unfold slice_ndop_by_month. rewrite filter_map_comm. f_equal.
  rewrite !filter_filter_andb. apply filter_ext. intros r.
  unfold same_patient. simpl. apply andb_comm.
Qed.

Lemma filter_comm {A : Type} (p q : A -> bool) (l : list A) :
  filter p (filter q l) = filter q (filter p l).
Proof. rewrite !filter_filter_andb. apply filter_ext. intros x. apply andb_comm. Qed.

(** X3.  Patients are resolved independently: the rows of one patient in
    the Living (or Deceased) table of a snapshot are what the resolver gives
    for that patient's records alone, whatever other records the table has. *)
Theorem resolution_is_per_patient :
  forall (df : DataFrame) (date : Date) (id : string),
    filter (same_patient id) (process_active_ndop_records df date)
    = process_active_ndop_records (filter (same_patient id) df) date
    /\ filter (same_patient id) (process_deceased_ndop_records df date)
       = process_deceased_ndop_records (filter (same_patient id) df) date.
Proof.
  intros df date id.
  unfold process_active_ndop_records, process_deceased_ndop_records,
    retrieve_most_recent_record.
  rewrite !retrieve_own_rows. cbn [filter].
  unfold filter_living_patients, filter_deceased_patients.
  rewrite !(filter_comm (same_patient id)), !slice_own_rows. split; reflexivity.
Qed.

(** X4.  [flag_active_record_per_month] drops no row, and the records it
    flags with 1 are, once tagged with the date, the rows that
    [process_active_ndop_records] de-duplicates: the active slice without
    the deceased. *)
Theorem flag_active_record_per_month_agrees :
  forall (df : DataFrame) (date : Date),
    map Flagged.record (flag_active_record_per_month df date) = df
    /\ map (fun f => set_ACH_DATE (Flagged.record f) date)
           (filter (fun f => Flagged.is_active_on f =? 1)
                   (flag_active_record_per_month df date))
       = filter_living_patients (slice_ndop_by_month df date) date
    /\ (forall f, In f (flag_active_record_per_month df date) ->
                  Flagged.is_active_on f = 0 \/ Flagged.is_active_on f = 1).
Proof.
  intros df date. unfold flag_active_record_per_month. split; [|split].
  - rewrite map_map. cbn [Flagged.record]. apply map_fst_with_row_num.
  - rewrite filter_map_comm, map_map. cbn [Flagged.record Flagged.is_active_on].
    unfold filter_living_patients, slice_ndop_by_month.
    rewrite filter_map_comm, filter_filter_andb. cbn [DATE_OF_DEATH set_ACH_DATE].
    rewrite <- (map_fst_with_row_num df []) at 2.
    rewrite filter_map_comm, map_map. f_equal. apply filter_ext. intros p.
    destruct (active_on date (fst p)
              && (isna (DATE_OF_DEATH (fst p))
                  || col_gt (DATE_OF_DEATH (fst p)) date)); reflexivity.
  - intros f Hf. apply in_map_iff in Hf. destruct Hf as (p & <- & _).
    cbn [Flagged.is_active_on].
    destruct (active_on date (fst p) && _); auto.
Qed.

(** X5.  When two active versions of a patient disagree on the death
    status at the snapshot date, the patient is in the Living table and in
    the Deceased table of that date. *)
Theorem disagreeing_versions_in_both_partitions :
  forall (df : DataFrame) (date : Date) (id : string) (r1 r2 : Row),
    In r1 (slice_ndop_by_month df date) ->
    In r2 (slice_ndop_by_month df date) ->
    NHS_Number r1 = Some id -> NHS_Number r2 = Some id ->
    living_as_of date r1 -> deceased_as_of date r2 ->
    In (Some id) (map NHS_Number (process_active_ndop_records df date))
    /\ In (Some id) (map NHS_Number (process_deceased_ndop_records df date)).
Proof.
  intros df date id r1 r2 Hr1 Hr2 Hid1 Hid2 Hl Hd.
  destruct (slice_ndop_by_month_dated df date r1 Hr1) as [_ (s1 & Hs1)].
  destruct (slice_ndop_by_month_dated df date r2 Hr2) as [_ (s2 & Hs2)].
  split.
  - destruct (retrieve_most_recent_record_resolved
                (filter_living_patients (slice_ndop_by_month df date) date))
      as (_ & _ & Hkeep).
    destruct (Hkeep r1 id s1) as (r & Hr & Hid); auto.
    + apply filter_In. split; [exact Hr1 | apply living_filter_iff, Hl].
    + rewrite <- Hid. apply in_map, Hr.
  - destruct (retrieve_most_recent_record_resolved
                (filter_deceased_patients (slice_ndop_by_month df date) date))
      as (_ & _ & Hkeep).
    destruct (Hkeep r2 id s2) as (r & Hr & Hid); auto.
    + apply filter_In. split; [exact Hr2 | apply deceased_filter_iff, Hd].
    + rewrite <- Hid. apply in_map, Hr.
Qed.

Lemma disagreeing_versions_witness :
  In (Some "4000000003"%string)
     (map NHS_Number
          (process_active_ndop_records [patient_C_v1; patient_C_v2]
                                       d_2022_05_01))
  /\ In (Some "4000000003"%string)
        (map NHS_Number
             (process_deceased_ndop_records [patient_C_v1; patient_C_v2]
                                            d_2022_05_01)).
Proof.
  apply (disagreeing_versions_in_both_partitions
           [patient_C_v1; patient_C_v2] d_2022_05_01 "4000000003"%string
           (set_ACH_DATE patient_C_v1 d_2022_05_01)
           (set_ACH_DATE patient_C_v2 d_2022_05_01)).
  - simpl. left. reflexivity.
  - simpl. right. left. reflexivity.
  - reflexivity.
  - reflexivity.
  - left. reflexivity.
  - exists (mkDate 2022 3 1). split; reflexivity.
Defined.

(* ================================================================== *)
(** ** Further properties of the report dates *)
(* ================================================================== *)

Lemma day_of_sub_months (d : Date) (n : Z) :
  valid_date d ->
  (day (sub_months d n) =? 1) = (day d =? 1).
Proof.
  intros [_ Hd]. unfold sub_months. cbn [day].
  pose proof (days_in_month_bounds ((month_index d - n) / 12)
                                   ((month_index d - n) mod 12 + 1)).
  lia.
Qed.

(** X6.  The number of reporting months: for a period of [n] months there
    are [n] snapshot dates, and one more when the end date is itself the
    first of a month; a negative period gives none. *)
Theorem reporting_months_list_length :
  forall (end_d pub : Date) (n : Z),
    valid_date end_d ->
    Z.of_nat (List.length (get_reporting_months_list
                             (new_reportDates end_d pub n)))
    = Z.max 0 (n + (if day end_d =? 1 then 1 else 0)).
Proof.
  intros end_d pub n Hv.
  pose proof (sub_months_valid end_d n Hv) as Hvs.
  unfold get_reporting_months_list, new_reportDates,
    get_report_period_start_date. cbn [start_date end_date].
  rewrite (date_range_MS_closed (sub_months end_d n) end_d);
    [|apply Hvs|apply Hv].
  cbv zeta. rewrite length_map, length_Zseq, (day_of_sub_months end_d n Hv),
    month_index_sub_months.
  destruct (day end_d =? 1); lia.
Qed.

Lemma reporting_months_list_length_witness :
  valid_date (mkDate 2022 7 15)
  /\ Z.of_nat (List.length (get_reporting_months_list
                              (new_reportDates (mkDate 2022 7 15)
                                               (mkDate 2022 8 4) 11)))
     = Z.max 0 (11 + (if day (mkDate 2022 7 15) =? 1 then 1 else 0)).
Proof.
  assert (H : valid_date (mkDate 2022 7 15)).
  { repeat split; vm_compute; intro; discriminate. }
  split; [exact H|].
  exact (reporting_months_list_length (mkDate 2022 7 15) (mkDate 2022 8 4) 11 H).
Defined.

(** X7.  The report period start date is a date of the calendar, exactly
    [n] calendar months before the end date, on the same day of the month or
    the last day of its month if that comes first, and never after the end
    date when [n] is not negative. *)
Theorem report_period_start_date_before_end :
  forall (end_d : Date) (n : Z),
    valid_date end_d ->
    let start := get_report_period_start_date end_d n in
    valid_date start
    /\ month_index start = month_index end_d - n
    /\ day start = Z.min (day end_d) (days_in_month (year start) (month start))
    /\ (0 <= n -> date_le start end_d).
Proof.
  intros end_d n Hv start. unfold start, get_report_period_start_date.
  pose proof (sub_months_valid end_d n Hv) as Hvs.
  split; [exact Hvs|]. split; [apply month_index_sub_months|].
  split; [reflexivity|].
  intros Hn. unfold date_le.
  rewrite date_leb_month_index; [|apply Hvs|apply Hv].
  rewrite month_index_sub_months.
  assert (day (sub_months end_d n) <= day end_d).
  { unfold sub_months. cbn [day]. lia. }
  lia.
Qed.

Lemma report_period_start_date_witness :
  valid_date (mkDate 2022 3 31)
  /\ get_report_period_start_date (mkDate 2022 3 31) 1 = mkDate 2022 2 28
  /\ valid_date (get_report_period_start_date (mkDate 2022 3 31) 1).
Proof.
  assert (H : valid_date (mkDate 2022 3 31)).
  { repeat split; vm_compute; intro; discriminate. }
  split; [exact H|]. split; [reflexivity|].
  exact (proj1 (report_period_start_date_before_end (mkDate 2022 3 31) 1 H)).
Defined.

(** X8.  Moving a date back by [n] months and forward again returns the
    date, provided its day exists in every month (the 28th or earlier). *)
Theorem sub_months_round_trip :
  forall (d : Date) (n : Z),
    valid_date d -> day d <= 28 ->
    sub_months (sub_months d n) (- n) = d.
Proof.
  intros [y m dd] n [Hm Hd] H28. cbn [year month day] in *.
  unfold sub_months at 1. rewrite month_index_sub_months.
  unfold sub_months. cbn [year month day].
  replace (month_index {| year := y; month := m; day := dd |} - n - - n)
    with (12 * y + (m - 1)) by (unfold month_index; cbn [year month]; lia).
  pose proof (days_in_month_bounds
                ((month_index {| year := y; month := m; day := dd |} - n) / 12)
                ((month_index {| year := y; month := m; day := dd |} - n) mod 12
                 + 1)).
  pose proof (days_in_month_bounds ((12 * y + (m - 1)) / 12)
                                   ((12 * y + (m - 1)) mod 12 + 1)).
  f_equal; Z.div_mod_to_equations; lia.
Qed.

Lemma sub_months_round_trip_witness :
  valid_date (mkDate 2022 7 1)
  /\ day (mkDate 2022 7 1) <= 28
  /\ sub_months (sub_months (mkDate 2022 7 1) 11) (- 11) = mkDate 2022 7 1.
Proof.
  assert (H : valid_date (mkDate 2022 7 1)).
  { repeat split; vm_compute; intro; discriminate. }
  assert (H28 : day (mkDate 2022 7 1) <= 28).
  { vm_compute. intro; discriminate. }
  split; [exact H|]. split; [exact H28|].
  exact (sub_months_round_trip (mkDate 2022 7 1) 11 H H28).
Defined.

(** A day that the earlier month does not have is clipped and not restored. *)
Example sub_months_clips_the_day :
  sub_months (sub_months (mkDate 2022 3 31) 1) (- 1) = mkDate 2022 3 28.
Proof. reflexivity. Qed.

Lemma publishing_day_suffix_ordinal (date : Z) :
  1 <= date <= 31 -> publishing_day_suffix date = Some (ordinal_suffix date).
Proof.
  intros H.
  assert (Hk : exists k, (k < 31)%nat /\ date = 1 + Z.of_nat k).
  { exists (Z.to_nat (date - 1)). lia. }
  destruct Hk as (k & Hk & ->).
  do 31 (destruct k as [|k]; [reflexivity|]). lia.
Qed.

(** X9.  For every publishing date of the calendar, [format_publishing_date]
    raises no IndexError and writes the day with its English ordinal suffix
    ("st" for 1, 21 and 31, "nd" for 2 and 22, "rd" for 3 and 23, "th"
    otherwise), followed by the month name and the year. *)
Theorem format_publishing_date_ordinal :
  forall (rd : reportDates),
    valid_date (publishing_date rd) ->
    format_publishing_date rd
    = Some (strftime_d (publishing_date rd)
            ++ ordinal_suffix (day (publishing_date rd)) ++ " "
            ++ strftime_B (publishing_date rd) ++ " "
            ++ strftime_Y (publishing_date rd))%string.
Proof.
  intros rd [_ Hd]. unfold format_publishing_date. cbv zeta.
  rewrite publishing_day_suffix_ordinal; [reflexivity|].
  pose proof (days_in_month_bounds (year (publishing_date rd))
                                   (month (publishing_date rd))).
  lia.
Qed.

Lemma format_publishing_date_witness :
  valid_date (publishing_date sample_report_dates)
  /\ format_publishing_date sample_report_dates
     = Some "04th August 2022"%string.
Proof.
  assert (H : valid_date (publishing_date sample_report_dates)).
  { repeat split; vm_compute; intro; discriminate. }
  split; [exact H|].
  exact (format_publishing_date_ordinal sample_report_dates H).
Defined.

(** Outside the days of a month the suffix lookup can fail: a day of 0 would
    index the list at -1, a day of 34 at 3. *)
Example publishing_day_suffix_out_of_range :
  publishing_day_suffix 0 = Some "rd"%string
  /\ publishing_day_suffix 34 = None.
Proof. split; reflexivity. Qed.

(* ================================================================== *)
(** ** Further properties of the aggregation and of the age/gender table *)
(* ================================================================== *)

Lemma counted_for_filled (measures : list Column) (d : Date) (r : Row) :
  incl measures [COL_ACH_DATE; COL_AGE_BAND; COL_GENDER] ->
  AGE_BAND r <> None -> GENDER r <> None ->
  counted_for measures d r = on_date d r && notna (NHS_Number r).
Proof.
  intros Hincl Ha Hg. unfold counted_for, on_date.
  assert (Hkey : ACH_DATE r <> None -> exists k, group_key measures r = Some k).
  { intros Hd. induction measures as [|m ms IH]; [eexists; reflexivity|].
    destruct IH as (k & Hk).
    { intros c Hc. apply Hincl. right. exact Hc. }
    cbn [group_key]. rewrite Hk.
    assert (Hm : In m [COL_ACH_DATE; COL_AGE_BAND; COL_GENDER])
      by (apply Hincl; left; reflexivity).
    unfold column_value, Row_columns.
    destruct Hm as [<- | [<- | [<- | []]]];
      [destruct (ACH_DATE r) | destruct (AGE_BAND r) | destruct (GENDER r)];
      try congruence; eexists; reflexivity. }
  destruct (ACH_DATE r) as [d'|] eqn:Ed.
  - destruct Hkey as (k & ->); [discriminate | reflexivity].
  - destruct (group_key measures r); reflexivity.
Qed.

(** X10.  For a table with no null age band and no null gender, every
    breakdown that includes the date gives, for each date, counts that sum
    to the number of the table's rows of that date that have an identifier;
    the four living breakdowns and the two deceased ones therefore agree. *)
Theorem breakdowns_sum_to_rows_of_date :
  forall (df : DataFrame) (measures : list Column) (fill_value : string)
         (d : Date),
    (forall r, In r df -> AGE_BAND r <> None /\ GENDER r <> None) ->
    In COL_ACH_DATE measures ->
    count_for_date (aggregate_ndop_by_measure df measures fill_value) d
    = Z.of_nat (List.length
                  (filter (fun r => on_date d r && notna (NHS_Number r)) df)).
Proof.
  intros df measures fill_value d Hfilled Hin.
  rewrite count_for_date_aggregate by exact Hin.
  f_equal. f_equal. apply filter_ext_in. intros r Hr.
  destruct (Hfilled r Hr) as [Ha Hg].
  apply counted_for_filled; [|exact Ha|exact Hg].
  intros c _. destruct c; simpl; auto.
Qed.

Lemma breakdowns_sum_witness :
  (forall r, In r (living_cohort sample_records) ->
             AGE_BAND r <> None /\ GENDER r <> None)
  /\ In COL_ACH_DATE [COL_ACH_DATE; COL_AGE_BAND; COL_GENDER]
  /\ count_for_date
       (aggregate_ndop_by_measure (living_cohort sample_records)
          [COL_ACH_DATE; COL_AGE_BAND; COL_GENDER] "All") d_2022_05_01
     = 2.
Proof.
  assert (H : forall r, In r (living_cohort sample_records) ->
                        AGE_BAND r <> None /\ GENDER r <> None).
  { intros r Hr. vm_compute in Hr.
    repeat (destruct Hr as [<- | Hr]; [split; discriminate|]).
    destruct Hr. }
  assert (Hin : In COL_ACH_DATE [COL_ACH_DATE; COL_AGE_BAND; COL_GENDER]).
  { left. reflexivity. }
  split; [exact H|]. split; [exact Hin|].
  exact (breakdowns_sum_to_rows_of_date (living_cohort sample_records)
           [COL_ACH_DATE; COL_AGE_BAND; COL_GENDER] "All" d_2022_05_01 H Hin).
Defined.

Lemma In_concatenate_ndop_monthly_records
  (f : DataFrame -> Date -> DataFrame) (df : DataFrame) (rd : reportDates)
  (r : Row) :
  In r (concatenate_ndop_monthly_records f df rd)
  <-> exists date, In date (get_reporting_months_list rd) /\ In r (f df date).
Proof.
  unfold concatenate_ndop_monthly_records. rewrite in_concat. split.
  - intros (l & Hl & Hr). apply in_map_iff in Hl.
    destruct Hl as (date & <- & Hd). eauto.
  - intros (date & Hd & Hr). exists (f df date). split; [|exact Hr].
    apply in_map_iff. eauto.
Qed.

Lemma clean_nhs_numbers_filled (df : DataFrame) (r : Row) :
  In r (clean_nhs_numbers df) ->
  GENDER r <> None /\ GP_PRACTICE r <> None /\ LSOA_CODE r <> None
  /\ NHS_Number r <> None.
Proof.
  intros Hr. pose proof (clean_nhs_numbers_In df r Hr) as Hvalid.
  unfold clean_nhs_numbers, fill_empty_gender_column_values,
    fill_empty_categorical_column_values in Hr.
  rewrite map_map in Hr. apply in_map_iff in Hr.
  destruct Hr as (r0 & <- & _). cbn in *.
  repeat split.
  - destruct (GENDER r0); discriminate.
  - destruct (GP_PRACTICE r0); discriminate.
  - destruct (LSOA_CODE r0); discriminate.
  - intros Hn. apply Hvalid. left. exact Hn.
Qed.

(** The rows of a cohort are input rows, tagged. *)
Lemma cohort_rows_from_input (df : DataFrame) (rd : reportDates) (r : Row) :
  In r (concatenate_ndop_monthly_records process_active_ndop_records df rd)
  \/ In r (concatenate_ndop_monthly_records process_deceased_ndop_records df rd) ->
  exists r0 date, In r0 df /\ r = set_ACH_DATE r0 date.
Proof.
  intros [H | H]; apply In_concatenate_ndop_monthly_records in H;
    destruct H as (date & _ & H);
    [apply process_active_ndop_records_In in H
    |apply process_deceased_ndop_records_In in H];
    destruct H as [H _]; apply slice_ndop_by_month_In in H;
    destruct H as (r0 & Hr0 & _ & ->); eauto.
Qed.

(** X11.  In the pipeline the gender breakdown always reconciles: for the
    living and the deceased cohort made from cleaned records, over a report
    of at least one month, the counts by date and gender sum, for every
    date, to the count by date. *)
Theorem gender_breakdown_reconciles_after_cleaning :
  forall (df : DataFrame) (rd : reportDates) (d : Date),
    get_reporting_months_list rd <> [] ->
    let living :=
      concatenate_ndop_monthly_records process_active_ndop_records
                                       (clean_nhs_numbers df) rd in
    let deceased :=
      concatenate_ndop_monthly_records process_deceased_ndop_records
                                       (clean_nhs_numbers df) rd in
    count_for_date
      (aggregate_ndop_by_measure living [COL_ACH_DATE; COL_GENDER] "All") d
    = count_for_date (aggregate_ndop_by_measure living [COL_ACH_DATE] "All") d
    /\ count_for_date
         (aggregate_ndop_by_measure deceased [COL_ACH_DATE; COL_GENDER]
                                    "All deceased") d
       = count_for_date
           (aggregate_ndop_by_measure deceased [COL_ACH_DATE] "All deceased") d.
Proof.
  intros df rd d _ living deceased.
  rewrite !count_for_date_aggregate by (simpl; auto).
  split; f_equal; f_equal; apply filter_ext_in; intros r Hr.
  - destruct (cohort_rows_from_input (clean_nhs_numbers df) rd r
                (or_introl Hr)) as (r0 & date & Hr0 & ->).
    apply clean_nhs_numbers_filled in Hr0. destruct Hr0 as (Hg & _).
    unfold counted_for. cbn [group_key column_value Row_columns].
    cbn [set_ACH_DATE ACH_DATE GENDER NHS_Number option_map].
    destruct (GENDER r0); [reflexivity | congruence].
  - destruct (cohort_rows_from_input (clean_nhs_numbers df) rd r
                (or_intror Hr)) as (r0 & date & Hr0 & ->).
    apply clean_nhs_numbers_filled in Hr0. destruct Hr0 as (Hg & _).
    unfold counted_for. cbn [group_key column_value Row_columns].
    cbn [set_ACH_DATE ACH_DATE GENDER NHS_Number option_map].
    destruct (GENDER r0); [reflexivity | congruence].
Qed.

Lemma gender_breakdown_witness :
  get_reporting_months_list sample_report_dates <> []
  /\ count_for_date
       (aggregate_ndop_by_measure
          (concatenate_ndop_monthly_records process_active_ndop_records
             (clean_nhs_numbers sample_records) sample_report_dates)
          [COL_ACH_DATE; COL_GENDER] "All") d_2022_07_01
     = count_for_date
         (aggregate_ndop_by_measure
            (concatenate_ndop_monthly_records process_active_ndop_records
               (clean_nhs_numbers sample_records) sample_report_dates)
            [COL_ACH_DATE] "All") d_2022_07_01.
Proof.
  assert (H : get_reporting_months_list sample_report_dates <> [])
    by (vm_compute; discriminate).
  split; [exact H|].
  exact (proj1 (gender_breakdown_reconciles_after_cleaning
                  sample_records sample_report_dates d_2022_07_01 H)).
Defined.

Lemma groupby_In {R : Type} {cols : Columns R} (measures : list Column)
  (df : list R) (g : list cell * list R) :
  In g (groupby measures df) ->
  snd g = filter (in_group measures (fst g)) df
  /\ exists r, In r df /\ group_key measures r = Some (fst g).
Proof.
  unfold groupby. intros H. apply in_map_iff in H.
  destruct H as (k & <- & Hk). cbn [fst snd]. split; [reflexivity|].
  apply (Permutation_in _ (Permutation_sym (sort_by_Permutation _ _))) in Hk.
  clear -Hk. induction df as [|a df IH].
  - destruct Hk.
  - cbn [keys_of] in Hk. destruct (group_key measures a) as [ka|] eqn:E.
    + cbn [unique] in Hk. destruct Hk as [<- | Hk].
      * exists a. split; [left; reflexivity | exact E].
      * apply filter_In in Hk. destruct Hk as [Hk _].
        destruct (IH Hk) as (r & Hr & Hrk). exists r. split; [right|]; auto.
    + destruct (IH Hk) as (r & Hr & Hrk). exists r. split; [right|]; auto.
Qed.

(** X12.  A category without opt-outs has no row: in every breakdown of a
    table whose rows all have an identifier, as the Living and Deceased
    cohorts do, each row counts at least one opt-out. *)
Theorem aggregated_counts_are_positive :
  forall (df : DataFrame) (measures : list Column) (fill_value : string)
         (a : Agg.row),
    (forall r, In r df -> NHS_Number r <> None) ->
    In a (aggregate_ndop_by_measure df measures fill_value) ->
    1 <= Agg.OPT_OUT a.
Proof.
  intros df measures fill_value a Hid Ha.
  unfold aggregate_ndop_by_measure, add_age_or_gender_columns in Ha.
  rewrite map_map in Ha. apply in_map_iff in Ha.
  destruct Ha as (g & <- & Hg). cbn [Agg.OPT_OUT fst snd].
  destruct (groupby_In measures df g Hg) as (Hsnd & r & Hr & Hk).
  rewrite Hsnd. unfold count_NHS_Number.
  assert (Hin : In r (filter (fun r => notna (NHS_Number r))
                             (filter (in_group measures (fst g)) df))).
  { apply filter_In. split.
    - apply filter_In. split; [exact Hr | apply in_group_iff, Hk].
    - specialize (Hid r Hr). unfold notna, isna.
      destruct (NHS_Number r); [reflexivity | congruence]. }
  destruct (filter _ (filter _ df)); [destruct Hin | cbn [List.length]; lia].
Qed.

Lemma aggregated_counts_witness :
  (forall r, In r (living_cohort sample_records) -> NHS_Number r <> None)
  /\ In (Agg.mk (Some d_2022_05_01) "All" "Female" 1)
        (aggregate_ndop_by_measure (living_cohort sample_records)
                                   [COL_ACH_DATE; COL_GENDER] "All")
  /\ 1 <= Agg.OPT_OUT (Agg.mk (Some d_2022_05_01) "All" "Female" 1).
Proof.
  assert (H : forall r, In r (living_cohort sample_records) ->
                        NHS_Number r <> None).
  { intros r Hr. vm_compute in Hr.
    repeat (destruct Hr as [<- | Hr]; [discriminate|]). destruct Hr. }
  assert (Hin : In (Agg.mk (Some d_2022_05_01) "All" "Female" 1)
                   (aggregate_ndop_by_measure (living_cohort sample_records)
                                              [COL_ACH_DATE; COL_GENDER] "All")).
  { vm_compute. left. reflexivity. }
  split; [exact H|]. split; [exact Hin|].
  exact (aggregated_counts_are_positive (living_cohort sample_records)
           [COL_ACH_DATE; COL_GENDER] "All" _ H Hin).
Defined.

(* ------------------------------------------------------------------ *)
(** *** The left join *)

Lemma flat_map_head {A B : Type} (f : A -> list B) (a : A) (l : list A) :
  flat_map f (a :: l) = f a ++ flat_map f l.
Proof. reflexivity. Qed.

Lemma merge_left_values (left : list Agg.row) (right : list ListSizeAgg.row) :
  values (merge_left left right)
  = flat_map
      (fun a =>
         match filter (merge_key_eqb a) right with
         | [] => [Merged.mk (Agg.ACH_DATE a) (Agg.AGE_BAND a) (Agg.GENDER a)
                            (Agg.OPT_OUT a) None]
         | matches =>
             map (fun l => Merged.mk (Agg.ACH_DATE a) (Agg.AGE_BAND a)
                                     (Agg.GENDER a) (Agg.OPT_OUT a)
                                     (Some (ListSizeAgg.LIST_SIZE l)))
                 matches
         end)
      left.
Proof. unfold merge_left. apply values_reset_index. Qed.

Lemma numerator_row_of_merged (a : Agg.row) (ls : option Z) :
  numerator_row (Merged.mk (Agg.ACH_DATE a) (Agg.AGE_BAND a) (Agg.GENDER a)
                           (Agg.OPT_OUT a) ls) = a.
Proof. destruct a. reflexivity. Qed.

(** X13.  The left join drops no numerator row and invents none: the rows
    of the merged table, without their list size, are the rows of the
    aggregated table, each at least once; a row has no list size exactly when
    no list size row has its date, age band and gender. *)
Theorem merge_left_keeps_numerators :
  forall (left : list Agg.row) (right : list ListSizeAgg.row),
    (forall a, In a (map numerator_row (values (merge_left left right)))
               <-> In a left)
    /\ (List.length left <= List.length (values (merge_left left right)))%nat
    /\ (forall m, In m (values (merge_left left right)) ->
          (Merged.LIST_SIZE m = None
           <-> filter (merge_key_eqb (numerator_row m)) right = [])).
Proof.
  intros left right. rewrite merge_left_values. split; [|split].
  - intros a. rewrite in_map_iff. split.
    + intros (m & <- & Hm). apply in_flat_map in Hm.
      destruct Hm as (a' & Ha' & Hm).
      destruct (filter (merge_key_eqb a') right) as [|l ls].
      * destruct Hm as [<- | []]. rewrite numerator_row_of_merged. exact Ha'.
      * apply in_map_iff in Hm. destruct Hm as (l' & <- & _).
        rewrite numerator_row_of_merged. exact Ha'.
    + intros Ha.
      destruct (filter (merge_key_eqb a) right) as [|l ls] eqn:E.
      * exists (Merged.mk (Agg.ACH_DATE a) (Agg.AGE_BAND a) (Agg.GENDER a)
                          (Agg.OPT_OUT a) None).
        split; [apply numerator_row_of_merged|].
        apply in_flat_map. exists a. split; [exact Ha|]. rewrite E.
        left. reflexivity.
      * exists (Merged.mk (Agg.ACH_DATE a) (Agg.AGE_BAND a) (Agg.GENDER a)
                          (Agg.OPT_OUT a) (Some (ListSizeAgg.LIST_SIZE l))).
        split; [apply numerator_row_of_merged|].
        apply in_flat_map. exists a. split; [exact Ha|]. rewrite E.
        left. reflexivity.
  - induction left as [|a left IH]; [apply Nat.le_refl|].
    rewrite flat_map_head, length_app. cbn [List.length].
    set (n := List.length (flat_map _ left)) in *.
    destruct (filter (merge_key_eqb a) right) as [|l ls];
      cbn [List.length map]; lia.
  - intros m Hm. apply in_flat_map in Hm. destruct Hm as (a & _ & Hm).
    destruct (filter (merge_key_eqb a) right) as [|l ls] eqn:E.
    + destruct Hm as [<- | []]. rewrite numerator_row_of_merged, E.
      cbn [Merged.LIST_SIZE]. tauto.
    + apply in_map_iff in Hm. destruct Hm as (l' & <- & _).
      rewrite numerator_row_of_merged, E. cbn [Merged.LIST_SIZE].
      split; discriminate.
Qed.

(** X14.  When no numerator row finds more than one list size row, the join
    keeps the aggregated table row for row, so the opt-out counts are neither
    lost nor counted twice. *)
Theorem merge_left_one_to_one :
  forall (left : list Agg.row) (right : list ListSizeAgg.row),
    (forall a, In a left ->
       (List.length (filter (merge_key_eqb a) right) <= 1)%nat) ->
    map numerator_row (values (merge_left left right)) = left
    /\ Zsum (map Merged.OPT_OUT (values (merge_left left right)))
       = Zsum (map Agg.OPT_OUT left).
Proof.
  intros left right Hone.
  assert (H : map numerator_row (values (merge_left left right)) = left).
  { rewrite merge_left_values. induction left as [|a left IH]; [reflexivity|].
    cbn [flat_map]. rewrite map_app, IH
      by (intros x Hx; apply Hone; right; exact Hx).
    specialize (Hone a (or_introl eq_refl)).
    destruct (filter (merge_key_eqb a) right) as [|l [|l' ls]];
      cbn [List.length] in Hone; [| |lia];
      cbn [map app]; rewrite numerator_row_of_merged; reflexivity. }
  split; [exact H|].
  rewrite <- H at 2. rewrite map_map. reflexivity.
Qed.

Lemma merge_left_one_to_one_witness :
  (forall a, In a (aggregate_ndop_by_measure (living_cohort [patient_E])
                                             [COL_ACH_DATE; COL_GENDER] "All") ->
     (List.length (filter (merge_key_eqb a)
                          (list_size_for_age_gen_csv sample_list_size)) <= 1)%nat)
  /\ map numerator_row
         (values (merge_left
                    (aggregate_ndop_by_measure (living_cohort [patient_E])
                                               [COL_ACH_DATE; COL_GENDER] "All")
                    (list_size_for_age_gen_csv sample_list_size)))
     = aggregate_ndop_by_measure (living_cohort [patient_E])
                                 [COL_ACH_DATE; COL_GENDER] "All".
Proof.
  assert (H : forall a,
             In a (aggregate_ndop_by_measure (living_cohort [patient_E])
                                             [COL_ACH_DATE; COL_GENDER] "All") ->
             (List.length (filter (merge_key_eqb a)
                             (list_size_for_age_gen_csv sample_list_size))
              <= 1)%nat).
  { intros a Ha. vm_compute in Ha.
    repeat (destruct Ha as [<- | Ha]; [vm_compute; lia|]). destruct Ha. }
  split; [exact H|].
  exact (proj1 (merge_left_one_to_one _ _ H)).
Defined.

(** The same numerator row joined to two list size rows is counted twice. *)
Example merge_left_duplicates :
  let a := Agg.mk (Some d_2022_07_01) "All" "Male" 3 in
  let l := ListSizeAgg.mk (Some d_2022_07_01) (Some "All"%string)
                          (Some "Male"%string) 10 in
  map Merged.OPT_OUT (values (merge_left [a] [l; l])) = [3; 3].
Proof. reflexivity. Qed.

(* ------------------------------------------------------------------ *)
(** *** What reaches the age/gender table *)

Lemma aggregate_date_present (df : DataFrame) (measures : list Column)
  (fill_value : string) (a : Agg.row) :
  In COL_ACH_DATE measures ->
  In a (aggregate_ndop_by_measure df measures fill_value) ->
  Agg.ACH_DATE a <> None.
Proof.
  intros Hin Ha.
  unfold aggregate_ndop_by_measure, add_age_or_gender_columns in Ha.
  rewrite map_map in Ha. apply in_map_iff in Ha.
  destruct Ha as (g & <- & Hg). cbn [Agg.ACH_DATE fst snd].
  destruct (groupby_In measures df g Hg) as (_ & r & _ & Hk).
  rewrite (key_lookup_group_key measures r COL_ACH_DATE (fst g) Hk Hin).
  destruct (group_key_column_present measures r COL_ACH_DATE (fst g) Hk Hin)
    as (v & Hv).
  rewrite cell_date_ACH_DATE. unfold column_value, Row_columns in Hv.
  destruct (ACH_DATE r); discriminate.
Qed.

Lemma replace_nan_0_not_nan (v : fvalue) : replace_nan_0 v <> FNaN.
Proof. destruct v; discriminate. Qed.

Lemma values_age_gen_before_suppression (ndop_df ndop_deceased_df : DataFrame)
  (list_size_df : list ListSize.row) (r : Csv.row) :
  In r (values (age_gen_before_suppression ndop_df ndop_deceased_df
                                           list_size_df)) ->
  exists m measures df fill_value,
    In (numerator_row m)
       (aggregate_ndop_by_measure df measures fill_value)
    /\ In COL_ACH_DATE measures
    /\ Csv.ACH_DATE r = Merged.ACH_DATE m
    /\ Csv.OPT_OUT r = Merged.OPT_OUT m
    /\ (exists z, Csv.LIST_SIZE r = Some z)
    /\ Csv.OPT_OUT_RATE r
       = replace_nan_0 (times_100 (true_divide (Merged.OPT_OUT m)
                                               (Merged.LIST_SIZE m))).
Proof.
  unfold age_gen_before_suppression, convert_age_column_to_categorical,
    convert_gender_column_to_categorical,
    fill_list_size_and_opt_out_nan_values, calculate_opt_out_rate.
  cbv zeta. rewrite !values_assign, !map_map, merge_left_values.
  intros Hr. apply in_map_iff in Hr. destruct Hr as (m & <- & Hm).
  apply in_flat_map in Hm. destruct Hm as (a & Ha & Hm).
  assert (Hnum : numerator_row m = a).
  { destruct (filter (merge_key_eqb a) _) as [|l ls].
    - destruct Hm as [<- | []]. apply numerator_row_of_merged.
    - apply in_map_iff in Hm. destruct Hm as (l' & <- & _).
      apply numerator_row_of_merged. }
  apply in_concat in Ha. destruct Ha as (table & Htable & Ha).
  apply in_app_or in Htable.
  unfold create_df_list_for_age_gen_csv in Htable.
  assert (Hsrc : exists measures df fill_value,
             table = aggregate_ndop_by_measure df measures fill_value
             /\ In COL_ACH_DATE measures).
  { destruct Htable as [Ht | Ht]; apply in_map_iff in Ht;
      destruct Ht as (ms & <- & Hms).
    - exists ms, ndop_df, "All"%string. split; [reflexivity|].
      unfold NDOP_MEASURES in Hms. simpl in Hms.
      destruct Hms as [<- | [<- | [<- | [<- | []]]]]; left; reflexivity.
    - exists ms, ndop_deceased_df, "All deceased"%string.
      split; [reflexivity|].
      unfold NDOP_DECEASED_MEASURES in Hms. simpl in Hms.
      destruct Hms as [<- | [<- | []]]; left; reflexivity. }
  destruct Hsrc as (measures & df & fill_value & -> & Hin).
  exists m, measures, df, fill_value. rewrite Hnum.
  cbn [Csv.ACH_DATE Csv.OPT_OUT Csv.LIST_SIZE Csv.OPT_OUT_RATE].
  repeat split; auto. eexists. reflexivity.
Qed.

(** X15.  Every row of the age/gender table has a date, a list size (0
    when the join found none) and a rate that is not NaN. *)
Theorem age_gen_csv_has_no_missing_value :
  forall (ndop_df ndop_deceased_df : DataFrame)
         (list_size_df : list ListSize.row),
    Forall (fun o =>
              Published.ACH_DATE o <> None
              /\ (exists z, Published.LIST_SIZE o = Some z)
              /\ Published.OPT_OUT_RATE o <> FNaN)
           (values (create_age_gen_csv ndop_df ndop_deceased_df list_size_df)).
Proof.
  intros ndop_df ndop_deceased_df list_size_df. apply Forall_forall.
  intros o Ho. apply create_age_gen_csv_In in Ho.
  destruct Ho as (r & Hr & _ & ->).
  apply values_age_gen_before_suppression in Hr.
  destruct Hr as (m & measures & df & fill_value & Hnum & Hin & Hd & _ & Hl & Hrate).
  unfold published_row.
  cbn [Published.ACH_DATE Published.LIST_SIZE Published.OPT_OUT_RATE].
  split; [|split].
  - rewrite Hd.
    pose proof (aggregate_date_present df measures fill_value _ Hin Hnum) as H.
    cbn [numerator_row Agg.ACH_DATE] in H.
    destruct (Merged.ACH_DATE m); [discriminate | congruence].
  - exact Hl.
  - rewrite Hrate. apply replace_nan_0_not_nan.
Qed.

(* ------------------------------------------------------------------ *)
(** *** The order of the age/gender table *)

Lemma insert_sorted_Sorted {A : Type} (leb : A -> A -> bool) (x : A)
  (l : list A) :
  (forall a b, leb a b = false -> leb b a = true) ->
  Sorted (fun a b => leb a b = true) l ->
  Sorted (fun a b => leb a b = true) (insert_sorted leb x l).
Proof.
  intros Htotal. induction 1 as [|y l Hs IH Hhd]; cbn [insert_sorted].
  - repeat constructor.
  - destruct (leb x y) eqn:E.
    + constructor; [constructor; assumption | constructor; exact E].
    + constructor; [exact IH|].
      destruct l as [|z l]; cbn [insert_sorted].
      * constructor. apply Htotal, E.
      * destruct (leb x z); constructor;
          [apply Htotal, E | inversion Hhd; assumption].
Qed.

Lemma sort_by_Sorted {A : Type} (leb : A -> A -> bool) (l : list A) :
  (forall a b, leb a b = false -> leb b a = true) ->
  Sorted (fun a b => leb a b = true) (sort_by leb l).
Proof.
  intros Htotal. induction l as [|x l IH]; cbn [sort_by]; [constructor|].
  apply insert_sorted_Sorted; assumption.
Qed.

Lemma nan_last_cmp_flip {A : Type} (eqb leb : A -> A -> bool) (a b : option A) :
  (forall x y, eqb x y = eqb y x) ->
  (forall x y, leb x y = false -> leb y x = true) ->
  (nan_last_cmp eqb leb a b = Gt -> nan_last_cmp eqb leb b a = Lt)
  /\ (nan_last_cmp eqb leb a b = Eq -> nan_last_cmp eqb leb b a = Eq).
Proof.
  intros Hsym Htot. destruct a as [x|], b as [y|]; cbn [nan_last_cmp];
    try (split; congruence).
  rewrite (Hsym y x). destruct (eqb x y); [split; congruence|].
  destruct (leb x y) eqn:E; [split; discriminate|].
  rewrite (Htot x y E). split; congruence.
Qed.

Lemma sort_values_leb_total (a b : Csv.row) :
  sort_values_leb a b = false -> sort_values_leb b a = true.
Proof.
  unfold sort_values_leb.
  pose proof (nan_last_cmp_flip date_eqb (fun x y => date_leb y x)
                (Csv.ACH_DATE a) (Csv.ACH_DATE b) date_eqb_sym) as [Hd1 Hd2].
  { intros x y H. pose proof (date_le_or_lt y x) as [H'|H'].
    - unfold date_le in H'. congruence.
    - apply date_lt_le in H'. exact H'. }
  pose proof (nan_last_cmp_flip Nat.eqb Nat.leb
                (code_of GENDER_CATEGORIES (Csv.GENDER a))
                (code_of GENDER_CATEGORIES (Csv.GENDER b)) Nat.eqb_sym)
    as [Hg1 Hg2].
  { intros x y H. apply Nat.leb_le. apply Nat.leb_gt in H. lia. }
  pose proof (nan_last_cmp_flip Nat.eqb Nat.leb
                (code_of AGE_BAND_CATEGORIES (Csv.AGE_BAND a))
                (code_of AGE_BAND_CATEGORIES (Csv.AGE_BAND b)) Nat.eqb_sym)
    as [Ha1 Ha2].
  { intros x y H. apply Nat.leb_le. apply Nat.leb_gt in H. lia. }
  destruct (nan_last_cmp date_eqb _ (Csv.ACH_DATE a) (Csv.ACH_DATE b));
    [rewrite (Hd2 eq_refl) | discriminate | rewrite (Hd1 eq_refl); reflexivity].
  destruct (nan_last_cmp Nat.eqb Nat.leb (code_of GENDER_CATEGORIES _) _);
    [rewrite (Hg2 eq_refl) | discriminate | rewrite (Hg1 eq_refl); reflexivity].
  destruct (nan_last_cmp Nat.eqb Nat.leb (code_of AGE_BAND_CATEGORIES _) _);
    [discriminate | discriminate | rewrite (Ha1 eq_refl); reflexivity].
Qed.

Lemma sort_values_leb_dates (a b : Csv.row) :
  sort_values_leb a b = true -> date_descending a b.
Proof.
  unfold sort_values_leb, date_descending, nan_last_cmp.
  destruct (Csv.ACH_DATE a) as [x|], (Csv.ACH_DATE b) as [y|]; auto.
  - destruct (date_eqb x y) eqn:E.
    + apply date_eqb_eq in E. subst y. intros _. apply date_le_refl.
    + destruct (date_leb y x) eqn:E'; [intros _; exact E' | discriminate].
  - discriminate.
Qed.

Lemma date_descending_trans (a b c : Csv.row) :
  date_descending a b -> date_descending b c -> date_descending a c.
Proof.
  unfold date_descending.
  destruct (Csv.ACH_DATE a), (Csv.ACH_DATE b), (Csv.ACH_DATE c); auto;
    try contradiction.
  intros H1 H2. exact (date_le_trans _ _ _ H2 H1).
Qed.

Lemma Sorted_map_snd {A : Type} (R : A -> A -> Prop) (l : list (nat * A)) :
  Sorted (fun p q => R (snd p) (snd q)) l -> Sorted R (map snd l).
Proof.
  induction 1 as [|p l Hs IH Hhd]; cbn [map]; constructor; [exact IH|].
  destruct Hhd; cbn [map]; constructor; assumption.
Qed.

(** X16.  [sort_values] reorders a table without adding or losing a row, and
    leaves each row before the next in the order of the three sort keys:
    date descending, then gender and age band in the order of their
    categories, rows without a value last.  Every row therefore has a date
    no earlier than the dates of all the rows below it. *)
Theorem sort_values_orders_the_table :
  forall (df : Frame Csv.row),
    Permutation df (sort_values df)
    /\ Sorted (fun a b => sort_values_leb a b = true) (values (sort_values df))
    /\ StronglySorted date_descending (values (sort_values df)).
Proof.
  intros df.
  assert (Hs : Sorted (fun a b => sort_values_leb a b = true)
                      (values (sort_values df))).
  { apply Sorted_map_snd. unfold sort_values. apply sort_by_Sorted.
    intros p q. apply sort_values_leb_total. }
  split; [apply sort_by_Permutation|]. split; [exact Hs|].
  apply Sorted_StronglySorted.
  - intros a b c. apply date_descending_trans.
  - induction Hs as [|a l Hl IH Hhd]; constructor; [exact IH|].
    destruct Hhd; constructor. apply sort_values_leb_dates. assumption.
Qed.

(* ------------------------------------------------------------------ *)
(** *** Dates as text *)

Lemma digit_inj (a b : Z) : digit a = digit b -> a mod 10 = b mod 10.
Proof.
  unfold digit. intros H. apply (f_equal nat_of_ascii) in H.
  rewrite !nat_ascii_embedding in H
    by (pose proof (Z.mod_pos_bound a 10); pose proof (Z.mod_pos_bound b 10);
        lia).
  pose proof (Z.mod_pos_bound a 10). pose proof (Z.mod_pos_bound b 10). lia.
Qed.

Lemma strftime_dmY_inj (a b : Date) :
  printable_date a -> printable_date b ->
  strftime_dmY a = strftime_dmY b -> a = b.
Proof.
  destruct a as [ya ma da], b as [yb mb db].
  unfold printable_date, valid_date, strftime_dmY. cbn [year month day].
  intros [[Hma Hda] Hya] [[Hmb Hdb] Hyb] H.
  pose proof (days_in_month_bounds ya ma). pose proof (days_in_month_bounds yb mb).
  injection H as D1 D2 M1 M2 Y1 Y2 Y3 Y4.
  apply digit_inj in D1, D2, M1, M2, Y1, Y2, Y3, Y4.
  assert (da = db) by (Z.div_mod_to_equations; lia).
  assert (ma = mb) by (Z.div_mod_to_equations; lia).
  assert (ya = yb) by (Z.div_mod_to_equations; lia).
  subst. reflexivity.
Qed.

(** X17.  On dates of the calendar with four-digit years the dd/mm/yyyy
    text identifies the date, so [filter_data_to_current_month], which
    compares texts, keeps exactly the rows of the report end date. *)
Theorem filter_data_to_current_month_by_date :
  forall (df : Frame Csv.row) (rd : reportDates),
    printable_date (end_date rd) ->
    (forall p d, In p df -> Csv.ACH_DATE (snd p) = Some d -> printable_date d) ->
    filter_data_to_current_month (format_publication_date df) rd
    = format_publication_date
        (filter (fun p => match Csv.ACH_DATE (snd p) with
                          | Some d => date_eqb d (end_date rd)
                          | None => false
                          end) df).
Proof.
  intros df rd Hend Hdf.
  unfold filter_data_to_current_month, format_publication_date, assign.
  rewrite filter_map_comm. f_equal. apply filter_ext_in. intros p Hp.
  cbn [snd published_row Published.ACH_DATE].
  destruct (Csv.ACH_DATE (snd p)) as [d|] eqn:Ed; [|reflexivity].
  cbn [option_map col_eq].
  destruct (date_eqb d (end_date rd)) eqn:E.
  - apply date_eqb_eq in E. subst d. apply String.eqb_refl.
  - apply String.eqb_neq. intros Heq.
    apply strftime_dmY_inj in Heq; [|exact (Hdf p d Hp Ed)|exact Hend].
    apply date_eqb_eq in Heq. congruence.
Qed.

(* ------------------------------------------------------------------ *)
(** *** Sums over groups *)

Section GroupSums.
Context {R : Type}.
Variable key : R -> option (list cell).
Variable w : R -> Z.
Variable phi : list cell -> bool.

Lemma weighted_sum_over_groups (df : list R) :
  forall ks,
    NoDup ks ->
    (forall r k, In r df -> key r = Some k -> In k ks) ->
    Zsum (map (fun k => if phi k
                        then Zsum (map w (filter (in_group_on key k) df))
                        else 0) ks)
    = Zsum (map w (filter (fun r => match key r with
                                    | Some k => phi k
                                    | None => false
                                    end) df)).
Proof.
  induction df as [|a df IH]; intros ks Hnd Hall.
  - cbn [filter map].
    rewrite (Zsum_map_ext_in _ (fun _ => 0)), Zsum_map_zero; [reflexivity|].
    intros k _. destruct (phi k); reflexivity.
  - rewrite (Zsum_map_ext_in _
               (fun k => (if phi k
                          then Zsum (map w (filter (in_group_on key k) df))
                          else 0)
                         + (if in_group_on key k a
                            then (if phi k then w a else 0) else 0))).
    + rewrite Zsum_map_add.
      rewrite IH; [|exact Hnd|intros r k Hr; apply Hall; right; exact Hr].
      destruct (key a) as [k0|] eqn:E; cbn [filter]; rewrite E.
      * rewrite (Zsum_map_ext_in _
                   (fun k => if key_eqb k0 k
                             then (if phi k0 then w a else 0) else 0)).
        -- rewrite Zsum_indicator;
             [|exact Hnd|apply (Hall a); [left; reflexivity | exact E]].
           destruct (phi k0); cbn [map]; rewrite ?Zsum_cons; lia.
        -- intros k _. unfold in_group_on. rewrite E.
           destruct (key_eqb k0 k) eqn:Ek; [|reflexivity].
           apply key_eqb_eq in Ek. subst k. reflexivity.
      * rewrite (Zsum_map_ext_in _ (fun _ => 0) ks), Zsum_map_zero; [lia|].
        intros k _. unfold in_group_on. rewrite E. reflexivity.
    + intros k _. cbn [filter].
      destruct (in_group_on key k a), (phi k); cbn [map];
        rewrite ?Zsum_cons; lia.
Qed.

Lemma In_keys_on (df : list R) (k : list cell) :
  In k (keys_on key df) <-> exists r, In r df /\ key r = Some k.
Proof.
  induction df as [|a df IH]; simpl.
  - split; [contradiction | intros (r & [] & _)].
  - destruct (key a) as [ka|] eqn:E; simpl; rewrite IH; split.
    + intros [<- | (r & Hr & Hk)]; eauto.
    + intros (r & [<- | Hr] & Hk); [left; congruence | eauto].
    + intros (r & Hr & Hk); eauto.
    + intros (r & [<- | Hr] & Hk); [congruence | eauto].
Qed.

(** What the groups selected by [phi] weigh together. *)
Lemma groupby_on_sum (df : list R) :
  Zsum (map (fun g => Zsum (map w (snd g)))
            (filter (fun g => phi (fst g)) (groupby_on key df)))
  = Zsum (map w (filter (fun r => match key r with
                                  | Some k => phi k
                                  | None => false
                                  end) df)).
Proof.
  unfold groupby_on.
  rewrite Zsum_map_filter, map_map. cbn [fst snd].
  apply weighted_sum_over_groups.
  - apply (Permutation_NoDup (sort_by_Permutation _ _)), NoDup_unique.
  - intros r k Hr Hk.
    apply (Permutation_in _ (sort_by_Permutation _ _)), In_unique, In_keys_on.
    eauto.
Qed.
End GroupSums.

Lemma groupby_as_groupby_on {R : Type} {cols : Columns R}
  (measures : list Column) (df : list R) :
  groupby measures df = groupby_on (group_key measures) df.
Proof.
  unfold groupby, groupby_on.
  assert (Hk : keys_of measures df = keys_on (group_key measures) df).
  { induction df as [|a df IH]; [reflexivity|].
    cbn [keys_of keys_on]. rewrite IH. reflexivity. }
  rewrite Hk. reflexivity.
Qed.

Lemma key_lookup_of_group_key {R : Type} {cols : Columns R}
  (measures : list Column) (r : R) (c : Column) :
  forall k,
    group_key measures r = Some k -> In c measures ->
    key_lookup measures k c = column_value c r.
Proof.
  induction measures as [|m ms IH]; intros k Hk Hc; [contradiction|].
  cbn [group_key] in Hk.
  destruct (column_value m r) as [v|] eqn:Ev; [|discriminate].
  destruct (group_key ms r) as [k'|]; [|discriminate].
  injection Hk as <-. cbn [key_lookup].
  destruct (Column_eqb m c) eqn:E.
  - apply Column_eqb_eq in E. subst c. symmetry. exact Ev.
  - apply IH; [reflexivity|]. destruct Hc as [-> | Hc]; [|exact Hc].
    assert (Column_eqb c c = true) by (apply Column_eqb_eq; reflexivity).
    congruence.
Qed.

(** X18.  For a grouping that includes the date, the list sizes that
    [aggregate_list_size_by_measure] gives for one date add up to the list
    sizes of the rows of that date with a value in every grouping column: a
    null list size counts as 0, a row with a null grouping value is left
    out. *)
Theorem list_sizes_sum_to_rows_of_date :
  forall (df : list ListSize.row) (measure : list Column) (d : Date),
    In COL_ACH_DATE measure ->
    list_size_for_date (aggregate_list_size_by_measure df measure) d
    = sum_LIST_SIZE
        (filter (fun r => notna (group_key measure r)
                          && match ListSize.ACH_DATE r with
                             | Some d' => date_eqb d' d
                             | None => false
                             end) df).
Proof.
  intros df measure d Hin.
  unfold list_size_for_date, aggregate_list_size_by_measure.
  rewrite groupby_as_groupby_on.
  set (phi := fun k : list cell =>
                match cell_date (key_lookup measure k COL_ACH_DATE) with
                | Some d' => date_eqb d' d
                | None => false
                end).
  set (w := fun r : ListSize.row =>
              match ListSize.LIST_SIZE r with Some z => z | None => 0 end).
  rewrite filter_map_comm, map_map.
  cbn [ListSizeAgg.ACH_DATE ListSizeAgg.LIST_SIZE].
  change (Zsum (map (fun g => Zsum (map w (snd g)))
                    (filter (fun g => phi (fst g))
                            (groupby_on (group_key measure) df)))
          = Zsum (map w (filter
                           (fun r => notna (group_key measure r)
                                     && match ListSize.ACH_DATE r with
                                        | Some d' => date_eqb d' d
                                        | None => false
                                        end) df))).
  rewrite groupby_on_sum. f_equal. f_equal. apply filter_ext_in.
  intros r _. destruct (group_key measure r) as [k|] eqn:E; [|reflexivity].
  unfold phi. rewrite (key_lookup_of_group_key measure r COL_ACH_DATE k E Hin).
  unfold column_value, ListSize_columns.
  destruct (ListSize.ACH_DATE r); reflexivity.
Qed.

Lemma list_sizes_sum_witness :
  In COL_ACH_DATE [COL_ACH_DATE; COL_GENDER]
  /\ list_size_for_date
       (aggregate_list_size_by_measure sample_list_size
          [COL_ACH_DATE; COL_GENDER]) d_2022_07_01
     = sum_LIST_SIZE
         (filter (fun r => notna (group_key [COL_ACH_DATE; COL_GENDER] r)
                           && match ListSize.ACH_DATE r with
                              | Some d' => date_eqb d' d_2022_07_01
                              | None => false
                              end) sample_list_size).
Proof.
  assert (Hin : In COL_ACH_DATE [COL_ACH_DATE; COL_GENDER]).
  { left. reflexivity. }
  split; [exact Hin|].
  exact (list_sizes_sum_to_rows_of_date sample_list_size
           [COL_ACH_DATE; COL_GENDER] d_2022_07_01 Hin).
Defined.

(* ------------------------------------------------------------------ *)
(** *** Counts by practice and by area *)

Lemma count_NHS_Number_as_sum (g : list Row) :
  count_NHS_Number g
  = Zsum (map (fun r => if notna (NHS_Number r) then 1 else 0) g).
Proof.
  unfold count_NHS_Number. induction g as [|a g IH]; [reflexivity|].
  cbn [filter map]. rewrite Zsum_cons, <- IH.
  destruct (notna (NHS_Number a)); cbn [List.length]; lia.
Qed.

Lemma Zsum_map_one {A : Type} (l : list A) :
  Zsum (map (fun _ => 1) l) = Z.of_nat (List.length l).
Proof.
  induction l as [|a l IH]; [reflexivity|].
  cbn [map List.length]. rewrite Zsum_cons, IH. lia.
Qed.

Lemma counts_by_key_lose_no_record (key : Row -> option (list cell))
  (df : DataFrame) :
  (forall r, In r df -> key r <> None /\ NHS_Number r <> None) ->
  Zsum (map snd (map (fun g => (fst g, count_NHS_Number (snd g)))
                     (groupby_on key df)))
  = Z.of_nat (List.length df).
Proof.
  intros Hall. rewrite map_map. cbn [snd].
  rewrite (Zsum_map_ext_in _
             (fun g => Zsum (map (fun r => if notna (NHS_Number r)
                                           then 1 else 0) (snd g))))
    by (intros g _; apply count_NHS_Number_as_sum).
  pose proof (groupby_on_sum key
                (fun r => if notna (NHS_Number r) then 1 else 0)
                (fun _ => true) df) as H.
  cbv beta in H.
  rewrite (forallb_filter_id (fun _ => true)) in H
    by (apply forallb_forall; reflexivity).
  rewrite H, <- Zsum_map_one.
  rewrite Zsum_map_filter. apply Zsum_map_ext_in. intros r Hr.
  destruct (Hall r Hr) as [Hk Hn].
  destruct (key r); [|congruence].
  destruct (NHS_Number r); [reflexivity | congruence].
Qed.

Lemma get_ndop_data_filled (dates : reportDates) (NDOP_DEMOG : DataFrame)
  (r : Row) :
  In r (ndop_clean.get_ndop_data dates NDOP_DEMOG) ->
  GENDER r <> None /\ GP_PRACTICE r <> None /\ LSOA_CODE r <> None
  /\ NHS_Number r <> None.
Proof.
  unfold ndop_clean.get_ndop_data, remap_ndop_gender_column,
    remap_ndop_age_column, remove_practice_code_whitespace.
  rewrite !map_map. intros Hr. apply in_map_iff in Hr.
  destruct Hr as (r0 & <- & Hr0).
  apply clean_nhs_numbers_filled in Hr0.
  destruct Hr0 as (Hg & Hp & Hl & Hn).
  cbn [set_GENDER set_AGE_BAND set_GP_PRACTICE GENDER GP_PRACTICE LSOA_CODE
       NHS_Number].
  repeat split; try assumption.
  - destruct (GENDER r0) as [g|]; [|congruence]. cbn [replace_values].
    destruct (find _ gender_mappings); discriminate.
  - destruct (GP_PRACTICE r0); [discriminate | congruence].
Qed.

(** X19.  The counts by practice and by area lose no record of the
    preprocessed cohorts of a report of at least one month: cleaning fills
    the practice and the area code, so the counts of either breakdown add up
    to the number of rows of the cohort, for the Living and for the Deceased
    cohort. *)
Theorem practice_and_area_counts_lose_no_record :
  forall (report_dates : reportDates) (NDOP_DEMOG : DataFrame),
    get_reporting_months_list report_dates <> [] ->
    let cohorts := preprocess_ndop_data report_dates NDOP_DEMOG in
    Zsum (map snd (aggregate_ndop_by_practice (fst cohorts)))
    = Z.of_nat (List.length (fst cohorts))
    /\ Zsum (map snd (aggregate_ndop_by_lsoa (fst cohorts)))
       = Z.of_nat (List.length (fst cohorts))
    /\ Zsum (map snd (aggregate_ndop_by_practice (snd cohorts)))
       = Z.of_nat (List.length (snd cohorts))
    /\ Zsum (map snd (aggregate_ndop_by_lsoa (snd cohorts)))
       = Z.of_nat (List.length (snd cohorts)).
Proof.
  intros report_dates NDOP_DEMOG _ cohorts.
  assert (Hrows : forall r,
             In r (fst cohorts) \/ In r (snd cohorts) ->
             ACH_DATE r <> None /\ GP_PRACTICE r <> None
             /\ LSOA_CODE r <> None /\ NHS_Number r <> None).
  { intros r Hr. unfold cohorts, preprocess_ndop_data in Hr.
    cbn [fst snd] in Hr.
    destruct (cohort_rows_from_input _ _ r Hr) as (r0 & date & Hr0 & ->).
    apply get_ndop_data_filled in Hr0. destruct Hr0 as (_ & Hp & Hl & Hn).
    cbn [set_ACH_DATE ACH_DATE GP_PRACTICE LSOA_CODE NHS_Number].
    repeat split; try assumption. discriminate. }
  unfold aggregate_ndop_by_practice, aggregate_ndop_by_lsoa.
  repeat split; apply counts_by_key_lose_no_record; intros r Hr;
    [destruct (Hrows r (or_introl Hr)) as (Hd & Hp & Hl & Hn)
    |destruct (Hrows r (or_introl Hr)) as (Hd & Hp & Hl & Hn)
    |destruct (Hrows r (or_intror Hr)) as (Hd & Hp & Hl & Hn)
    |destruct (Hrows r (or_intror Hr)) as (Hd & Hp & Hl & Hn)];
    (split; [|exact Hn]); unfold practice_key, lsoa_key;
    destruct (ACH_DATE r); try congruence;
    destruct (GP_PRACTICE r), (LSOA_CODE r); congruence.
Qed.

Lemma practice_and_area_counts_witness :
  get_reporting_months_list sample_report_dates <> []
  /\ Zsum (map snd (aggregate_ndop_by_practice
                      (fst (preprocess_ndop_data sample_report_dates
                                                 sample_records))))
     = Z.of_nat (List.length
                   (fst (preprocess_ndop_data sample_report_dates
                                              sample_records))).
Proof.
  assert (H : get_reporting_months_list sample_report_dates <> [])
    by (vm_compute; discriminate).
  split; [exact H|].
  exact (proj1 (practice_and_area_counts_lose_no_record
                  sample_report_dates sample_records H)).
Defined.

(* ------------------------------------------------------------------ *)
(** *** The extraction window *)

Lemma filter_map_invariant {A : Type} (f : A -> A) (p : A -> bool)
  (l : list A) :
  (forall a, p (f a) = p a) -> filter p (map f l) = map f (filter p l).
Proof.
  intros H. rewrite filter_map_comm. f_equal. apply filter_ext. exact H.
Qed.

(** A filter on the validity dates can be applied before or after the
    cleaning steps. *)
Lemma cleaning_commutes_with_validity_filter
  (q : option Date -> option Date -> bool) (df : DataFrame) :
  let W := fun r => q (Record_Start_Date r) (Record_End_Date r) in
  remap_ndop_gender_column
    (remap_ndop_age_column
       (remove_practice_code_whitespace (clean_nhs_numbers (filter W df))))
  = filter W
      (remap_ndop_gender_column
         (remap_ndop_age_column
            (remove_practice_code_whitespace (clean_nhs_numbers df)))).
Proof.
  intros W.
  unfold remap_ndop_gender_column, remap_ndop_age_column,
    remove_practice_code_whitespace, clean_nhs_numbers,
    fill_empty_gender_column_values, fill_empty_categorical_column_values,
    remove_nhs_number_which_are_null, remove_nhs_number_starting_with_9,
    remove_nhs_number_which_are_invalid.
  rewrite !map_map.
  rewrite filter_map_invariant by reflexivity. f_equal.
  rewrite !filter_filter_andb. apply filter_ext. intros r. unfold W.
  destruct (q (Record_Start_Date r) (Record_End_Date r)); cbn [andb];
    rewrite ?andb_true_r, ?andb_false_r; reflexivity.
Qed.

Lemma window_contains_active (rd : reportDates) (d : Date) (r : Row) :
  date_le (start_date rd) d -> date_le d (end_date rd) ->
  active_on d r = true ->
  col_le (Record_Start_Date r) (end_date rd)
  && (col_ge (Record_End_Date r) (start_date rd) || isna (Record_End_Date r))
  = true.
Proof.
  intros Hs He. unfold active_on, col_le, col_ge, isna.
  rewrite !andb_true_iff, !orb_true_iff. intros [H1 H2]. split.
  - destruct (Record_Start_Date r) as [s|]; [|discriminate].
    exact (date_le_trans _ _ _ H1 He).
  - destruct (Record_End_Date r) as [e|]; [|right; reflexivity].
    left. destruct H2 as [H2 | H2]; [|discriminate].
    exact (date_le_trans _ _ _ Hs H2).
Qed.

Lemma slice_of_window (rd : reportDates) (d : Date) (df : DataFrame) :
  date_le (start_date rd) d -> date_le d (end_date rd) ->
  slice_ndop_by_month
    (filter (fun r =>
               col_le (Record_Start_Date r) (end_date rd)
               && (col_ge (Record_End_Date r) (start_date rd)
                   || isna (Record_End_Date r))) df) d
  = slice_ndop_by_month df d.
Proof.
  intros Hs He. unfold slice_ndop_by_month. f_equal.
  rewrite filter_filter_andb. apply filter_ext. intros r.
  destruct (active_on d r) eqn:E; [|apply andb_false_r].
  rewrite (window_contains_active rd d r Hs He E). reflexivity.
Qed.

(** X20.  The window of the query loses nothing that a monthly table
    needs: for a date between the start and the end date of the report, the
    slice of the extracted records is the slice of the whole table, before
    and after cleaning. *)
Theorem extraction_window_covers_every_slice :
  forall (rd : reportDates) (NDOP_DEMOG : DataFrame) (d : Date),
    date_le (start_date rd) d -> date_le d (end_date rd) ->
    slice_ndop_by_month (config.get_ndop_data rd NDOP_DEMOG) d
    = slice_ndop_by_month NDOP_DEMOG d
    /\ slice_ndop_by_month (ndop_clean.get_ndop_data rd NDOP_DEMOG) d
       = slice_ndop_by_month
           (remap_ndop_gender_column
              (remap_ndop_age_column
                 (remove_practice_code_whitespace
                    (clean_nhs_numbers NDOP_DEMOG)))) d.
Proof.
  intros rd NDOP_DEMOG d Hs He. split.
  - apply slice_of_window; assumption.
  - unfold ndop_clean.get_ndop_data, config.get_ndop_data.
    rewrite (cleaning_commutes_with_validity_filter
               (fun s e => col_le s (end_date rd)
                           && (col_ge e (start_date rd) || isna e))).
    apply slice_of_window; assumption.
Qed.

Lemma extraction_window_witness :
  date_le (start_date sample_report_dates) d_2022_06_01
  /\ date_le d_2022_06_01 (end_date sample_report_dates)
  /\ slice_ndop_by_month
       (config.get_ndop_data sample_report_dates sample_records) d_2022_06_01
     = slice_ndop_by_month sample_records d_2022_06_01.
Proof.
  assert (Hs : date_le (start_date sample_report_dates) d_2022_06_01)
    by (vm_compute; reflexivity).
  assert (He : date_le d_2022_06_01 (end_date sample_report_dates))
    by (vm_compute; reflexivity).
  split; [exact Hs|]. split; [exact He|].
  exact (proj1 (extraction_window_covers_every_slice
                  sample_report_dates sample_records d_2022_06_01 Hs He)).
Defined.

(** The window is not the slice: a record that ended in the first month is
    extracted for a report of May to July 2022, and is in no table after
    May. *)
Example extraction_window_is_wider :
  let r := mkRow (Some "4000000006"%string) None None None None None
                 (Some (mkDate 2020 1 1)) (Some (mkDate 2022 5 20)) None in
  config.get_ndop_data sample_report_dates [r] = [r]
  /\ slice_ndop_by_month [r] d_2022_06_01 = [].
Proof. split; reflexivity. Qed.

(* ------------------------------------------------------------------ *)
(** *** Stripping and remapping *)

Lemma existsb_eqb_false (chars : list ascii) (c : ascii) :
  existsb (Ascii.eqb c) chars = false -> ~ In c chars.
Proof.
  intros H Hin.
  assert (existsb (Ascii.eqb c) chars = true).
  { apply existsb_exists. exists c. split; [exact Hin | apply Ascii.eqb_refl]. }
  congruence.
Qed.

Lemma lstrip_first (chars : list ascii) (s : string) (c : ascii) :
  first_char (lstrip chars s) = Some c -> ~ In c chars.
Proof.
  induction s as [|c0 tl IH]; cbn [lstrip]; [discriminate|].
  destruct (existsb (Ascii.eqb c0) chars) eqn:E; [exact IH|].
  cbn [first_char]. intros [= <-]. apply existsb_eqb_false, E.
Qed.

Lemma lstrip_last (chars : list ascii) (s : string) (c : ascii) :
  last_char (lstrip chars s) = Some c -> last_char s = Some c.
Proof.
  induction s as [|c0 tl IH]; cbn [lstrip]; [discriminate|].
  destruct (existsb (Ascii.eqb c0) chars); [|auto].
  intros H. cbn [last_char]. destruct tl as [|c1 tl]; [discriminate|].
  exact (IH H).
Qed.

Lemma rstrip_last (chars : list ascii) (s : string) (c : ascii) :
  last_char (rstrip chars s) = Some c -> ~ In c chars.
Proof.
  induction s as [|c0 tl IH]; cbn [rstrip]; [discriminate|].
  destruct (rstrip chars tl) as [|c1 t1] eqn:E.
  - destruct (existsb (Ascii.eqb c0) chars) eqn:E0; [discriminate|].
    cbn [last_char]. intros [= <-]. apply existsb_eqb_false, E0.
  - exact IH.
Qed.

Lemma strip_trimmed (chars : list ascii) (s : string) :
  trimmed chars (strip chars s).
Proof.
  unfold trimmed, strip. split; intros c H.
  - exact (lstrip_first _ _ _ H).
  - apply lstrip_last in H. exact (rstrip_last _ _ _ H).
Qed.

Lemma lstrip_idempotent (chars : list ascii) (s : string) :
  lstrip chars (lstrip chars s) = lstrip chars s.
Proof.
  induction s as [|c0 tl IH]; [reflexivity|]. cbn [lstrip].
  destruct (existsb (Ascii.eqb c0) chars) eqn:E; [exact IH|].
  cbn [lstrip]. rewrite E. reflexivity.
Qed.

Lemma rstrip_idempotent (chars : list ascii) (s : string) :
  rstrip chars (rstrip chars s) = rstrip chars s.
Proof.
  induction s as [|c0 tl IH]; [reflexivity|]. cbn [rstrip].
  destruct (rstrip chars tl) as [|c1 t1] eqn:E.
  - destruct (existsb (Ascii.eqb c0) chars) eqn:E0; [reflexivity|].
    cbn [rstrip]. rewrite E0. reflexivity.
  - change (rstrip chars (String c0 (String c1 t1)))
      with (match rstrip chars (String c1 t1) with
            | EmptyString =>
                if existsb (Ascii.eqb c0) chars then EmptyString
                else String c0 EmptyString
            | t => String c0 t
            end).
    rewrite IH. reflexivity.
Qed.

Lemma rstrip_lstrip_fixed (chars : list ascii) (s : string) :
  rstrip chars s = s -> rstrip chars (lstrip chars s) = lstrip chars s.
Proof.
  induction s as [|c0 tl IH]; [reflexivity|]. intros H. cbn [lstrip].
  destruct (existsb (Ascii.eqb c0) chars) eqn:E; [|exact H].
  apply IH. cbn [rstrip] in H. rewrite E in H.
  destruct (rstrip chars tl) as [|c1 t1]; [discriminate|].
  injection H as H. exact H.
Qed.

Lemma strip_idempotent (chars : list ascii) (s : string) :
  strip chars (strip chars s) = strip chars s.
Proof.
  unfold strip.
  rewrite (rstrip_lstrip_fixed chars (rstrip chars s))
    by apply rstrip_idempotent.
  apply lstrip_idempotent.
Qed.

Lemma remapped_age_band (s : string) :
  exists a,
    replace_values age_mappings
      (Some (strip (list_ascii_of_string "Age ") s)) = Some a
    /\ trimmed (list_ascii_of_string "Age ") a
    /\ ~ In a (map fst age_mappings)
    /\ replace_values age_mappings
         (Some (strip (list_ascii_of_string "Age ") a)) = Some a.
Proof.
  set (chars := list_ascii_of_string "Age ").
  unfold replace_values, age_mappings. cbn [find fst snd map].
  destruct (String.eqb "N/" (strip chars s)) eqn:E1.
  { exists "Unknown"%string. split; [reflexivity|].
    split; [|split; [|reflexivity]].
    - split; intros c [= <-]; vm_compute; intuition discriminate.
    - cbn [In]. intuition discriminate. }
  destruct (String.eqb "90 and over" (strip chars s)) eqn:E2.
  { exists "90+"%string. split; [reflexivity|].
    split; [|split; [|reflexivity]].
    - split; intros c [= <-]; vm_compute; intuition discriminate.
    - cbn [In]. intuition discriminate. }
  exists (strip chars s). split; [reflexivity|].
  split; [apply strip_trimmed|].
  apply String.eqb_neq in E1 as N1. apply String.eqb_neq in E2 as N2.
  split.
  - cbn [In]. intuition congruence.
  - rewrite strip_idempotent, E1, E2. reflexivity.
Qed.

Lemma remapped_gender (s : string) :
  exists g,
    replace_values gender_mappings (Some s) = Some g
    /\ ~ In g (map fst gender_mappings)
    /\ replace_values gender_mappings (Some g) = Some g.
Proof.
  unfold replace_values, gender_mappings. cbn [find fst snd map].
  destruct (String.eqb "1" s) eqn:E1.
  { exists "Male"%string. repeat split; try reflexivity.
    cbn [In]. intuition discriminate. }
  destruct (String.eqb "2" s) eqn:E2.
  { exists "Female"%string. repeat split; try reflexivity.
    cbn [In]. intuition discriminate. }
  destruct (String.eqb "0" s) eqn:E3.
  { exists "Unknown / Prefer not to say"%string. repeat split; try reflexivity.
    cbn [In]. intuition discriminate. }
  destruct (String.eqb "None" s) eqn:E4.
  { exists "Unknown / Prefer not to say"%string. repeat split; try reflexivity.
    cbn [In]. intuition discriminate. }
  destruct (String.eqb "9" s) eqn:E5.
  { exists "Unknown / Prefer not to say"%string. repeat split; try reflexivity.
    cbn [In]. intuition discriminate. }
  exists s. split; [reflexivity|].
  apply String.eqb_neq in E1 as N1. apply String.eqb_neq in E2 as N2.
  apply String.eqb_neq in E3 as N3. apply String.eqb_neq in E4 as N4.
  apply String.eqb_neq in E5 as N5.
  split.
  - cbn [In]. intuition congruence.
  - rewrite E1, E2, E3, E4, E5. reflexivity.
Qed.

(** The row that the four cleaning steps make of a row they keep. *)
Lemma get_ndop_data_rows (dates : reportDates) (NDOP_DEMOG : DataFrame)
  (r : Row) :
  In r (ndop_clean.get_ndop_data dates NDOP_DEMOG) ->
  exists r0,
    In r0 NDOP_DEMOG
    /\ NHS_Number r = NHS_Number r0
    /\ GP_PRACTICE r
       = option_map (strip WHITESPACE)
                    (fillna (GP_PRACTICE r0) "Unallocated"%string)
    /\ LSOA_CODE r = fillna (LSOA_CODE r0) "Unallocated"%string
    /\ GENDER r
       = replace_values gender_mappings
           (fillna (GENDER r0) "Unknown / Prefer not to say"%string)
    /\ AGE_BAND r
       = replace_values age_mappings
           (option_map (strip (list_ascii_of_string "Age ")) (AGE_BAND r0)).
Proof.
  unfold ndop_clean.get_ndop_data, config.get_ndop_data,
    remap_ndop_gender_column, remap_ndop_age_column,
    remove_practice_code_whitespace, clean_nhs_numbers,
    fill_empty_gender_column_values, fill_empty_categorical_column_values,
    remove_nhs_number_which_are_null, remove_nhs_number_starting_with_9,
    remove_nhs_number_which_are_invalid.
  rewrite !map_map. intros Hr. apply in_map_iff in Hr.
  destruct Hr as (r0 & <- & Hr0).
  repeat (apply filter_In in Hr0; destruct Hr0 as [Hr0 _]).
  exists r0. split; [exact Hr0|]. repeat split.
Qed.

(** X21.  What [get_ndop_data] hands on is clean: every row has a valid
    identifier, a practice code without surrounding white space, an area
    code, a gender that is none of the raw codes, and, where it has an age
    band, one without the surrounding characters of the label and not one of
    the remapped labels. *)
Theorem get_ndop_data_is_clean :
  forall (dates : reportDates) (NDOP_DEMOG : DataFrame),
    Forall (fun r =>
              ~ invalid_identifier (NHS_Number r)
              /\ (exists p, GP_PRACTICE r = Some p /\ trimmed WHITESPACE p)
              /\ LSOA_CODE r <> None
              /\ (exists g, GENDER r = Some g
                            /\ ~ In g (map fst gender_mappings))
              /\ (forall a, AGE_BAND r = Some a ->
                            trimmed (list_ascii_of_string "Age ") a
                            /\ ~ In a (map fst age_mappings)))
           (ndop_clean.get_ndop_data dates NDOP_DEMOG).
Proof.
  intros dates NDOP_DEMOG. apply Forall_forall. intros r Hr.
  assert (Hid : ~ invalid_identifier (NHS_Number r)).
  { unfold ndop_clean.get_ndop_data, remap_ndop_gender_column,
      remap_ndop_age_column, remove_practice_code_whitespace in Hr.
    rewrite !map_map in Hr. apply in_map_iff in Hr.
    destruct Hr as (r1 & <- & Hr1).
    exact (clean_nhs_numbers_In _ _ Hr1). }
  destruct (get_ndop_data_rows dates NDOP_DEMOG r Hr)
    as (r0 & _ & _ & Hp & Hl & Hg & Ha).
  split; [exact Hid|]. split; [|split; [|split]].
  - rewrite Hp. destruct (GP_PRACTICE r0) as [p|]; cbn [fillna option_map];
      eexists; (split; [reflexivity | apply strip_trimmed]).
  - rewrite Hl. destruct (LSOA_CODE r0); discriminate.
  - rewrite Hg.
    destruct (GENDER r0) as [g|]; cbn [fillna];
      [destruct (remapped_gender g) as (g' & E & Hn & _)
      |destruct (remapped_gender "Unknown / Prefer not to say")
         as (g' & E & Hn & _)];
      exists g'; split; assumption.
  - intros a Ea. rewrite Ha in Ea.
    destruct (AGE_BAND r0) as [s|]; [|discriminate]. cbn [option_map] in Ea.
    destruct (remapped_age_band s) as (a' & E & Ht & Hn & _).
    rewrite E in Ea. injection Ea as <-. split; assumption.
Qed.

(** Text that [str.strip] empties: a practice code of blanks is not
    "Unallocated" but empty, as the filling comes first; an age band of the
    characters of the label alone is empty too. *)
Example strip_to_empty :
  map GP_PRACTICE
      (ndop_clean.get_ndop_data sample_report_dates
         [mkRow (Some "4000000007"%string) (Some "Age"%string) None
                (Some "  "%string) None None
                (Some (mkDate 2021 3 1)) None None])
  = [Some ""%string]
  /\ map (fun label => strip (list_ascii_of_string "Age ") label)
         ["Age"; "Age N/A"; "Age 90 and over"; "Age 0-9"]%string
     = [""; "N/"; "90 and over"; "0-9"]%string.
Proof. split; reflexivity. Qed.

Lemma fillna_fillna {A : Type} (x : option A) (v : A) :
  fillna (fillna x v) v = fillna x v.
Proof. destruct x; reflexivity. Qed.


Lemma get_ndop_data_as_map (dates : reportDates) (NDOP_DEMOG : DataFrame) :
  ndop_clean.get_ndop_data dates NDOP_DEMOG
  = map cleaned_row (filter (extracted_and_kept dates) NDOP_DEMOG).
Proof.
  unfold ndop_clean.get_ndop_data, config.get_ndop_data,
    remap_ndop_gender_column, remap_ndop_age_column,
    remove_practice_code_whitespace, clean_nhs_numbers,
    fill_empty_gender_column_values, fill_empty_categorical_column_values,
    remove_nhs_number_which_are_null, remove_nhs_number_starting_with_9,
    remove_nhs_number_which_are_invalid.
  rewrite !map_map, !filter_filter_andb.
  rewrite (filter_ext _ (extracted_and_kept dates))
    by (intros r; unfold extracted_and_kept; rewrite !andb_assoc;
        reflexivity).
  apply map_ext. intros r. reflexivity.
Qed.

Lemma cleaned_row_idempotent (r : Row) :
  cleaned_row (cleaned_row r) = cleaned_row r.
Proof.
  unfold cleaned_row.
  cbn [NHS_Number AGE_BAND DATE_OF_DEATH GP_PRACTICE LSOA_CODE GENDER
       Record_Start_Date Record_End_Date ACH_DATE].
  f_equal.
  - destruct (AGE_BAND r) as [s|]; [|reflexivity]. cbn [option_map].
    destruct (remapped_age_band s) as (a & E & _ & _ & Hfix).
    rewrite E. cbn [option_map]. exact Hfix.
  - destruct (GP_PRACTICE r) as [p|]; cbn [fillna option_map];
      rewrite strip_idempotent; reflexivity.
  - apply fillna_fillna.
  - destruct (GENDER r) as [g|]; cbn [fillna];
      [destruct (remapped_gender g) as (g' & E & _ & Hfix)
      |destruct (remapped_gender "Unknown / Prefer not to say")
         as (g' & E & _ & Hfix)];
      rewrite E; cbn [fillna]; exact Hfix.
Qed.

(** X22.  Cleaning is idempotent: [get_ndop_data] applied to what it
    returned returns it unchanged. *)
Theorem get_ndop_data_idempotent :
  forall (dates : reportDates) (NDOP_DEMOG : DataFrame),
    ndop_clean.get_ndop_data dates
      (ndop_clean.get_ndop_data dates NDOP_DEMOG)
    = ndop_clean.get_ndop_data dates NDOP_DEMOG.
Proof.
  intros dates NDOP_DEMOG. rewrite !get_ndop_data_as_map.
  rewrite filter_map_invariant by reflexivity.
  rewrite map_map, filter_filter_andb.
  rewrite (filter_ext _ (extracted_and_kept dates))
    by (intros r; apply andb_diag).
  apply map_ext. exact cleaned_row_idempotent.
Qed.


(* ------------------------------------------------------------------ *)
(** *** Table 2 *)

Lemma drop_unique_index {A : Type} (mask : A -> bool) (df : Frame A) :
  NoDup (index df) ->
  drop df (index (filter (fun p => mask (snd p)) df))
  = filter (fun p => negb (mask (snd p))) df.
Proof.
  intros Hnd. unfold drop. apply filter_ext_in. intros p Hp. f_equal.
  destruct (mask (snd p)) eqn:E.
  - apply existsb_exists. exists (fst p). split; [|apply Nat.eqb_refl].
    unfold index. apply in_map. apply filter_In. auto.
  - destruct (existsb _ _) eqn:Ex; [|reflexivity].
    apply existsb_exists in Ex. destruct Ex as (i & Hi & Heq).
    apply Nat.eqb_eq in Heq. subst i. unfold index in Hi.
    apply in_map_iff in Hi. destruct Hi as (q & Hfst & Hq).
    apply filter_In in Hq. destruct Hq as [Hq Hmask].
    rewrite (unique_label df p q Hnd Hp Hq (eq_sym Hfst)) in E. congruence.
Qed.

Lemma NoDup_index_filter {A : Type} (p : nat * A -> bool) (df : Frame A) :
  NoDup (index df) -> NoDup (index (filter p df)).
Proof.
  unfold index. induction df as [|a df IH]; cbn [filter map]; [auto|].
  intros Hnd. inversion Hnd as [|x xs Ha Hdf]; subst.
  destruct (p a); cbn [map]; [constructor|]; auto.
  intros Hin. apply Ha. apply in_map_iff in Hin.
  destruct Hin as (q & Hq & Hin). apply filter_In in Hin.
  rewrite <- Hq. apply in_map, Hin.
Qed.

Lemma NoDup_index_create_age_gen_csv (ndop_df ndop_deceased_df : DataFrame)
  (list_size_df : list ListSize.row) :
  NoDup (index (create_age_gen_csv ndop_df ndop_deceased_df list_size_df)).
Proof.
  unfold create_age_gen_csv, format_publication_date, sort_values.
  rewrite index_assign.
  apply (Permutation_NoDup
           (Permutation_map fst (sort_by_Permutation _ _))).
  unfold suppress_unknown_undisclosed_gender_rows.
  apply NoDup_index_filter, NoDup_index_before_suppression.
Qed.

(** X23.  Table 2 shows no totals it should not: of the age/gender rows of
    the report month, [remove_total_counts] keeps exactly those whose gender
    is not a total and that are not the all-ages row of Male or Female; and
    a row of unknown or undisclosed gender that is left is the all-ages or
    the deceased total, never an age band. *)
Theorem table_2_shows_no_unwanted_totals :
  forall (ndop_df ndop_deceased_df : DataFrame)
         (list_size_df : list ListSize.row) (report_date : reportDates),
    let month :=
      filter_data_to_current_month
        (create_age_gen_csv ndop_df ndop_deceased_df list_size_df)
        report_date in
    values (remove_total_counts month) = filter table_2_row (values month)
    /\ Forall (fun o =>
                 Published.GENDER o
                 = Some "Unknown / Prefer not to say"%string ->
                 Published.AGE_BAND o = Some "All"%string
                 \/ Published.AGE_BAND o = Some "All deceased"%string)
              (values (remove_total_counts month)).
Proof.
  intros ndop_df ndop_deceased_df list_size_df report_date month.
  assert (Hnd : NoDup (index month)).
  { unfold month, filter_data_to_current_month.
    apply NoDup_index_filter, NoDup_index_create_age_gen_csv. }
  assert (Hvalues : values (remove_total_counts month)
                    = filter table_2_row (values month)).
  { unfold remove_total_counts. cbv zeta.
    rewrite (drop_unique_index
               (fun o => col_eq (Published.AGE_BAND o) "All"
                         && isin (Published.GENDER o)
                                 ["Male"; "Female"]%string))
      by apply NoDup_index_filter, Hnd.
    rewrite filter_filter_andb.
    apply (values_filter table_2_row). }
  split; [exact Hvalues|].
  rewrite Hvalues. apply Forall_forall. intros o Ho Hg.
  apply filter_In in Ho. destruct Ho as [Ho _].
  unfold month, filter_data_to_current_month in Ho.
  unfold values in Ho. apply in_map_iff in Ho.
  destruct Ho as (p & <- & Hp). apply filter_In in Hp.
  destruct Hp as [Hp _].
  assert (Hin : In (snd p)
                   (values (create_age_gen_csv ndop_df ndop_deceased_df
                                               list_size_df))).
  { unfold values. apply in_map, Hp. }
  apply create_age_gen_csv_In in Hin.
  destruct Hin as (r & _ & Hns & Heq). rewrite Heq in Hg |- *.
  unfold published_row in Hg |- *.
  cbn [Published.GENDER Published.AGE_BAND] in Hg |- *.
  unfold suppressed_by_policy in Hns.
  destruct (Csv.AGE_BAND r) as [a|].
  - destruct (String.eqb_spec a "All") as [-> | N1]; [left; reflexivity|].
    destruct (String.eqb_spec a "All deceased") as [-> | N2];
      [right; reflexivity|].
    exfalso. apply Hns. repeat split; congruence.
  - exfalso. apply Hns. repeat split; congruence.
Qed.

(* ------------------------------------------------------------------ *)
(** *** Table 3 *)

Lemma col_ne_negb (x : option string) (s : string) :
  col_ne x s = negb (col_eq x s).
Proof. destruct x; reflexivity. Qed.

(** X24.  [reorder_practices] lists every practice of a table of
    non-negative counts, and lists twice each row that is both "Unallocated"
    and without opt-outs: such a row is in the cohort of the zero counts and
    in the cohort of the unallocated. *)
Theorem reorder_practices_lists_every_practice :
  forall (df : list Table3.row),
    (forall r, In r df -> 0 <= Table3.OPT_OUT r) ->
    Permutation
      (map Table3.practice_code (reorder_practices df))
      (map Table3.GP_PRACTICE df
       ++ map Table3.GP_PRACTICE
            (filter (fun r => (Table3.OPT_OUT r =? 0)
                              && col_eq (Table3.PRACTICE_NAME r) "Unallocated")
                    df)).
Proof.
  intros df Hpos. unfold reorder_practices. cbv zeta.
  rewrite !map_app, !map_map. cbn [Table3.practice_code].
  induction df as [|a df IH]; [reflexivity|].
  assert (Ha : 0 <= Table3.OPT_OUT a) by (apply Hpos; left; reflexivity).
  assert (IH' := IH (fun r Hr => Hpos r (or_intror Hr))). clear IH.
  cbn [filter]. rewrite col_ne_negb.
  destruct (col_eq (Table3.PRACTICE_NAME a) "Unallocated");
    destruct (Table3.OPT_OUT a =? 0) eqn:E0;
    destruct (Table3.OPT_OUT a >? 0) eqn:E1;
    try (exfalso; lia);
    cbn [andb negb map app];
    repeat rewrite <- Permutation_middle;
    repeat apply perm_skip; exact IH'.
Qed.

Lemma reorder_practices_witness :
  let df := [ Table3.mk (Some "A81001"%string) (Some "Practice A"%string)
                        3 100 (FNum (inject_Z 3));
              Table3.mk (Some "Unallocated"%string)
                        (Some "Unallocated"%string) 0 0 FNaN ] in
  (forall r, In r df -> 0 <= Table3.OPT_OUT r)
  /\ Permutation
       (map Table3.practice_code (reorder_practices df))
       (map Table3.GP_PRACTICE df
        ++ map Table3.GP_PRACTICE
             (filter (fun r => (Table3.OPT_OUT r =? 0)
                               && col_eq (Table3.PRACTICE_NAME r)
                                         "Unallocated")
                     df)).
Proof.
  intros df.
  assert (H : forall r, In r df -> 0 <= Table3.OPT_OUT r).
  { intros r [<- | [<- | []]]; cbn [Table3.OPT_OUT]; lia. }
  split; [exact H|].
  exact (reorder_practices_lists_every_practice df H).
Defined.

(** The replacements of the cohorts: a zero count is written "-", and an
    infinite rate is written "z" for an unallocated row only. *)
Example reorder_practices_cells :
  map (fun w => (Table3.opt_out w, Table3.opt_out_rate w))
      (reorder_practices
         [ Table3.mk (Some "A81001"%string) (Some "Practice A"%string)
                     3 0 (FInf false);
           Table3.mk (Some "A81002"%string) (Some "Practice B"%string)
                     0 50 (FNum (inject_Z 0));
           Table3.mk (Some "Unallocated"%string) (Some "Unallocated"%string)
                     2 0 (FInf false) ])
  = [ (Table3.Count 3, Table3.Rate (FInf false));
      (Table3.Dash, Table3.Rate (FNum (inject_Z 0)));
      (Table3.Count 2, Table3.Zed) ].
Proof. reflexivity. Qed.

(* ------------------------------------------------------------------ *)
(** *** Finding a tagged cell *)

Lemma col_eq_true_iff (x : option string) (s : string) :
  col_eq x s = true <-> x = Some s.
Proof.
  unfold col_eq. destruct x as [v|].
  - rewrite String.eqb_eq. split; congruence.
  - split; discriminate.
Qed.

Lemma find_in_row_none (tag : string) (row : list (option string)) :
  ~ In (Some tag) row -> forall column, find_in_row tag row column = None.
Proof.
  induction row as [|v tl IH]; intros Hn column; [reflexivity|].
  cbn [find_in_row]. destruct (col_eq v tag) eqn:E.
  - apply col_eq_true_iff in E. exfalso. apply Hn. left. exact E.
  - apply IH. intros H. apply Hn. right. exact H.
Qed.

Lemma find_in_row_first (tag : string) (pre post : list (option string)) :
  ~ In (Some tag) pre ->
  forall column,
    find_in_row tag (pre ++ Some tag :: post) column
    = Some (List.length pre + column)%nat.
Proof.
  induction pre as [|v tl IH]; intros Hn column; cbn [app find_in_row].
  - cbn [col_eq]. rewrite String.eqb_refl. reflexivity.
  - destruct (col_eq v tag) eqn:E.
    + apply col_eq_true_iff in E. exfalso. apply Hn. left. exact E.
    + rewrite IH by (intros H; apply Hn; right; exact H).
      cbn [List.length]. f_equal. lia.
Qed.

Lemma find_in_rows_none (tag : string) (rows : Worksheet) :
  ~ In (Some tag) (List.concat rows) ->
  forall row_number, find_in_rows tag rows row_number = None.
Proof.
  induction rows as [|row tl IH]; intros Hn row_number; [reflexivity|].
  cbn [find_in_rows]. cbn [List.concat] in Hn.
  rewrite find_in_row_none by (intros H; apply Hn, in_or_app; left; exact H).
  apply IH. intros H. apply Hn, in_or_app. right. exact H.
Qed.

Lemma find_in_rows_first (tag : string) (rows_before rows_after : Worksheet)
  (pre post : list (option string)) :
  ~ In (Some tag) (List.concat rows_before) ->
  ~ In (Some tag) pre ->
  forall row_number,
    find_in_rows tag (rows_before ++ (pre ++ Some tag :: post) :: rows_after)
                 row_number
    = Some ((List.length rows_before + row_number)%nat, S (List.length pre)).
Proof.
  intros Hb Hp.
  induction rows_before as [|row tl IH]; intros row_number;
    cbn [app find_in_rows].
  - rewrite find_in_row_first by exact Hp. do 2 f_equal. lia.
  - cbn [List.concat] in Hb.
    rewrite find_in_row_none by (intros H; apply Hb, in_or_app; left; exact H).
    rewrite IH by (intros H; apply Hb, in_or_app; right; exact H).
    cbn [List.length]. do 2 f_equal. lia.
Qed.

(** X25.  [find_cell_by_tag] returns the coordinate of the first cell, in
    reading order, that holds the tag, however far into the sheet that cell
    is: the search limit does not stop a pass over the sheet. *)
Theorem find_cell_by_tag_finds_the_first :
  forall (tag : string) (rows_before rows_after : Worksheet)
         (pre post : list (option string)) (fuel : nat),
    ~ In (Some tag) (List.concat rows_before) ->
    ~ In (Some tag) pre ->
    find_cell_by_tag (S fuel)
      (rows_before ++ (pre ++ Some tag :: post) :: rows_after) tag
    = Returned (Some (S (List.length rows_before), S (List.length pre))).
Proof.
  intros tag rows_before rows_after pre post fuel Hb Hp.
  unfold find_cell_by_tag. cbn [find_cell_by_tag_loop Nat.leb].
  rewrite (find_in_rows_first tag rows_before rows_after pre post Hb Hp).
  do 3 f_equal. lia.
Qed.

Lemma find_cell_by_tag_witness :
  ~ In (Some "<start>"%string)
       (List.concat [[Some "Table 3"%string; None]])
  /\ ~ In (Some "<start>"%string) [None]
  /\ find_cell_by_tag 1
       ([[Some "Table 3"%string; None]]
        ++ ([None] ++ Some "<start>"%string :: [Some "<end>"%string]) :: [])
       "<start>"
     = Returned (Some (2%nat, 2%nat)).
Proof.
  assert (Hb : ~ In (Some "<start>"%string)
                    (List.concat [[Some "Table 3"%string; None]])).
  { cbn. intuition discriminate. }
  assert (Hp : ~ In (Some "<start>"%string) [None]).
  { cbn. intuition discriminate. }
  split; [exact Hb|]. split; [exact Hp|].
  exact (find_cell_by_tag_finds_the_first "<start>"
           [[Some "Table 3"%string; None]] [] [None]
           [Some "<end>"%string] 0 Hb Hp).
Defined.

Lemma find_cell_by_tag_loop_gives_up (ws : Worksheet) (tag : string) :
  find_in_rows tag ws 1 = None ->
  (0 < List.length (List.concat ws))%nat ->
  forall fuel iter,
    (S max_search - iter < fuel)%nat ->
    find_cell_by_tag_loop fuel ws tag iter = Returned None.
Proof.
  intros Hnone Hcells.
  induction fuel as [|fuel IH]; intros iter Hfuel; [lia|].
  cbn [find_cell_by_tag_loop]. rewrite Hnone.
  destruct (iter <=? max_search)%nat eqn:E; [|reflexivity].
  apply Nat.leb_le in E. apply IH. lia.
Qed.

Lemma find_cell_by_tag_loop_runs (ws : Worksheet) (tag : string) :
  List.concat ws = [] ->
  forall fuel, find_cell_by_tag_loop fuel ws tag 0 = Running.
Proof.
  intros Hempty.
  assert (Hnone : find_in_rows tag ws 1 = None).
  { apply find_in_rows_none. rewrite Hempty. intros []. }
  induction fuel as [|fuel IH]; [reflexivity|].
  cbn [find_cell_by_tag_loop Nat.leb]. rewrite Hnone, Hempty.
  exact IH.
Qed.

(** X26.  Without the tag on the sheet, [find_cell_by_tag] returns None
    within 1002 turns of its loop when the sheet has a cell, and never
    returns when the sheet has none: no pass adds to the counter. *)
Theorem find_cell_by_tag_without_the_tag :
  forall (ws : Worksheet) (tag : string),
    ~ In (Some tag) (List.concat ws) ->
    (List.concat ws <> [] ->
     forall fuel, (1002 <= fuel)%nat ->
                  find_cell_by_tag fuel ws tag = Returned None)
    /\ (List.concat ws = [] ->
        forall fuel, find_cell_by_tag fuel ws tag = Running).
Proof.
  intros ws tag Hn. split.
  - intros Hcells fuel Hfuel. unfold find_cell_by_tag.
    apply find_cell_by_tag_loop_gives_up.
    + apply find_in_rows_none, Hn.
    + destruct (List.concat ws); [congruence | cbn [List.length]; lia].
    + unfold max_search. lia.
  - intros Hempty fuel. apply find_cell_by_tag_loop_runs, Hempty.
Qed.

Lemma find_cell_by_tag_without_the_tag_witness :
  ~ In (Some "<end>"%string) (List.concat [[Some "Table 3"%string; None]])
  /\ find_cell_by_tag 1002 [[Some "Table 3"%string; None]] "<end>"
     = Returned None.
Proof.
  assert (Hn : ~ In (Some "<end>"%string)
                    (List.concat [[Some "Table 3"%string; None]])).
  { cbn. intuition discriminate. }
  split; [exact Hn|].
  apply (proj1 (find_cell_by_tag_without_the_tag
                  [[Some "Table 3"%string; None]] "<end>" Hn)).
  - discriminate.
  - apply Nat.le_refl.
Defined.


(* ------------------------------------------------------------------ *)
(** *** The age reference table *)

(** X27.  [create_age_cols] has one row for each sex and each single year
    of age from 0 to 119, males first, with the sex and the ten-year band of
    that age (90+ from 90 on); and what the list size steps make of every
    band and sex, with "-" for "_" and a capital first letter, is one of the
    categories of the age/gender table. *)
Theorem create_age_cols_bands :
  create_age_cols
  = flat_map
      (fun sex =>
         map (fun age =>
                AgeIndex.mk (sex ++ "_" ++ str age ++ "_" ++ str (age + 1))
                            sex
                            (sex ++ "_" ++ ten_year_band age)
                            (ten_year_band age))
             (seq 0 120))
      ["MALE"; "FEMALE"]%string
  /\ Forall (fun r =>
               In (replace_underscore (AgeIndex.AGE_BAND r))
                  AGE_BAND_CATEGORIES
               /\ In (capitalize (AgeIndex.GENDER r)) GENDER_CATEGORIES)
            create_age_cols.
Proof.
  split; [vm_compute; reflexivity|].
  apply Forall_forall. intros r Hr.
  assert (H : forallb
                (fun r =>
                   existsb (String.eqb (replace_underscore (AgeIndex.AGE_BAND r)))
                           AGE_BAND_CATEGORIES
                   && existsb (String.eqb (capitalize (AgeIndex.GENDER r)))
                              GENDER_CATEGORIES)
                create_age_cols = true) by (vm_compute; reflexivity).
  rewrite forallb_forall in H. specialize (H r Hr).
  apply andb_true_iff in H. destruct H as [Ha Hg].
  apply existsb_exists in Ha. destruct Ha as (a & Ha & Ea).
  apply existsb_exists in Hg. destruct Hg as (g & Hg & Eg).
  apply String.eqb_eq in Ea, Eg. rewrite Ea, Eg. auto.
Qed.

(* ------------------------------------------------------------------ *)
(** *** The rows of the report month, at a sample table *)

Lemma filter_data_to_current_month_witness :
  let df :=
    [ (0%nat, Csv.mk (Some d_2022_07_01) (Some "All"%string)
                     (Some "All"%string) 2 (Some 5) (FNum (inject_Z 40)));
      (1%nat, Csv.mk (Some d_2022_06_01) (Some "All"%string)
                     (Some "All"%string) 1 (Some 5) (FNum (inject_Z 20))) ] in
  printable_date (end_date sample_report_dates)
  /\ (forall p d, In p df -> Csv.ACH_DATE (snd p) = Some d ->
                  printable_date d)
  /\ filter_data_to_current_month (format_publication_date df)
                                  sample_report_dates
     = format_publication_date
         (filter (fun p => match Csv.ACH_DATE (snd p) with
                           | Some d => date_eqb d (end_date sample_report_dates)
                           | None => false
                           end) df).
Proof.
  intros df.
  assert (Hend : printable_date (end_date sample_report_dates)).
  { repeat split; vm_compute; intro; discriminate. }
  assert (Hdf : forall p d, In p df -> Csv.ACH_DATE (snd p) = Some d ->
                            printable_date d).
  { intros p d [<- | [<- | []]] [= <-];
      repeat split; vm_compute; intro; discriminate. }
  split; [exact Hend|]. split; [exact Hdf|].
  exact (filter_data_to_current_month_by_date df sample_report_dates
           Hend Hdf).
Defined.


(* ------------------------------------------------------------------ *)
(** *** The list sizes that a numerator row can find *)

Lemma NoDup_app_disjoint {A : Type} (l1 l2 : list A) :
  NoDup l1 -> NoDup l2 -> (forall x, In x l1 -> ~ In x l2) ->
  NoDup (l1 ++ l2).
Proof.
  induction 1 as [|a l Ha Hl IH]; intros H2 Hd; cbn [app]; [exact H2|].
  constructor.
  - intros Hin. apply in_app_or in Hin. destruct Hin as [Hin | Hin];
      [exact (Ha Hin) | exact (Hd a (or_introl eq_refl) Hin)].
  - apply IH; [exact H2|]. intros x Hx. apply Hd. right. exact Hx.
Qed.

Lemma filter_at_most_one {A B : Type} (f : A -> B) (p : A -> bool) (c : B)
  (l : list A) :
  NoDup (map f l) ->
  (forall x, In x l -> p x = true -> f x = c) ->
  (List.length (filter p l) <= 1)%nat.
Proof.
  induction l as [|a l IH]; intros Hnd Hc; cbn [filter]; [cbn; lia|].
  cbn [map] in Hnd. inversion Hnd as [|x xs Ha Hl]; subst.
  assert (IH' := IH Hl (fun x Hx => Hc x (or_intror Hx))).
  destruct (p a) eqn:E; [|exact IH'].
  destruct (filter p l) as [|b bs] eqn:Ef; [cbn; lia|].
  exfalso. apply Ha.
  assert (Hb : In b (filter p l)) by (rewrite Ef; left; reflexivity).
  apply filter_In in Hb. destruct Hb as [Hb Hpb].
  rewrite (Hc a (or_introl eq_refl) E), <- (Hc b (or_intror Hb) Hpb).
  apply in_map, Hb.
Qed.

(** The labels of the age reference table stay apart when the list size
    steps rewrite them, and none becomes "All". *)
Lemma reference_labels_stay_apart :
  (forall b b', In b (map AgeIndex.AGE_BAND create_age_cols) ->
                In b' (map AgeIndex.AGE_BAND create_age_cols) ->
                replace_underscore b = replace_underscore b' -> b = b')
  /\ (forall b, In b (map AgeIndex.AGE_BAND create_age_cols) ->
                replace_underscore b <> "All"%string)
  /\ (forall s s', In s (map AgeIndex.GENDER create_age_cols) ->
                   In s' (map AgeIndex.GENDER create_age_cols) ->
                   capitalize s = capitalize s' -> s = s')
  /\ (forall s, In s (map AgeIndex.GENDER create_age_cols) ->
                capitalize s <> "All"%string).
Proof.
  assert (Hcheck : forall (f : string -> string) (labels : list string),
             forallb
               (fun b =>
                  negb (String.eqb (f b) "All")
                  && forallb (fun b' => implb (String.eqb (f b) (f b'))
                                              (String.eqb b b')) labels)
               labels = true ->
             (forall b b', In b labels -> In b' labels -> f b = f b' -> b = b')
             /\ (forall b, In b labels -> f b <> "All"%string)).
  { intros f labels H. rewrite forallb_forall in H. split.
    - intros b b' Hb Hb' E. specialize (H b Hb).
      apply andb_true_iff in H. destruct H as [_ H].
      rewrite forallb_forall in H. specialize (H b' Hb').
      rewrite E, String.eqb_refl in H. apply String.eqb_eq, H.
    - intros b Hb E. specialize (H b Hb).
      apply andb_true_iff in H. destruct H as [H _].
      rewrite E in H. discriminate. }
  destruct (Hcheck replace_underscore
              (map AgeIndex.AGE_BAND create_age_cols)) as [H1 H2];
    [vm_compute; reflexivity|].
  destruct (Hcheck capitalize (map AgeIndex.GENDER create_age_cols))
    as [H3 H4]; [vm_compute; reflexivity|].
  auto.
Qed.

(** The join key of the list size row that a group key becomes. *)
Lemma list_size_for_age_gen_csv_keys (list_size_df : list ListSize.row) :
  map join_key (list_size_for_age_gen_csv list_size_df)
  = flat_map
      (fun measure =>
         map (fun k =>
                (cell_date (key_lookup measure k COL_ACH_DATE),
                 fillna (option_map replace_underscore
                           (cell_str (key_lookup measure k COL_AGE_BAND)))
                        "All"%string,
                 fillna (option_map capitalize
                           (cell_str (key_lookup measure k COL_GENDER)))
                        "All"%string))
             (sort_by key_leb
                (unique (keys_on (group_key measure) list_size_df))))
      age_gen_list_size_measure_groups.
Proof.
  unfold list_size_for_age_gen_csv, remap_gender_column, remap_age_band.
  rewrite !map_map.
  induction age_gen_list_size_measure_groups as [|m ms IH]; [reflexivity|].
  cbn [map List.concat flat_map]. rewrite map_app, IH. f_equal.
  unfold aggregate_list_size_by_measure.
  rewrite groupby_as_groupby_on. unfold groupby_on.
  rewrite !map_map. reflexivity.
Qed.

Section ListSizeKeys.
Variable list_size_df : list ListSize.row.
Hypothesis bands :
  forall r band, In r list_size_df -> ListSize.AGE_BAND r = Some band ->
                 In band (map AgeIndex.AGE_BAND create_age_cols).
Hypothesis sexes :
  forall r sex, In r list_size_df -> ListSize.GENDER r = Some sex ->
                In sex (map AgeIndex.GENDER create_age_cols).

Let published_key (measure : list Column) (k : list cell)
  : option Date * option string * option string :=
  (cell_date (key_lookup measure k COL_ACH_DATE),
   fillna (option_map replace_underscore
             (cell_str (key_lookup measure k COL_AGE_BAND))) "All"%string,
   fillna (option_map capitalize
             (cell_str (key_lookup measure k COL_GENDER))) "All"%string).

Let is_total (key : option Date * option string * option string)
  : bool * bool :=
  (col_eq (snd (fst key)) "All", col_eq (snd key) "All").

Let group_keys (measure : list Column) : list (list cell) :=
  sort_by key_leb (unique (keys_on (group_key measure) list_size_df)).

Lemma published_key_of_row (measure : list Column) (r : ListSize.row)
  (k : list cell) :
  In measure age_gen_list_size_measure_groups ->
  In r list_size_df ->
  group_key measure r = Some k ->
  exists d band sex,
    published_key measure k
    = (Some d,
       Some (if existsb (Column_eqb COL_AGE_BAND) measure
             then replace_underscore band else "All"%string),
       Some (if existsb (Column_eqb COL_GENDER) measure
             then capitalize sex else "All"%string))
    /\ k = [CDate d]
           ++ (if existsb (Column_eqb COL_AGE_BAND) measure
               then [CStr band] else [])
           ++ (if existsb (Column_eqb COL_GENDER) measure
               then [CStr sex] else [])
    /\ (existsb (Column_eqb COL_AGE_BAND) measure = true ->
        In band (map AgeIndex.AGE_BAND create_age_cols))
    /\ (existsb (Column_eqb COL_GENDER) measure = true ->
        In sex (map AgeIndex.GENDER create_age_cols)).
Proof.
  intros Hm Hr Hk. unfold age_gen_list_size_measure_groups in Hm.
  pose proof (bands r) as Hb. pose proof (sexes r) as Hs.
  set (band := match ListSize.AGE_BAND r with
               | Some b => b
               | None => EmptyString
               end).
  set (sex := match ListSize.GENDER r with
              | Some s => s
              | None => EmptyString
              end).
  destruct Hm as [<- | [<- | [<- | [<- | []]]]];
    cbn [group_key] in Hk; unfold column_value, ListSize_columns in Hk;
    (destruct (ListSize.ACH_DATE r) as [d|]; [|discriminate]);
    exists d, band, sex; subst band sex;
    destruct (ListSize.AGE_BAND r) as [band|];
    destruct (ListSize.GENDER r) as [sex|];
    cbn [option_map] in Hk; try discriminate;
    injection Hk as <-;
    unfold published_key;
    cbn [key_lookup Column_eqb cell_date cell_str option_map fillna existsb
         orb app];
    (split; [reflexivity|]); (split; [reflexivity|]);
    split; intros E; try discriminate;
    try (apply Hb; [exact Hr | reflexivity]);
    try (apply Hs; [exact Hr | reflexivity]).
Qed.

Lemma group_keys_from_rows (measure : list Column) (k : list cell) :
  In k (group_keys measure) ->
  exists r, In r list_size_df /\ group_key measure r = Some k.
Proof.
  intros Hk. unfold group_keys in Hk.
  apply (Permutation_in _ (Permutation_sym (sort_by_Permutation _ _))) in Hk.
  apply In_unique, In_keys_on in Hk. exact Hk.
Qed.

Lemma published_keys_NoDup (measure : list Column) :
  In measure age_gen_list_size_measure_groups ->
  NoDup (map (published_key measure) (group_keys measure)).
Proof.
  intros Hm. apply NoDup_map_inj_in.
  - apply (Permutation_NoDup (sort_by_Permutation _ _)), NoDup_unique.
  - intros k1 k2 H1 H2 E.
    destruct (group_keys_from_rows measure k1 H1) as (r1 & Hr1 & Hk1).
    destruct (group_keys_from_rows measure k2 H2) as (r2 & Hr2 & Hk2).
    destruct (published_key_of_row measure r1 k1 Hm Hr1 Hk1)
      as (d1 & b1 & s1 & P1 & -> & Hb1 & Hs1).
    destruct (published_key_of_row measure r2 k2 Hm Hr2 Hk2)
      as (d2 & b2 & s2 & P2 & -> & Hb2 & Hs2).
    rewrite P1, P2 in E. injection E as Ed Eb Es. subst d2.
    destruct reference_labels_stay_apart as (Hbi & _ & Hsi & _).
    destruct (existsb (Column_eqb COL_AGE_BAND) measure);
      destruct (existsb (Column_eqb COL_GENDER) measure);
      try rewrite (Hbi b1 b2 (Hb1 eq_refl) (Hb2 eq_refl) Eb);
      try rewrite (Hsi s1 s2 (Hs1 eq_refl) (Hs2 eq_refl) Es);
      reflexivity.
Qed.

Lemma published_keys_total (measure : list Column)
  (key : option Date * option string * option string) :
  In measure age_gen_list_size_measure_groups ->
  In key (map (published_key measure) (group_keys measure)) ->
  is_total key
  = (negb (existsb (Column_eqb COL_AGE_BAND) measure),
     negb (existsb (Column_eqb COL_GENDER) measure)).
Proof.
  intros Hm Hkey. apply in_map_iff in Hkey. destruct Hkey as (k & <- & Hk).
  destruct (group_keys_from_rows measure k Hk) as (r & Hr & Hkr).
  destruct (published_key_of_row measure r k Hm Hr Hkr)
    as (d & b & s & -> & _ & Hb & Hs).
  destruct reference_labels_stay_apart as (_ & Hbn & _ & Hsn).
  unfold is_total. cbn [fst snd col_eq].
  destruct (existsb (Column_eqb COL_AGE_BAND) measure);
    destruct (existsb (Column_eqb COL_GENDER) measure); cbn [negb];
    f_equal; try reflexivity;
    try (apply String.eqb_neq, Hbn, Hb; reflexivity);
    try (apply String.eqb_neq, Hsn, Hs; reflexivity).
Qed.

Lemma join_keys_NoDup :
  NoDup (map join_key (list_size_for_age_gen_csv list_size_df)).
Proof.
  rewrite list_size_for_age_gen_csv_keys.
  change (NoDup (flat_map (fun measure =>
                             map (published_key measure) (group_keys measure))
                          age_gen_list_size_measure_groups)).
  assert (Hin : forall m, In m age_gen_list_size_measure_groups ->
                          In m age_gen_list_size_measure_groups) by auto.
  unfold age_gen_list_size_measure_groups in Hin |- * at 1.
  cbn [flat_map]. rewrite app_nil_r.
  assert (H1 := Hin _ (or_introl eq_refl)).
  assert (H2 := Hin _ (or_intror (or_introl eq_refl))).
  assert (H3 := Hin _ (or_intror (or_intror (or_introl eq_refl)))).
  assert (H4 := Hin _ (or_intror (or_intror (or_intror (or_introl eq_refl))))).
  repeat apply NoDup_app_disjoint;
    try (apply published_keys_NoDup; assumption);
    intros key Hk Hk';
    repeat (apply in_app_or in Hk'; destruct Hk' as [Hk' | Hk']);
    apply published_keys_total in Hk; try assumption;
    apply published_keys_total in Hk'; try assumption;
    rewrite Hk in Hk'; discriminate.
Qed.
End ListSizeKeys.

Lemma merge_key_eqb_join_key (a : Agg.row) (l : ListSizeAgg.row) :
  merge_key_eqb a l = true ->
  join_key l = (Agg.ACH_DATE a, Some (Agg.AGE_BAND a), Some (Agg.GENDER a)).
Proof.
  unfold merge_key_eqb, join_key.
  rewrite !andb_true_iff, !col_eq_true_iff. intros [[Hd ->] ->].
  destruct (Agg.ACH_DATE a) as [d|]; [|discriminate].
  destruct (ListSizeAgg.ACH_DATE l) as [d'|]; [|discriminate].
  apply date_eqb_eq in Hd. subst d'. reflexivity.
Qed.

(** X28.  With the age bands and the sexes of the age reference table,
    [list_size_for_age_gen_csv] has at most one row for a date, an age band
    and a gender, so a numerator row of the age/gender table finds at most
    one list size. *)
Theorem reference_labels_give_one_list_size :
  forall (list_size_df : list ListSize.row) (a : Agg.row),
    (forall r band, In r list_size_df -> ListSize.AGE_BAND r = Some band ->
                    In band (map AgeIndex.AGE_BAND create_age_cols)) ->
    (forall r sex, In r list_size_df -> ListSize.GENDER r = Some sex ->
                   In sex (map AgeIndex.GENDER create_age_cols)) ->
    NoDup (map join_key (list_size_for_age_gen_csv list_size_df))
    /\ (List.length (filter (merge_key_eqb a)
                            (list_size_for_age_gen_csv list_size_df))
        <= 1)%nat.
Proof.
  intros list_size_df a Hb Hs.
  assert (Hnd := join_keys_NoDup list_size_df Hb Hs).
  split; [exact Hnd|].
  apply (filter_at_most_one join_key (merge_key_eqb a)
           (Agg.ACH_DATE a, Some (Agg.AGE_BAND a), Some (Agg.GENDER a)));
    [exact Hnd|].
  intros l _. apply merge_key_eqb_join_key.
Qed.

Lemma In_by_eqb (s : string) (l : list string) :
  existsb (String.eqb s) l = true -> In s l.
Proof.
  intros H. apply existsb_exists in H. destruct H as (x & Hx & E).
  apply String.eqb_eq in E. subst x. exact Hx.
Qed.

Lemma reference_labels_witness :
  (forall r band, In r sample_list_size -> ListSize.AGE_BAND r = Some band ->
                  In band (map AgeIndex.AGE_BAND create_age_cols))
  /\ (forall r sex, In r sample_list_size -> ListSize.GENDER r = Some sex ->
                    In sex (map AgeIndex.GENDER create_age_cols))
  /\ (List.length
        (filter (merge_key_eqb
                   (Agg.mk (Some d_2022_07_01) "All" "Male" 1))
                (list_size_for_age_gen_csv sample_list_size))
      <= 1)%nat.
Proof.
  assert (Hb : forall r band,
             In r sample_list_size -> ListSize.AGE_BAND r = Some band ->
             In band (map AgeIndex.AGE_BAND create_age_cols)).
  { intros r band [<- | [<- | []]] [= <-];
      apply In_by_eqb; vm_compute; reflexivity. }
  assert (Hs : forall r sex,
             In r sample_list_size -> ListSize.GENDER r = Some sex ->
             In sex (map AgeIndex.GENDER create_age_cols)).
  { intros r sex [<- | [<- | []]] [= <-];
      apply In_by_eqb; vm_compute; reflexivity. }
  split; [exact Hb|]. split; [exact Hs|].
  exact (proj2 (reference_labels_give_one_list_size sample_list_size
                  (Agg.mk (Some d_2022_07_01) "All" "Male" 1) Hb Hs)).
Defined.

(** Labels that the list size steps merge give a numerator row two list
    sizes: "MALE" and "male" both become "Male". *)
Example merged_labels_give_two_list_sizes :
  List.length
    (filter (merge_key_eqb (Agg.mk (Some d_2022_07_01) "All" "Male" 1))
            (list_size_for_age_gen_csv
               [ ListSize.mk (Some "A81001"%string) (Some d_2022_07_01)
                             (Some "40_49"%string) (Some "MALE"%string)
                             (Some 5);
                 ListSize.mk (Some "A81001"%string) (Some d_2022_07_01)
                             (Some "40_49"%string) (Some "male"%string)
                             (Some 7) ]))
  = 2%nat.
Proof. reflexivity. Qed.
